(** * PDU controller: telemetry ingestion and energy accounting

    A shallow embedding of the telemetry and accounting code of
    [PDUControllerJF.py]: [parse_telemetry], the flight toggle of the event
    loop of [main], and the group and battery part of
    [refresh_telemetry_stats_on_gui]; then the lines of the [Logger] and
    its [load_log], the commands, the auto-refresh block and the reception
    block of the event loop, and the replies of [simPDU.py].

    Conventions of the embedding.
    - A Python [float] is an exact rational ([Q]): rounding, infinities and
      NaN are not represented.  Equalities between computed amounts are
      stated with [==]; a statement about a comparison or a truncation of
      computed amounts is made where rounding cannot change its result.
    - A [str] is a [string] holding its UTF-8 encoding, so that a text of
      the wire format, which is ASCII, is the [string] of its characters.
    - The module globals ([in_flight], [battery], [output], [group1],
      [group2], [window]) are one record threaded through a state and
      exception monad; the lines handed to the logger are collected next to
      it.  The entries of [battery] hold the numbers [float(...)] gives for
      the configured settings.
    - The conversions done by the Python runtime ([float(...)] of a text,
      [datetime.fromisoformat(...).timestamp()]) are fields of a [Runtime]
      record; the reading of [datetime.utcnow().timestamp()] a call would
      observe is an argument of that call. *)

From stdpp Require Import list strings.
From Stdlib Require Import Ascii ZArith QArith Qabs Qround Lqa.
Close Scope Q_scope.

(** ** Strings *)

(** [raw_packet.split(",")]: one field per separator, never an empty list. *)
Fixpoint split (sep : ascii) (s : string) : list string :=
  match s with
  | EmptyString => [EmptyString]
  | String c s' =>
      if Ascii.eqb c sep then EmptyString :: split sep s'
      else match split sep s' with
           | f :: fs => String c f :: fs
           | [] => [String c EmptyString]
           end
  end.

Definition is_digit_char (c : ascii) : bool :=
  (48 <=? nat_of_ascii c)%nat && (nat_of_ascii c <=? 57)%nat.

Fixpoint all_digits (s : string) : bool :=
  match s with
  | EmptyString => true
  | String c s' => is_digit_char c && all_digits s'
  end.

(** A text of ASCII digits, at least one: the texts on which [s.isdigit()]
    holds and [int(s)] is [int s] below.  What [s.isdigit()] and [int(s)]
    are on any text is [str_isdigit] and [str_int]. *)
Definition isdigit (s : string) : bool :=
  match s with
  | EmptyString => false
  | String _ _ => all_digits s
  end.

Fixpoint int_digits (acc : Z) (s : string) : Z :=
  match s with
  | EmptyString => acc
  | String c s' => int_digits (10 * acc + (Z.of_nat (nat_of_ascii c) - 48)) s'
  end.

(** The number a text of ASCII digits writes. *)
Definition int (s : string) : Z := int_digits 0 s.

(** ** Text beyond ASCII

    A [str] is represented by its UTF-8 encoding.  [split], [==] and [+]
    act on the encoding as they act on the characters; [str.isdigit()],
    [int()] and [str.strip()] look at the characters, which are decoded
    here. *)

(** The code points of a UTF-8 text; [None] for bytes that are no UTF-8
    text.  Every lead byte is followed by its continuation bytes. *)
Definition continuation (c : ascii) : option N :=
  let n := N_of_ascii c in
  if (128 <=? n)%N && (n <=? 191)%N then Some (n - 128)%N else None.

Fixpoint utf8_decode (s : string) : option (list N) :=
  match s with
  | EmptyString => Some []
  | String c s1 =>
      let n := N_of_ascii c in
      if (n <? 128)%N then cons n <$> utf8_decode s1
      else if (194 <=? n)%N && (n <=? 223)%N then
        match s1 with
        | String c1 s2 =>
            x1 ← continuation c1;
            cons ((n - 192) * 64 + x1)%N <$> utf8_decode s2
        | _ => None
        end
      else if (224 <=? n)%N && (n <=? 239)%N then
        match s1 with
        | String c1 (String c2 s3) =>
            x1 ← continuation c1; x2 ← continuation c2;
            cons (((n - 224) * 64 + x1) * 64 + x2)%N <$> utf8_decode s3
        | _ => None
        end
      else if (240 <=? n)%N && (n <=? 244)%N then
        match s1 with
        | String c1 (String c2 (String c3 s4)) =>
            x1 ← continuation c1; x2 ← continuation c2; x3 ← continuation c3;
            cons ((((n - 240) * 64 + x1) * 64 + x2) * 64 + x3)%N
              <$> utf8_decode s4
        | _ => None
        end
      else None
  end.

(** The characters for which [str.isdigit()] holds, as ranges of code
    points (Unicode 14.0.0, the tables of CPython 3.11): the decimal digits,
    which [int()] accepts and which come in runs of ten from zero to nine,
    and the other digits (superscripts, circled digits and the like), on
    which [int()] raises [ValueError]. *)
Definition decimal_digits : list (N * N) :=
  [(48, 57); (1632, 1641); (1776, 1785); (1984, 1993); (2406, 2415);
   (2534, 2543); (2662, 2671); (2790, 2799); (2918, 2927); (3046, 3055);
   (3174, 3183); (3302, 3311); (3430, 3439); (3558, 3567); (3664, 3673);
   (3792, 3801); (3872, 3881); (4160, 4169); (4240, 4249); (6112, 6121);
   (6160, 6169); (6470, 6479); (6608, 6617); (6784, 6793); (6800, 6809);
   (6992, 7001); (7088, 7097); (7232, 7241); (7248, 7257); (42528, 42537);
   (43216, 43225); (43264, 43273); (43472, 43481); (43504, 43513);
   (43600, 43609); (44016, 44025); (65296, 65305); (66720, 66729);
   (68912, 68921); (69734, 69743); (69872, 69881); (69942, 69951);
   (70096, 70105); (70384, 70393); (70736, 70745); (70864, 70873);
   (71248, 71257); (71360, 71369); (71472, 71481); (71904, 71913);
   (72016, 72025); (72784, 72793); (73040, 73049); (73120, 73129);
   (92768, 92777); (92864, 92873); (93008, 93017); (120782, 120831);
   (123200, 123209); (123632, 123641); (125264, 125273); (130032, 130041)]%N.

Definition other_digits : list (N * N) :=
  [(178, 179); (185, 185); (4969, 4977); (6618, 6618); (8304, 8304);
   (8308, 8313); (8320, 8329); (9312, 9320); (9332, 9340); (9352, 9360);
   (9450, 9450); (9461, 9469); (9471, 9471); (10102, 10110); (10112, 10120);
   (10122, 10130); (68160, 68163); (69216, 69224); (69714, 69722);
   (127232, 127242)]%N.

Definition in_ranges (table : list (N * N)) (c : N) : bool :=
  existsb (λ r, (r.1 <=? c)%N && (c <=? r.2)%N) table.

Definition decimal_value (c : N) : option Z :=
  (λ r, Z.of_N ((c - r.1) mod 10)) <$>
    find (λ r, (r.1 <=? c)%N && (c <=? r.2)%N) decimal_digits.

(** [s.isdigit()]: at least one character, and all of them digits. *)
Definition str_isdigit (s : string) : bool :=
  match utf8_decode s with
  | Some (c :: cs) =>
      forallb (λ c, in_ranges decimal_digits c || in_ranges other_digits c)
        (c :: cs)
  | _ => false
  end.

Fixpoint decimal_digits_value (acc : Z) (cs : list N) : option Z :=
  match cs with
  | [] => Some acc
  | c :: cs' => d ← decimal_value c; decimal_digits_value (10 * acc + d) cs'
  end.

(** [int(s)] for a text that passed [s.isdigit()]: the number its decimal
    digits write, [None] when it raises [ValueError] because one of the
    digits is not a decimal digit.  The limit of Python 3.11 on the number
    of digits is not represented. *)
Definition str_int (s : string) : option Z :=
  cs ← utf8_decode s; decimal_digits_value 0 cs.

(** ** Numbers *)

Definition Qltb (x y : Q) : bool := negb (Qle_bool y x).

(** [int(x)] of a float: truncation toward zero. *)
Definition int_of_float (x : Q) : Z := (Qnum x ÷ Z.pos (Qden x))%Z.

(** ** The module globals *)

Definition _HEATERS_ : nat := 6.

Record Battery := mkBattery {
  nominal_voltage : Q;
  heaters_consumption : Q;
  max_wh : Q;
  progress_wh : Q
}.

Record Output := mkOutput {
  current : list Q;
  last_update_time : list Q;   (* 7th item: heater's last update *)
  accumulated_Wh : list Q;     (* 7th item: heater's accumulated Wh *)
  is_on : list bool
}.

Record Group := mkGroup { A : Q; Wh : Q; limit_Wh : Q }.

Inductive Colour := ThemeColour | Red | White.

(** The widget properties the statements are about: the text of the flight
    button, the background colours of the limits and of the sums of the
    groups, the two battery texts and the progress bar.  The texts of the
    service buttons, of the currents and of the sums of the groups, which
    [refresh_telemetry_stats_on_gui] also writes, are not represented. *)
Record Window := mkWindow {
  FLIGHT_TOGGLE : string;
  GR1_LIMIT_WH_bg : Colour;
  GR1_WH_bg : Colour;
  GR2_LIMIT_WH_bg : Colour;
  GR2_WH_bg : Colour;
  BATTERY_WH : option Q;
  BATTERY_PERCENT : option Z;
  BATTERY_PROGRESS : Z
}.

Record Globals := mkGlobals {
  in_flight : bool;
  battery : Battery;
  output : Output;
  group1 : Group;
  group2 : Group;
  window : Window
}.

(** The values [main] gives the globals before its loop starts. *)
Definition main_globals : Globals :=
  {| in_flight := false;
     battery := {| nominal_voltage := 28; heaters_consumption := 9 # 10;
                   max_wh := 3750; progress_wh := 3750 |};
     output := {| current := [0; 0; 0; 0; 0; 0]%Q;
                  last_update_time := [0; 0; 0; 0; 0; 0; 0]%Q;
                  accumulated_Wh := [0; 0; 0; 0; 0; 0; 0]%Q;
                  is_on := [false; false; false; false; false; false] |};
     group1 := {| A := 0; Wh := 0; limit_Wh := 0 |};
     group2 := {| A := 0; Wh := 0; limit_Wh := 0 |};
     window := {| FLIGHT_TOGGLE := "START FLIGHT";
                  GR1_LIMIT_WH_bg := ThemeColour; GR1_WH_bg := ThemeColour;
                  GR2_LIMIT_WH_bg := ThemeColour; GR2_WH_bg := ThemeColour;
                  BATTERY_WH := None; BATTERY_PERCENT := None;
                  BATTERY_PROGRESS := 0 |} |}.

Definition with_in_flight (b : bool) (g : Globals) : Globals :=
  mkGlobals b (battery g) (output g) (group1 g) (group2 g) (window g).

Definition with_battery (b : Battery) (g : Globals) : Globals :=
  mkGlobals (in_flight g) b (output g) (group1 g) (group2 g) (window g).

Definition with_output (o : Output) (g : Globals) : Globals :=
  mkGlobals (in_flight g) (battery g) o (group1 g) (group2 g) (window g).

Definition with_window (w : Window) (g : Globals) : Globals :=
  mkGlobals (in_flight g) (battery g) (output g) (group1 g) (group2 g) w.

(** Every list of [output] keeps the length [main] gave it: the code only
    assigns items. *)
Record shaped (g : Globals) : Prop := mkShaped {
  shaped_current : length (current (output g)) = 6;
  shaped_last_update_time : length (last_update_time (output g)) = 7;
  shaped_accumulated_Wh : length (accumulated_Wh (output g)) = 7;
  shaped_is_on : length (is_on (output g)) = 6
}.

(** ** Effects: globals, logger, exceptions *)

Inductive PyExn := IndexError | ValueError | ZeroDivisionError.

(** A line handed to [log.warning] or [log.event] (the logger adds the
    ground prefix and the time itself). *)
Inductive LogLine := WARNING (msg : string) | EVENT (msg : string).

Inductive Outcome (T : Type) :=
  | Ok (x : T) (g : Globals) (log : list LogLine)
  | Exn (e : PyExn) (g : Globals) (log : list LogLine).
Arguments Ok {T} x g log.
Arguments Exn {T} e g log.

Definition Py (T : Type) : Type := Globals → list LogLine → Outcome T.

#[global] Instance Py_ret : MRet Py := λ T x g log, Ok x g log.

#[global] Instance Py_bind : MBind Py := λ T U f m g log,
  match m g log with
  | Ok x g' log' => f x g' log'
  | Exn e g' log' => Exn e g' log'
  end.

Definition raise {T} (e : PyExn) : Py T := λ g log, Exn e g log.
Definition gets {T} (f : Globals → T) : Py T := λ g log, Ok (f g) g log.
Definition modify (f : Globals → Globals) : Py unit := λ g log, Ok tt (f g) log.
Definition log_warning (msg : string) : Py unit :=
  λ g log, Ok tt g (log ++ [WARNING msg]).
Definition log_event (msg : string) : Py unit :=
  λ g log, Ok tt g (log ++ [EVENT msg]).
Definition pass : Py unit := mret tt.

(** The globals and the logger lines a call ends with, returned or raised. *)
Definition globals_of {T} (o : Outcome T) : Globals :=
  match o with Ok _ g _ | Exn _ g _ => g end.
Definition log_of {T} (o : Outcome T) : list LogLine :=
  match o with Ok _ _ l | Exn _ _ l => l end.
Definition raised {T} (o : Outcome T) : option PyExn :=
  match o with Ok _ _ _ => None | Exn e _ _ => Some e end.

(** [l[i]] for a non-negative [i]. *)
Definition getitem {T} (l : list T) (i : nat) : Py T :=
  match l !! i with
  | Some x => mret x
  | None => raise IndexError
  end.

(** [l[i] = x] on one of the lists of [output]. *)
Definition setitem {T} (field : Output → list T)
    (store : list T → Output → Output) (i : nat) (x : T) : Py unit :=
  l ← gets (λ g, field (output g));
  if (i <? length l)%nat
  then modify (λ g, with_output (store (<[i:=x]> l) (output g)) g)
  else raise IndexError.

Definition store_current (l : list Q) (o : Output) : Output :=
  mkOutput l (last_update_time o) (accumulated_Wh o) (is_on o).
Definition store_last_update_time (l : list Q) (o : Output) : Output :=
  mkOutput (current o) l (accumulated_Wh o) (is_on o).
Definition store_accumulated_Wh (l : list Q) (o : Output) : Output :=
  mkOutput (current o) (last_update_time o) l (is_on o).
Definition store_is_on (l : list bool) (o : Output) : Output :=
  mkOutput (current o) (last_update_time o) (accumulated_Wh o) l.

Definition get_current (i : nat) : Py Q :=
  l ← gets (λ g, current (output g)); getitem l i.
Definition get_last_update_time (i : nat) : Py Q :=
  l ← gets (λ g, last_update_time (output g)); getitem l i.
Definition get_accumulated_Wh (i : nat) : Py Q :=
  l ← gets (λ g, accumulated_Wh (output g)); getitem l i.

Definition set_current := setitem current store_current.
Definition set_last_update_time := setitem last_update_time store_last_update_time.
Definition set_accumulated_Wh := setitem accumulated_Wh store_accumulated_Wh.
Definition set_is_on := setitem is_on store_is_on.

(** ** The Python runtime *)

Record Runtime := mkRuntime {
  (** [float(text)]; [None] when it raises [ValueError]. *)
  float : string → option Q;
  (** [datetime.fromisoformat(text).timestamp()]; [None] when it raises. *)
  fromisoformat_timestamp : string → option Q
}.

Definition float_of (rt : Runtime) (text : string) : Py Q :=
  match float rt text with
  | Some x => mret x
  | None => raise ValueError
  end.

(** [int(text)] under the guard [text.isdigit()]. *)
Definition int_of (text : string) : Py Z :=
  match str_int text with
  | Some n => mret n
  | None => raise ValueError
  end.

(** ** [parse_telemetry]

    The flag [is_save_to_log_file] only tells the logger whether to write
    its file and is left out.  The function is cut into the blocks its
    comments delimit: the [EVENT] block of a packet from another source,
    the [SRVCSET] block and the [STATUS] block. *)

(** The heater's share of one interval, as both heater paths compute it. *)
Definition heaters_Wh (b : Battery) (delta : Q) : Q :=
  (heaters_consumption b * (delta / 3600) * nominal_voltage b)%Q.

Definition parse_EVENT (packet : list string) (time_of_reception : Q) : Py unit :=
  p3 ← getitem packet 3;
  if (p3 =? "START_FLIGHT")%string then
    modify (with_in_flight true);;
    set_last_update_time _HEATERS_ time_of_reception
  else if (p3 =? "END_FLIGHT")%string then
    armed ← get_last_update_time _HEATERS_;
    if Qltb 0 armed then
      modify (with_in_flight false);;
      last ← get_last_update_time _HEATERS_;
      let delta := (time_of_reception - last)%Q in
      (if Qltb 0 delta then
         acc ← get_accumulated_Wh _HEATERS_;
         b ← gets battery;
         set_accumulated_Wh _HEATERS_ (acc + heaters_Wh b delta)%Q
       else pass);;
      set_last_update_time _HEATERS_ 0%Q
    else pass
  else pass.

Definition parse_SRVCSET (packet : list string) : Py unit :=
  if (length packet <? 5)%nat then
    log_warning "SRVCSET packet error - Too short"
  else
    service_id ← getitem packet 3;
    service_state ← getitem packet 4;
    if str_isdigit service_id then
      index ← int_of service_id;
      if (1 <=? index)%Z && (index <=? 6)%Z then
        let index := Z.to_nat (index - 1) in
        set_is_on index (service_state =? "1")%string
      else
        log_warning ("Service index (" +:+ service_id
                       +:+ ") out of range for SRVCSET received")
    else
      log_warning ("Bad service index (" +:+ service_id
                     +:+ ") for SRVCSET received").

Definition parse_STATUS (rt : Runtime) (packet : list string)
    (time_of_reception : Q) : Py unit :=
  if (length packet <? 5)%nat then
    log_warning "STATUS packet error - Too short"
  else
    service_id ← getitem packet 3;
    value ← getitem packet 4;
    if str_isdigit service_id then
      index ← int_of service_id;
      if (1 <=? index)%Z && (index <=? 6)%Z then
        let index := Z.to_nat (index - 1) in
        amps ← float_of rt value;
        set_current index amps;;
        last ← get_last_update_time index;
        (if Qltb 0 last then
           last ← get_last_update_time index;
           let delta := (time_of_reception - last)%Q in
           acc ← get_accumulated_Wh index;
           cur ← get_current index;
           b ← gets battery;
           set_accumulated_Wh index
             (acc + cur * (delta / 3600) * nominal_voltage b)%Q
         else pass);;
        set_last_update_time index time_of_reception
      else
        log_warning ("Service index (" +:+ service_id
                       +:+ ") out of range for STATUS received")
    else
      log_warning ("Bad service index (" +:+ service_id
                     +:+ ") for STATUS received").

Definition parse_telemetry (rt : Runtime) (utcnow : Q) (raw_packet : string)
    : Py unit :=
  let packet := split ","%char raw_packet in
  if (length packet <? 3)%nat then
    log_warning ("TM packet too short," +:+ raw_packet)
  else
    source ← getitem packet 0;
    stamp ← getitem packet 1;
    time_of_reception ←
      match fromisoformat_timestamp rt stamp with
      | Some t => mret t
      | None =>
          log_warning ("ERROR: timestamp could not be decoded: " +:+ stamp);;
          mret utcnow
      end;
    header ← getitem packet 2;
    if negb (source =? "PDU")%string then
      if (header =? "EVENT")%string
      then parse_EVENT packet time_of_reception
      else pass
    else if (header =? "SRVCSET")%string then parse_SRVCSET packet
    else if (header =? "STATUS")%string
    then parse_STATUS rt packet time_of_reception
    else pass.

(** ** The flight toggle of the event loop of [main]

    The branch [event == '-FLIGHT_TOGGLE-']; [utcnow] is the clock reading
    of the branch. *)
Definition set_FLIGHT_TOGGLE (text : string) (w : Window) : Window :=
  mkWindow text (GR1_LIMIT_WH_bg w) (GR1_WH_bg w) (GR2_LIMIT_WH_bg w)
    (GR2_WH_bg w) (BATTERY_WH w) (BATTERY_PERCENT w) (BATTERY_PROGRESS w).

Definition flight_toggle (utcnow : Q) : Py unit :=
  flying ← gets in_flight;
  if (flying : bool) then
    modify (with_in_flight false);;
    set_last_update_time _HEATERS_ utcnow;;
    log_event "END_FLIGHT";;
    modify (λ g, with_window (set_FLIGHT_TOGGLE "START FLIGHT" (window g)) g)
  else
    modify (with_in_flight true);;
    log_event "START_FLIGHT";;
    modify (λ g, with_window (set_FLIGHT_TOGGLE "END FLIGHT" (window g)) g).

(** ** [refresh_telemetry_stats_on_gui]: groups, limits and battery

    The texts of the service buttons and the formatting of the displayed
    numbers are left out; [values] is the dictionary the window returned. *)
Inductive GroupId := GR1 | GR2.

Record Values := mkValues {
  (** the check box [-S<i+1>GR<k>-] *)
  SxGRy : GroupId → nat → bool;
  (** the input [-GR<k>_LIMIT_WH-] *)
  GRx_LIMIT_WH : GroupId → string;
  (** the input [-OFFSET_WH-] *)
  OFFSET_WH : string
}.

Definition group (k : GroupId) (g : Globals) : Group :=
  match k with GR1 => group1 g | GR2 => group2 g end.

Definition with_group (k : GroupId) (x : Group) (g : Globals) : Globals :=
  match k with
  | GR1 => mkGlobals (in_flight g) (battery g) (output g) x (group2 g) (window g)
  | GR2 => mkGlobals (in_flight g) (battery g) (output g) (group1 g) x (window g)
  end.

Definition set_limit_colour (k : GroupId) (c : Colour) (w : Window) : Window :=
  match k with
  | GR1 => mkWindow (FLIGHT_TOGGLE w) c c (GR2_LIMIT_WH_bg w) (GR2_WH_bg w)
             (BATTERY_WH w) (BATTERY_PERCENT w) (BATTERY_PROGRESS w)
  | GR2 => mkWindow (FLIGHT_TOGGLE w) (GR1_LIMIT_WH_bg w) (GR1_WH_bg w) c c
             (BATTERY_WH w) (BATTERY_PERCENT w) (BATTERY_PROGRESS w)
  end.

(** The background of the input [-GR<k>_LIMIT_WH-], and of [-GR<k>_WH-]. *)
Definition limit_colour (k : GroupId) (w : Window) : Colour :=
  match k with GR1 => GR1_LIMIT_WH_bg w | GR2 => GR2_LIMIT_WH_bg w end.

Definition sum_colour (k : GroupId) (w : Window) : Colour :=
  match k with GR1 => GR1_WH_bg w | GR2 => GR2_WH_bg w end.

(** One [if values['-S<i+1>GR<k>-']:] block. *)
Definition refresh_member (values : Values) (k : GroupId) (i : nat) : Py unit :=
  if SxGRy values k i then
    cur ← get_current i;
    modify (λ g, with_group k
      (mkGroup (A (group k g) + cur)%Q (Wh (group k g)) (limit_Wh (group k g))) g);;
    acc ← get_accumulated_Wh i;
    modify (λ g, with_group k
      (mkGroup (A (group k g)) (Wh (group k g) + acc)%Q (limit_Wh (group k g))) g)
  else pass.


(** The block of one group: running sums, then the limit check.  The
    writes of the two sums to [-GR<k>_A-] and [-GR<k>_WH-], which come
    before the conversion of the limit, touch no modelled widget. *)
Definition refresh_group (rt : Runtime) (values : Values) (k : GroupId) : Py unit :=
  modify (λ g, with_group k (mkGroup (A (group k g)) 0 (limit_Wh (group k g))) g);;
  modify (λ g, with_group k (mkGroup 0 (Wh (group k g)) (limit_Wh (group k g))) g);;
  refresh_member values k 0;;
  refresh_member values k 1;;
  refresh_member values k 2;;
  refresh_member values k 3;;
  refresh_member values k 4;;
  refresh_member values k 5;;
  limit ← float_of rt (GRx_LIMIT_WH values k);
  if Qltb 0 limit then
    let threshold := (limit * (1 # 10))%Q in
    sum ← gets (λ g, Wh (group k g));
    if Qle_bool (limit - sum) threshold
    then modify (λ g, with_window (set_limit_colour k Red (window g)) g)
    else modify (λ g, with_window (set_limit_colour k White (window g)) g)
  else pass.

Definition set_progress_wh (x : Q) (b : Battery) : Battery :=
  mkBattery (nominal_voltage b) (heaters_consumption b) (max_wh b) x.

Definition set_BATTERY_WH (x : Q) (w : Window) : Window :=
  mkWindow (FLIGHT_TOGGLE w) (GR1_LIMIT_WH_bg w) (GR1_WH_bg w)
    (GR2_LIMIT_WH_bg w) (GR2_WH_bg w) (Some x) (BATTERY_PERCENT w)
    (BATTERY_PROGRESS w).

Definition set_BATTERY_PERCENT (p : Z) (w : Window) : Window :=
  mkWindow (FLIGHT_TOGGLE w) (GR1_LIMIT_WH_bg w) (GR1_WH_bg w)
    (GR2_LIMIT_WH_bg w) (GR2_WH_bg w) (BATTERY_WH w) (Some p)
    (BATTERY_PROGRESS w).

Definition update_bar (p : Z) (w : Window) : Window :=
  mkWindow (FLIGHT_TOGGLE w) (GR1_LIMIT_WH_bg w) (GR1_WH_bg w)
    (GR2_LIMIT_WH_bg w) (GR2_WH_bg w) (BATTERY_WH w) (BATTERY_PERCENT w) p.

(** The battery block.  The percentage is the truncation of the exact
    ratio; the truncation of the rounded ratio the code computes can be
    one less or one more where the exact ratio is next to an integer. *)
Definition refresh_battery (rt : Runtime) (values : Values) : Py unit :=
  modify (λ g, with_battery (set_progress_wh 0 (battery g)) g);;
  s1 ← get_accumulated_Wh 0;
  s2 ← get_accumulated_Wh 1;
  s3 ← get_accumulated_Wh 2;
  s4 ← get_accumulated_Wh 3;
  s5 ← get_accumulated_Wh 4;
  s6 ← get_accumulated_Wh 5;
  heaters ← get_accumulated_Wh _HEATERS_;
  let total_used := (s1 + s2 + s3 + s4 + s5 + s6 + heaters)%Q in
  offset ←
    match OFFSET_WH values with
    | EmptyString => mret 0%Q
    | String _ _ =>
        if str_isdigit (OFFSET_WH values)
        then float_of rt (OFFSET_WH values)
        else mret 0%Q
    end;
  let total_used := (total_used + offset)%Q in
  modify (λ g,
    with_battery (set_progress_wh (max_wh (battery g) - total_used)%Q (battery g)) g);;
  b ← gets battery;
  modify (λ g, with_window (set_BATTERY_WH (progress_wh b) (window g)) g);;
  if Qeq_bool (max_wh b) 0 then raise ZeroDivisionError
  else
    let battery_percent := int_of_float (progress_wh b / max_wh b * 100)%Q in
    modify (λ g, with_window (set_BATTERY_PERCENT battery_percent (window g)) g);;
    if (100 <? battery_percent)%Z then
      modify (λ g, with_window (update_bar 100 (window g)) g)
    else if (battery_percent <? 0)%Z then
      modify (λ g, with_window (update_bar 0 (window g)) g)
    else
      modify (λ g, with_window (update_bar battery_percent (window g)) g).

Definition refresh_telemetry_stats_on_gui (rt : Runtime) (values : Values)
    : Py unit :=
  refresh_group rt values GR1;;
  refresh_group rt values GR2;;
  refresh_battery rt values.

(** ** A runtime to replay packets on

    The conversions of a host whose local zone is UTC, on the layouts the
    controller itself produces: the logger's time stamp
    [YYYY-MM-DD HH:MM:SS] with an optional [.mmm], and plain decimal numbers
    (a sign, digits, a decimal point).  A time stamp may carry the offset
    [+00:00]; it then denotes the same instant on every host.  Any other
    text is reported as a failed conversion. *)
Definition digits_at (s : string) (start len : nat) : option Z :=
  let f := String.substring start len s in
  if (String.length f =? len)%nat && isdigit f then Some (int f) else None.

Definition char_at (s : string) (n : nat) (c : ascii) : bool :=
  match String.get n s with
  | Some x => Ascii.eqb x c
  | None => false
  end.

Definition is_leap (y : Z) : bool :=
  ((y mod 4 =? 0) && negb (y mod 100 =? 0) || (y mod 400 =? 0))%Z.

Definition days_in_month (y m : Z) : Z :=
  if (m =? 2)%Z then (if is_leap y then 29 else 28)
  else if ((m =? 4) || (m =? 6) || (m =? 9) || (m =? 11))%Z then 30
  else 31.

(** Days from 1970-01-01 to the given date of the proleptic Gregorian
    calendar. *)
Definition days_from_civil (y m d : Z) : Z :=
  let y' := if (m <=? 2)%Z then (y - 1)%Z else y in
  let era := (y' / 400)%Z in
  let yoe := (y' - era * 400)%Z in
  let mp := if (2 <? m)%Z then (m - 3)%Z else (m + 9)%Z in
  let doy := ((153 * mp + 2) / 5 + d - 1)%Z in
  let doe := (yoe * 365 + yoe / 4 - yoe / 100 + doy)%Z in
  (era * 146097 + doe - 719468)%Z.

Definition utc_timestamp (text : string) : option Q :=
  let aware :=
    (6 <=? String.length text)%nat
    && (String.substring (String.length text - 6) 6 text =? "+00:00")%string in
  let s :=
    if aware then String.substring 0 (String.length text - 6) text else text in
  let n := String.length s in
  if ((n =? 19)%nat || (n =? 23)%nat && char_at s 19 ".")
     && char_at s 4 "-" && char_at s 7 "-" && (10 <? n)%nat
     && char_at s 13 ":" && char_at s 16 ":"
  then
    y ← digits_at s 0 4;
    mo ← digits_at s 5 2;
    d ← digits_at s 8 2;
    h ← digits_at s 11 2;
    mi ← digits_at s 14 2;
    sec ← digits_at s 17 2;
    ms ← (if (n =? 23)%nat then digits_at s 20 3 else Some 0%Z);
    if ((1 <=? y) && (1 <=? mo) && (mo <=? 12) && (1 <=? d)
        && (d <=? days_in_month y mo) && (h <? 24) && (mi <? 60)
        && (sec <? 60))%Z
    then Some (Qred (inject_Z (days_from_civil y mo d * 86400 + h * 3600
                                 + mi * 60 + sec)
                     + inject_Z ms / 1000)%Q)
    else None
  else None.

Definition decimal_float (s : string) : option Q :=
  let '(negative, body) :=
    match s with
    | String "-" r => (true, r)
    | String "+" r => (false, r)
    | _ => (false, s)
    end in
  let signed (x : Q) : Q := Qred (if negative then - x else x) in
  match split "." body with
  | [i] => if isdigit i then Some (signed (inject_Z (int i))) else None
  | [i; f] =>
      if all_digits i && all_digits f
         && negb ((String.length i =? 0)%nat && (String.length f =? 0)%nat)
      then Some (signed (inject_Z (int i)
                         + inject_Z (int f)
                           / inject_Z (10 ^ Z.of_nat (String.length f)))%Q)
      else None
  | _ => None
  end.

Definition utc_runtime : Runtime :=
  {| float := decimal_float; fromisoformat_timestamp := utc_timestamp |}.

(** Running a call from given globals, with nothing logged yet. *)
Definition run {T} (m : Py T) (g : Globals) : Outcome T := m g [].

(** ** Notions used in the statements *)

(** The time [parse_telemetry] works with: the packet's own time stamp, or
    the clock reading when the stamp does not decode. *)
Definition time_of_reception (rt : Runtime) (utcnow : Q) (stamp : string) : Q :=
  default utcnow (fromisoformat_timestamp rt stamp).

(** What decoding the time stamp alone hands to the logger. *)
Definition stamp_warnings (rt : Runtime) (stamp : string) : list LogLine :=
  match fromisoformat_timestamp rt stamp with
  | Some _ => []
  | None => [WARNING ("ERROR: timestamp could not be decoded: " +:+ stamp)]
  end.


(** What the window returns when only the first service is ticked, in
    group 1, with the given texts in the limit of group 1 and in the
    offset; the limit of group 2 reads 0. *)
Definition values_of_window (limit1 offset : string) : Values :=
  {| SxGRy := λ k i, match k, i with GR1, O => true | _, _ => false end;
     GRx_LIMIT_WH := λ k, match k with GR1 => limit1 | GR2 => "0" end;
     OFFSET_WH := offset |}.

(** The globals after the first service drew 10 A for one hour: two
    [STATUS] replies one hour apart, 280 Wh accumulated at 28 V. *)
Definition after_one_hour_at_10A : Globals :=
  globals_of
    (run (parse_telemetry utc_runtime 0 "PDU,2021-08-01 13:00:00.000,STATUS,1,10")
       (globals_of
          (run (parse_telemetry utc_runtime 0
                  "PDU,2021-08-01 12:00:00.000,STATUS,1,10") main_globals))).

(** ** The lines of the logger

    [Logger.rx], [Logger.tx], [Logger.event] and [Logger.warning] put the
    source and the time in front of a message; [stamp] is the text of
    [datetime.utcnow().isoformat(sep=' ', timespec='milliseconds')] at the
    call.  The line goes to the log window and, followed by a newline, to
    the log file. *)
Definition Logger_rx (stamp msg : string) : string :=
  "PDU," +:+ stamp +:+ "," +:+ msg.

Definition Logger_tx (stamp msg : string) : string :=
  "GND," +:+ stamp +:+ "," +:+ msg.

Definition Logger_event (stamp msg : string) : string :=
  "GND," +:+ stamp +:+ ",EVENT," +:+ msg.

Definition Logger_warning (stamp msg : string) : string :=
  "GND," +:+ stamp +:+ ",WARNING," +:+ msg.

(** The line of the log file for what a call handed to the logger. *)
Definition log_file_line (stamp : string) (l : LogLine) : string :=
  match l with
  | WARNING msg => Logger_warning stamp msg
  | EVENT msg => Logger_event stamp msg
  end.

(** ** Commands of the event loop of [main]

    [send_command] logs a command as transmitted and sends it; the commands
    a branch sends, in order, are the value of its model. *)
Definition send_refresh_all : list string :=
  ["STATUS,1"; "STATUS,2"; "STATUS,3"; "STATUS,4"; "STATUS,5"; "STATUS,6"].

(** The number that the branches of service [_S<i+1>_] write in their
    commands. *)
Definition service_number (i : nat) : string :=
  nth i ["1"; "2"; "3"; "4"; "5"; "6"] "".

(** The branch [event == '-S<i+1>TOGGLE-'], for [i < 6]. *)
Definition SxTOGGLE (i : nat) : Py (list string) :=
  l ← gets (λ g, is_on (output g));
  on ← getitem l i;
  let cmd :=
    if (on : bool)
    then "SETSRVC," +:+ service_number i +:+ ",0"
    else "SETSRVC," +:+ service_number i +:+ ",1" in
  mret [cmd].

(** The branch [event == '-S<i+1>REFRESH-'], for [i < 6]. *)
Definition SxREFRESH (i : nat) : list string :=
  ["STATUS," +:+ service_number i].

(** The four clock readings of one pass through the auto-refresh block, in
    the order of its calls of [datetime.utcnow().timestamp()]. *)
Record Readings := mkReadings {
  at_delay : Q;
  at_restart : Q;
  at_delta : Q;
  at_update : Q
}.

(** The auto-refresh block of the branch [event == sg.TIMEOUT_EVENT]:
    [AUTOREFRESH] is the text of the input [-AUTOREFRESH-] and [start] the
    local variable of [main]; the value is the new [start] and the commands
    sent.  The text shown in [-HEATERS_WH-] is left out, not the read it
    needs. *)
Definition auto_refresh (clock : Readings) (AUTOREFRESH : string) (start : Q)
    : Py (Q * list string) :=
  let delay_sec := int_of_float (at_delay clock - start)%Q in
  if str_isdigit AUTOREFRESH then
    timer ← int_of AUTOREFRESH;
    if (timer <=? delay_sec)%Z then
      let sent := send_refresh_all in
      let start := at_restart clock in
      flying ← gets in_flight;
      (if (flying : bool) then
         armed ← get_last_update_time _HEATERS_;
         (if Qltb 0 armed then
            last ← get_last_update_time _HEATERS_;
            let delta := (at_delta clock - last)%Q in
            if Qltb 0 delta then
              acc ← get_accumulated_Wh _HEATERS_;
              b ← gets battery;
              set_accumulated_Wh _HEATERS_ (acc + heaters_Wh b delta)%Q
            else pass
          else pass);;
         set_last_update_time _HEATERS_ (at_update clock)
       else pass);;
      get_accumulated_Wh _HEATERS_;;
      mret (start, sent)
    else mret (start, [])
  else mret (start, []).

(** ** [simPDU.py]

    The loop of the simulator after [data.decode()] gave the text
    [raw_packet]: the reply it sends, or [None] when an exception is
    swallowed by its [except: pass] and nothing is sent.  [value_text] is the text of
    [f'{value:.3f}'] for the random current of a [STATUS] reply. *)
Definition simPDU_reply (value_text raw_packet : string) : option string :=
  let element := split "," raw_packet in
  e0 ← element !! 0;
  if (e0 =? "SETSRVC")%string then
    e1 ← element !! 1; e2 ← element !! 2;
    Some ("SRVCSET," +:+ e1 +:+ "," +:+ e2)
  else if (e0 =? "STATUS")%string then
    e1 ← element !! 1;
    Some ("STATUS," +:+ e1 +:+ "," +:+ value_text)
  else if (e0 =? "SETIP")%string then
    e1 ← element !! 1; e2 ← element !! 2; e3 ← element !! 3; e4 ← element !! 4;
    Some ("IPSET," +:+ e1 +:+ "," +:+ e2 +:+ "," +:+ e3 +:+ "," +:+ e4)
  else if (e0 =? "SETPORT")%string then
    e1 ← element !! 1;
    Some ("PORTSET," +:+ e1)
  else if (e0 =? "RESET")%string then Some "Resetting"
  else Some "CMDERROR".

(** One pass of the loop of the simulator: [datagram] is [data.decode()],
    [None] when the bytes received do not decode; that exception is raised
    inside the [try] and swallowed like the others. *)
Definition simPDU_pass (value_text : string) (datagram : option string)
    : option string :=
  raw_packet ← datagram; simPDU_reply value_text raw_packet.

(** ** [Logger.load_log] *)

(** The characters [str.strip()] removes, by the bytes of their encoding:
    U+0009..U+000D, U+001C..U+0020; U+0085 and U+00A0; U+1680,
    U+2000..U+200A, U+2028, U+2029, U+202F, U+205F and U+3000. *)
Definition space1 (c : ascii) : bool :=
  let n := N_of_ascii c in
  ((9 <=? n) && (n <=? 13) || (28 <=? n) && (n <=? 32))%N.

Definition space2 (c c1 : ascii) : bool :=
  let n1 := N_of_ascii c1 in
  (N_of_ascii c =? 194)%N && ((n1 =? 133) || (n1 =? 160))%N.

Definition space3 (c c1 c2 : ascii) : bool :=
  let n := N_of_ascii c in
  let n1 := N_of_ascii c1 in
  let n2 := N_of_ascii c2 in
  ((n =? 225) && (n1 =? 154) && (n2 =? 128)
   || (n =? 226) && (n1 =? 128)
      && ((128 <=? n2) && (n2 <=? 138) || (n2 =? 168) || (n2 =? 169)
          || (n2 =? 175))
   || (n =? 226) && (n1 =? 129) && (n2 =? 159)
   || (n =? 227) && (n1 =? 128) && (n2 =? 128))%N.

Fixpoint lstrip (s : string) : string :=
  match s with
  | EmptyString => EmptyString
  | String c s1 =>
      if space1 c then lstrip s1
      else
        match s1 with
        | String c1 s2 =>
            if space2 c c1 then lstrip s2
            else
              match s2 with
              | String c2 s3 => if space3 c c1 c2 then lstrip s3 else s
              | EmptyString => s
              end
        | EmptyString => s
        end
  end.

(** The text is made of characters [str.strip()] removes. *)
Fixpoint all_space (s : string) : bool :=
  match s with
  | EmptyString => true
  | String c s1 =>
      if space1 c then all_space s1
      else
        match s1 with
        | String c1 s2 =>
            if space2 c c1 then all_space s2
            else
              match s2 with
              | String c2 s3 => space3 c c1 c2 && all_space s3
              | EmptyString => false
              end
        | EmptyString => false
        end
  end.

Fixpoint rstrip (s : string) : string :=
  match s with
  | EmptyString => EmptyString
  | String c s' => if all_space s then EmptyString else String c (rstrip s')
  end.

Definition strip (s : string) : string := rstrip (lstrip s).

(** The loop of [load_log] over the lines [readline] returns before the
    end of the file, each with the clock reading its call of
    [parse_telemetry] would observe.  The copy of the line to the log
    window is left out. *)
Fixpoint load_log (rt : Runtime) (lines : list (Q * string)) : Py unit :=
  match lines with
  | [] => pass
  | (utcnow, line) :: lines' =>
      let line_stripped := strip line in
      parse_telemetry rt utcnow line_stripped;;
      load_log rt lines'
  end.

(** The line feed. *)
Definition LF : string := String "010" EmptyString.

(** The text holds no line feed and no carriage return.  The log file is
    opened in text mode: read back, it ends a line at either. *)
Fixpoint no_line_break (s : string) : bool :=
  match s with
  | EmptyString => true
  | String c s' =>
      negb (Ascii.eqb c "010") && negb (Ascii.eqb c "013") && no_line_break s'
  end.

(** The line [readline] gives back for a message the logger wrote with
    [logfile.write(log_msg + '\n')].  It is that one line only for a
    message that holds no line break ([no_line_break]): any other message
    is read back as several lines. *)
Definition file_line (log_msg : string) : string := log_msg +:+ LF.

(** ** Reception in the event loop of [main]

    The [try] block of the branch [event == sg.TIMEOUT_EVENT].  [data] is
    the decoded datagram [sock.recvfrom] returned, or [None] when it timed
    out; [stamp] is the text of the time [log.rx] puts in front of it.
    Whatever is raised inside the block is swallowed by [except: pass]. *)
Definition except_pass {T} (m : Py T) : Py unit :=
  λ g log,
    match m g log with
    | Ok _ g' log' | Exn _ g' log' => Ok tt g' log'
    end.

Definition receive (rt : Runtime) (utcnow : Q) (stamp : string)
    (data : option string) (values : Values) : Py unit :=
  except_pass
    match data with
    | None => pass
    | Some data =>
        let full_packet := Logger_rx stamp data in
        parse_telemetry rt utcnow full_packet;;
        refresh_telemetry_stats_on_gui rt values
    end.

(** ** More notions used in the statements *)

(** A call respects a relation between the globals before and after when
    its globals, returned or raised, are always related to the ones it
    started from. *)
Definition respects (R : Globals → Globals → Prop) {T} (m : Py T) : Prop :=
  ∀ g log, R g (globals_of (m g log)).

(** The lists of [output] have the same lengths. *)
Definition same_shape (g g' : Globals) : Prop :=
  length (current (output g')) = length (current (output g))
  ∧ length (last_update_time (output g')) = length (last_update_time (output g))
  ∧ length (accumulated_Wh (output g')) = length (accumulated_Wh (output g))
  ∧ length (is_on (output g')) = length (is_on (output g)).

(** The flight flag and the heater's items are the same, and so are the
    battery, the groups and the window. *)
Definition same_flight (g g' : Globals) : Prop :=
  in_flight g' = in_flight g
  ∧ last_update_time (output g') !! _HEATERS_
    = last_update_time (output g) !! _HEATERS_
  ∧ accumulated_Wh (output g') !! _HEATERS_
    = accumulated_Wh (output g) !! _HEATERS_
  ∧ battery g' = battery g ∧ group1 g' = group1 g ∧ group2 g' = group2 g
  ∧ window g' = window g.

(** The accounting data are the same: [output] and the flight flag. *)
Definition same_accounts (g g' : Globals) : Prop :=
  output g' = output g ∧ in_flight g' = in_flight g.

(** The text has no comma. *)
Fixpoint no_comma (s : string) : bool :=
  match s with
  | EmptyString => true
  | String c s' => negb (Ascii.eqb c ",") && no_comma s'
  end.

(** The number of commas of a text. *)
Fixpoint commas (s : string) : nat :=
  match s with
  | EmptyString => 0
  | String c s' => if Ascii.eqb c "," then S (commas s') else commas s'
  end.

(** The sum of the items of the ticked services, first service first. *)
Definition ticked_total (ticked : nat → bool) (l : list Q) : Q :=
  foldl (λ sum i, if ticked i then (sum + default 0 (l !! i))%Q else sum)
    0%Q (seq 0 6).

(** * Properties *)

(** ** Text *)

Lemma decimal_value_ascii (n : N) :
  (48 ≤ n ≤ 57)%N → decimal_value n = Some (Z.of_N n - 48)%Z.
Proof.
  intros [Hlow Hhigh]. unfold decimal_value, decimal_digits.
  cbn [find fst snd].
  assert (H1 : (48 <=? n)%N = true) by (apply N.leb_le; exact Hlow).
  assert (H2 : (n <=? 57)%N = true) by (apply N.leb_le; exact Hhigh).
  rewrite H1, H2. cbn [andb fmap option_fmap option_map fst]. f_equal.
  rewrite N.mod_small by lia. lia.
Qed.

Lemma is_digit_char_code c :
  is_digit_char c = true → (48 ≤ N_of_ascii c ≤ 57)%N.
Proof.
  unfold is_digit_char, nat_of_ascii. intros H.
  apply andb_prop in H as [H1 H2].
  apply Nat.leb_le in H1. apply Nat.leb_le in H2. lia.
Qed.

Lemma utf8_decode_ascii c s :
  (N_of_ascii c < 128)%N →
  utf8_decode (String c s) = cons (N_of_ascii c) <$> utf8_decode s.
Proof.
  intros H. cbn [utf8_decode].
  destruct (N.ltb_spec (N_of_ascii c) 128); [reflexivity|lia].
Qed.

(** On a text of ASCII digits [str.isdigit()] holds and [int()] reads the
    decimal number. *)
Lemma all_digits_decode s :
  all_digits s = true →
  ∃ cs, utf8_decode s = Some cs
        ∧ forallb (λ c, in_ranges decimal_digits c || in_ranges other_digits c)
            cs = true
        ∧ ∀ acc, decimal_digits_value acc cs = Some (int_digits acc s).
Proof.
  induction s as [|c s IH]; cbn [all_digits].
  - intros _. exists []. repeat split.
  - intros H. apply andb_prop in H as [Hc Hs].
    destruct (IH Hs) as (cs & Hdecode & Hall & Hvalue).
    pose proof (is_digit_char_code c Hc) as Hcode.
    exists (N_of_ascii c :: cs). split; [|split].
    + rewrite utf8_decode_ascii by lia. rewrite Hdecode. reflexivity.
    + cbn [forallb]. rewrite Hall.
      assert (Hin : in_ranges decimal_digits (N_of_ascii c) = true).
      { unfold in_ranges, decimal_digits. cbn [existsb fst snd].
        destruct Hcode as [Hlow Hhigh].
        apply N.leb_le in Hlow. apply N.leb_le in Hhigh.
        rewrite Hlow, Hhigh. reflexivity. }
      rewrite Hin. reflexivity.
    + intros acc. cbn [decimal_digits_value int_digits].
      rewrite decimal_value_ascii by exact Hcode.
      cbn [mbind option_bind]. rewrite Hvalue. do 2 f_equal.
      unfold nat_of_ascii. lia.
Qed.

Lemma isdigit_str_isdigit s : isdigit s = true → str_isdigit s = true.
Proof.
  unfold isdigit, str_isdigit. destruct s as [|c s]; [discriminate|].
  intros H. destruct (all_digits_decode _ H) as (cs & Hdecode & Hall & _).
  rewrite Hdecode. destruct cs as [|c' cs]; [|exact Hall].
  cbn [all_digits] in H. apply andb_prop in H as [Hc _].
  pose proof (is_digit_char_code c Hc).
  rewrite utf8_decode_ascii in Hdecode by lia.
  destruct (utf8_decode s); discriminate.
Qed.

Lemma isdigit_str_int s : isdigit s = true → str_int s = Some (int s).
Proof.
  unfold isdigit, str_int, int. destruct s as [|c s]; [discriminate|].
  intros H. destruct (all_digits_decode _ H) as (cs & Hdecode & _ & Hvalue).
  rewrite Hdecode. apply Hvalue.
Qed.

Lemma int_of_isdigit s g log :
  isdigit s = true → int_of s g log = Ok (int s) g log.
Proof. intros H. unfold int_of. rewrite (isdigit_str_int s H). reflexivity. Qed.

(** ** Arithmetic and list facts *)

Lemma Qltb_true (x y : Q) : Qltb x y = true ↔ (x < y)%Q.
Proof.
  unfold Qltb. rewrite negb_true_iff, <- not_true_iff_false, Qle_bool_iff.
  split; [apply Qnot_le_lt | apply Qlt_not_le].
Qed.

Lemma Qltb_false (x y : Q) : Qltb x y = false ↔ (y <= x)%Q.
Proof. unfold Qltb. by rewrite negb_false_iff, Qle_bool_iff. Qed.

Lemma service_index_bound (n : Z) : (1 ≤ n ≤ 6)%Z → Z.to_nat (n - 1) < 6.
Proof. lia. Qed.

Lemma in_range_true (n : Z) : (1 ≤ n ≤ 6)%Z → (1 <=? n)%Z && (n <=? 6)%Z = true.
Proof. intros. apply andb_true_iff. split; apply Z.leb_le; lia. Qed.

Lemma in_range_false (n : Z) :
  (n < 1 ∨ 6 < n)%Z → (1 <=? n)%Z && (n <=? 6)%Z = false.
Proof. intros. apply andb_false_iff. rewrite !Z.leb_gt. lia. Qed.

(** ** How [parse_telemetry] runs *)

(** With three fields or more, the header is dispatched at the time of
    reception, after the warning of the time stamp, if any. *)
Lemma parse_telemetry_fields rt utcnow raw g source stamp header rest :
  split "," raw = source :: stamp :: header :: rest →
  run (parse_telemetry rt utcnow raw) g =
    (if negb (source =? "PDU")%string then
       if (header =? "EVENT")%string
       then parse_EVENT (source :: stamp :: header :: rest)
              (time_of_reception rt utcnow stamp)
       else pass
     else if (header =? "SRVCSET")%string
     then parse_SRVCSET (source :: stamp :: header :: rest)
     else if (header =? "STATUS")%string
     then parse_STATUS rt (source :: stamp :: header :: rest)
            (time_of_reception rt utcnow stamp)
     else pass) g (stamp_warnings rt stamp).
Proof.
  intros Hsplit. unfold run, parse_telemetry, time_of_reception, stamp_warnings.
  rewrite Hsplit. cbn [length Nat.ltb Nat.leb].
  unfold mbind, Py_bind, getitem; cbn [lookup list_lookup mret Py_ret].
  destruct (fromisoformat_timestamp rt stamp); reflexivity.
Qed.

(** Unfolding the operations of the monad and projecting out of the
    records they rebuild. *)
Ltac py_unfold :=
  unfold pass, raise, gets, modify, log_warning, log_event, getitem, float_of,
    int_of,
    set_current, set_last_update_time, set_accumulated_Wh, set_is_on, setitem,
    get_current, get_last_update_time, get_accumulated_Wh,
    mbind, Py_bind, mret, Py_ret.

Ltac py_proj :=
  cbn [in_flight battery output group1 group2 window
       current last_update_time accumulated_Wh is_on
       nominal_voltage heaters_consumption max_wh progress_wh
       with_in_flight with_battery with_output with_window
       store_current store_last_update_time store_accumulated_Wh store_is_on
       set_progress_wh set_BATTERY_WH set_BATTERY_PERCENT update_bar
       set_FLIGHT_TOGGLE FLIGHT_TOGGLE BATTERY_WH BATTERY_PERCENT
       BATTERY_PROGRESS lookup list_lookup].

Ltac py_simpl := repeat (progress (py_unfold; py_proj)).

(** Deciding the bound check of an item assignment. *)
Ltac py_bound :=
  match goal with
  | |- context [(?i <? ?n)%nat] =>
      destruct (Nat.ltb_spec i n) as [_|?]; [|lia]
  end.

(** A [STATUS] reply of the PDU for a service of the unit: what the call
    leaves behind.  The current is stored as decoded, an interval is
    integrated whenever the service had a last update time above zero, and
    the time of reception becomes the last update time. *)
Lemma parse_telemetry_STATUS rt utcnow raw g stamp id value rest
    (amps last acc : Q) :
  split "," raw = "PDU" :: stamp :: "STATUS" :: id :: value :: rest →
  isdigit id = true → (1 ≤ int id ≤ 6)%Z →
  float rt value = Some amps →
  shaped g →
  last_update_time (output g) !! Z.to_nat (int id - 1) = Some last →
  accumulated_Wh (output g) !! Z.to_nat (int id - 1) = Some acc →
  let index := Z.to_nat (int id - 1) in
  let t := time_of_reception rt utcnow stamp in
  run (parse_telemetry rt utcnow raw) g =
    Ok tt
      (with_output
         {| current := <[index:=amps]> (current (output g));
            last_update_time := <[index:=t]> (last_update_time (output g));
            accumulated_Wh :=
              if Qltb 0 last
              then <[index:=(acc + amps * ((t - last) / 3600)
                                   * nominal_voltage (battery g))%Q]>
                     (accumulated_Wh (output g))
              else accumulated_Wh (output g);
            is_on := is_on (output g) |} g)
      (stamp_warnings rt stamp).
Proof.
  intros Hsplit Hdigit Hrange Hamps [Hc Hl Ha _] Hlast Hacc index t.
  pose proof (service_index_bound _ Hrange) as Hidx.
  fold index in Hidx, Hlast, Hacc.
  rewrite (parse_telemetry_fields _ _ _ _ _ _ _ _ Hsplit).
  cbn [String.eqb Ascii.eqb Bool.eqb negb]. fold t.
  unfold parse_STATUS. cbn [length Nat.ltb Nat.leb]. py_simpl.
  rewrite (isdigit_str_isdigit _ Hdigit), (isdigit_str_int _ Hdigit).
  py_simpl. rewrite (in_range_true _ Hrange). fold index.
  py_simpl. rewrite Hamps, Hc. py_bound. py_simpl.
  rewrite Hlast. py_simpl.
  destruct (Qltb 0 last); py_simpl.
  - rewrite Hlast. py_simpl. rewrite Hacc. py_simpl.
    rewrite list_lookup_insert_eq by lia. py_simpl.
    rewrite Ha. py_bound. py_simpl. rewrite Hl. py_bound. reflexivity.
  - rewrite Hl. py_bound. reflexivity.
Qed.

(** ** Energy integration of the services *)

(** C1 (amended).  For a service 1..6 whose last update time is unset (not
    above zero), two [STATUS] replies of the PDU with currents [a1] at time
    [t1] and [a2] at time [t2], where [0 < t1 < t2]: the first reply stores
    [a1] and [t1] and adds no energy; the second adds the rectangle term, so
    that the accumulated energy grows by exactly
    [a2 * (t2 - t1) / 3600 * nominal_voltage], and is exactly that amount
    for a service that had accumulated nothing. *)
Theorem C1_two_samples_rectangle rt utcnow1 utcnow2 raw1 raw2 g
    stamp1 stamp2 id value1 value2 rest1 rest2 (a1 a2 last0 acc0 : Q) :
  split "," raw1 = "PDU" :: stamp1 :: "STATUS" :: id :: value1 :: rest1 →
  split "," raw2 = "PDU" :: stamp2 :: "STATUS" :: id :: value2 :: rest2 →
  isdigit id = true → (1 ≤ int id ≤ 6)%Z →
  float rt value1 = Some a1 → float rt value2 = Some a2 →
  shaped g →
  last_update_time (output g) !! Z.to_nat (int id - 1) = Some last0 →
  (last0 <= 0)%Q →
  accumulated_Wh (output g) !! Z.to_nat (int id - 1) = Some acc0 →
  let index := Z.to_nat (int id - 1) in
  let t1 := time_of_reception rt utcnow1 stamp1 in
  let t2 := time_of_reception rt utcnow2 stamp2 in
  (0 < t1)%Q → (t1 < t2)%Q →
  ∃ g1 g2 acc2,
    run (parse_telemetry rt utcnow1 raw1) g = Ok tt g1 (stamp_warnings rt stamp1)
    ∧ current (output g1) !! index = Some a1
    ∧ last_update_time (output g1) !! index = Some t1
    ∧ accumulated_Wh (output g1) = accumulated_Wh (output g)
    ∧ run (parse_telemetry rt utcnow2 raw2) g1
      = Ok tt g2 (stamp_warnings rt stamp2)
    ∧ accumulated_Wh (output g2) !! index = Some acc2
    ∧ (acc2 == acc0 + a2 * (t2 - t1) / 3600 * nominal_voltage (battery g))%Q
    ∧ ((acc0 == 0)%Q →
       (acc2 == a2 * (t2 - t1) / 3600 * nominal_voltage (battery g))%Q).
Proof.
  intros Hs1 Hs2 Hdigit Hrange Ha1 Ha2 Hg Hlast Hunset Hacc index t1 t2 Ht1 Ht12.
  pose proof (service_index_bound _ Hrange) as Hidx. fold index in Hidx.
  pose proof Hg as [Hc Hl Ha Ho].
  pose proof (parse_telemetry_STATUS rt utcnow1 raw1 g _ _ _ _ a1 last0 acc0
                Hs1 Hdigit Hrange Ha1 Hg Hlast Hacc) as Hrun1.
  cbv zeta in Hrun1. fold index t1 in Hrun1.
  apply Qltb_false in Hunset. rewrite Hunset in Hrun1.
  set (g1 := with_output _ g) in Hrun1.
  assert (Hg1 : shaped g1).
  { split; cbn; rewrite ?length_insert; assumption. }
  assert (Hlast1 : last_update_time (output g1) !! index = Some t1).
  { cbn. apply list_lookup_insert_eq. lia. }
  pose proof (parse_telemetry_STATUS rt utcnow2 raw2 g1 _ _ _ _ a2 t1 acc0
                Hs2 Hdigit Hrange Ha2 Hg1 Hlast1 Hacc) as Hrun2.
  cbv zeta in Hrun2. fold index t2 in Hrun2.
  apply Qltb_true in Ht1. rewrite Ht1 in Hrun2.
  eexists g1, _, _. split; [exact Hrun1|].
  split; [cbn; apply list_lookup_insert_eq; lia|].
  split; [exact Hlast1|]. split; [reflexivity|].
  split; [exact Hrun2|].
  split; [cbn; apply list_lookup_insert_eq; lia|].
  cbn. split; [field | intros H0; rewrite H0; field].
Qed.

Lemma C1_two_samples_rectangle_witness :
  ∃ g1 g2 acc2,
    run (parse_telemetry utc_runtime 0
           "PDU,2021-08-01 12:00:00.000,STATUS,1,0.5") main_globals
    = Ok tt g1 []
    ∧ current (output g1) !! 0 = Some (1 # 2)%Q
    ∧ last_update_time (output g1) !! 0 = Some 1627819200%Q
    ∧ accumulated_Wh (output g1) = accumulated_Wh (output main_globals)
    ∧ run (parse_telemetry utc_runtime 0
             "PDU,2021-08-01 12:00:10.000,STATUS,1,0.5") g1
      = Ok tt g2 []
    ∧ accumulated_Wh (output g2) !! 0 = Some acc2
    ∧ (acc2 == 0 + (1 # 2) * (1627819210 - 1627819200) / 3600 * 28)%Q
    ∧ ((0 == 0)%Q → (acc2 == (1 # 2) * (1627819210 - 1627819200) / 3600 * 28)%Q).
Proof.
  apply (C1_two_samples_rectangle utc_runtime 0 0
           "PDU,2021-08-01 12:00:00.000,STATUS,1,0.5"
           "PDU,2021-08-01 12:00:10.000,STATUS,1,0.5" main_globals
           "2021-08-01 12:00:00.000" "2021-08-01 12:00:10.000" "1" "0.5" "0.5"
           [] [] (1 # 2) (1 # 2) 0 0)%Q.
  - reflexivity.
  - reflexivity.
  - reflexivity.
  - vm_compute. split; discriminate.
  - reflexivity.
  - reflexivity.
  - split; reflexivity.
  - reflexivity.
  - vm_compute. discriminate.
  - reflexivity.
  - reflexivity.
  - reflexivity.
Defined.

Lemma Qmult_neg_pos (x y : Q) : (x < 0 → 0 < y → x * y < 0)%Q.
Proof.
  intros Hx Hy.
  assert (0 < (- x) * y)%Q as Hp by (apply Qmult_lt_0_compat; lra).
  assert ((- x) * y == - (x * y))%Q as He by ring.
  lra.
Qed.

(** C1 as stated fails when the first time stamp is not above zero: a reply
    stamped at the epoch leaves the last update time at the value that
    means unset, and the second reply adds nothing. *)
Lemma C1_counterexample_epoch_stamp :
  ∃ g1 g2,
    last_update_time (output main_globals) !! 0 = Some 0%Q
    ∧ time_of_reception utc_runtime 0 "1970-01-01 00:00:00.000+00:00" = 0%Q
    ∧ time_of_reception utc_runtime 0 "1970-01-01 00:00:10.000+00:00" = 10%Q
    ∧ run (parse_telemetry utc_runtime 0
             "PDU,1970-01-01 00:00:00.000+00:00,STATUS,1,0.5") main_globals
      = Ok tt g1 []
    ∧ run (parse_telemetry utc_runtime 0
             "PDU,1970-01-01 00:00:10.000+00:00,STATUS,1,0.5") g1
      = Ok tt g2 []
    ∧ accumulated_Wh (output g2) !! 0 = Some 0%Q
    ∧ ¬ (0 == (1 # 2) * (10 - 0) / 3600 * nominal_voltage (battery main_globals))%Q.
Proof.
  eexists _, _. split; [reflexivity|]. split; [reflexivity|].
  split; [reflexivity|]. split; [vm_compute; reflexivity|].
  split; [vm_compute; reflexivity|]. split; [reflexivity|].
  vm_compute. discriminate.
Qed.

(** C10 (amended).  A [STATUS] reply of the PDU for a service 1..6 stores
    the decoded current whatever its sign, and when the last update time of
    the service is above zero the interval is integrated with that current
    as it is; a negative current over a positive interval therefore lowers
    the accumulated energy. *)
Theorem C10_amps_stored_and_integrated_unchecked rt utcnow raw g
    stamp id value rest (amps last acc : Q) :
  split "," raw = "PDU" :: stamp :: "STATUS" :: id :: value :: rest →
  isdigit id = true → (1 ≤ int id ≤ 6)%Z →
  float rt value = Some amps →
  shaped g →
  last_update_time (output g) !! Z.to_nat (int id - 1) = Some last →
  accumulated_Wh (output g) !! Z.to_nat (int id - 1) = Some acc →
  let index := Z.to_nat (int id - 1) in
  let t := time_of_reception rt utcnow stamp in
  ∃ g',
    run (parse_telemetry rt utcnow raw) g = Ok tt g' (stamp_warnings rt stamp)
    ∧ current (output g') !! index = Some amps
    ∧ ((0 < last)%Q →
       ∃ acc',
         accumulated_Wh (output g') !! index = Some acc'
         ∧ (acc' == acc + amps * (t - last) / 3600 * nominal_voltage (battery g))%Q
         ∧ ((amps < 0)%Q → (last < t)%Q → (0 < nominal_voltage (battery g))%Q →
            (acc' < acc)%Q)).
Proof.
  intros Hs Hdigit Hrange Hamps Hg Hlast Hacc index t.
  pose proof (service_index_bound _ Hrange) as Hidx. fold index in Hidx.
  pose proof Hg as [Hc Hl Ha Ho].
  pose proof (parse_telemetry_STATUS rt utcnow raw g _ _ _ _ amps last acc
                Hs Hdigit Hrange Hamps Hg Hlast Hacc) as Hrun.
  cbv zeta in Hrun. fold index t in Hrun.
  eexists. split; [exact Hrun|].
  split; [cbn; apply list_lookup_insert_eq; lia|].
  intros Hset. apply Qltb_true in Hset. cbn. rewrite Hset.
  eexists. split; [apply list_lookup_insert_eq; lia|].
  split; [field|].
  intros Hneg Hlt HV.
  assert (0 < (t - last) / 3600)%Q as Hd.
  { apply Qlt_shift_div_l; lra. }
  pose proof (Qmult_neg_pos _ _ Hneg Hd) as Hm.
  pose proof (Qmult_neg_pos _ _ Hm HV).
  lra.
Qed.

Lemma C10_amps_stored_and_integrated_unchecked_witness :
  ∃ g1 g2 acc',
    run (parse_telemetry utc_runtime 0
           "PDU,2021-08-01 12:00:00.000,STATUS,1,0.5") main_globals
    = Ok tt g1 []
    ∧ accumulated_Wh (output g1) !! 0 = Some 0%Q
    ∧ run (parse_telemetry utc_runtime 0
             "PDU,2021-08-01 12:00:10.000,STATUS,1,-0.5") g1
      = Ok tt g2 []
    ∧ current (output g2) !! 0 = Some (- (1 # 2))%Q
    ∧ accumulated_Wh (output g2) !! 0 = Some acc'
    ∧ (acc' < 0)%Q.
Proof.
  destruct (C10_amps_stored_and_integrated_unchecked utc_runtime 0
              "PDU,2021-08-01 12:00:10.000,STATUS,1,-0.5"
              (globals_of (run (parse_telemetry utc_runtime 0
                 "PDU,2021-08-01 12:00:00.000,STATUS,1,0.5") main_globals))
              "2021-08-01 12:00:10.000" "1" "-0.5" []
              (- (1 # 2)) 1627819200 0)%Q
    as (g2 & Hrun & Hcur & Hint).
  - reflexivity.
  - reflexivity.
  - vm_compute. split; discriminate.
  - reflexivity.
  - split; reflexivity.
  - reflexivity.
  - reflexivity.
  - destruct Hint as (acc' & Hacc' & _ & Hless); [reflexivity|].
    eexists _, g2, acc'. split; [vm_compute; reflexivity|].
    split; [reflexivity|].
    split; [exact Hrun|]. split; [exact Hcur|]. split; [exact Hacc'|].
    apply Hless; reflexivity.
Defined.

(** C10 as stated fails after a sample stamped at the epoch: a prior sample
    exists, its current is stored, and the next reply, ten seconds later,
    is stored and not integrated, because the last update time 0.0 means
    unset. *)
Lemma C10_counterexample_epoch_sample :
  ∃ g1 g2,
    run (parse_telemetry utc_runtime 0
           "PDU,1970-01-01 00:00:00.000+00:00,STATUS,1,0.5") main_globals
    = Ok tt g1 []
    ∧ current (output g1) !! 0 = Some (1 # 2)%Q
    ∧ last_update_time (output g1) !! 0 = Some 0%Q
    ∧ run (parse_telemetry utc_runtime 0
             "PDU,1970-01-01 00:00:10.000+00:00,STATUS,1,-0.5") g1
      = Ok tt g2 []
    ∧ current (output g2) !! 0 = Some (- (1 # 2))%Q
    ∧ last_update_time (output g2) !! 0 = Some 10%Q
    ∧ accumulated_Wh (output g2) !! 0 = Some 0%Q
    ∧ ¬ (0 == 0 + - (1 # 2) * (10 - 0) / 3600
                  * nominal_voltage (battery main_globals))%Q.
Proof.
  eexists _, _. split; [vm_compute; reflexivity|].
  split; [reflexivity|]. split; [reflexivity|].
  split; [vm_compute; reflexivity|].
  split; [reflexivity|]. split; [reflexivity|]. split; [reflexivity|].
  vm_compute. discriminate.
Qed.

(** C2 fails on the code: the interval of a service is integrated without
    the test [delta > 0] that both heater paths have.  A reply stamped ten
    seconds before the previous one takes energy away. *)
Theorem C2_earlier_stamp_subtracts_energy :
  ∃ g1 g2 acc',
    run (parse_telemetry utc_runtime 0
           "PDU,2021-08-01 12:00:10.000,STATUS,1,1.0") main_globals
    = Ok tt g1 []
    ∧ last_update_time (output g1) !! 0 = Some 1627819210%Q
    ∧ accumulated_Wh (output g1) !! 0 = Some 0%Q
    ∧ time_of_reception utc_runtime 0 "2021-08-01 12:00:00.000" = 1627819200%Q
    ∧ run (parse_telemetry utc_runtime 0
             "PDU,2021-08-01 12:00:00.000,STATUS,1,1.0") g1
      = Ok tt g2 []
    ∧ accumulated_Wh (output g2) !! 0 = Some acc'
    ∧ (acc' == - (7 # 90))%Q
    ∧ last_update_time (output g2) !! 0 = Some 1627819200%Q.
Proof.
  eexists _, _, _. split; [vm_compute; reflexivity|].
  split; [reflexivity|]. split; [reflexivity|]. split; [reflexivity|].
  split; [vm_compute; reflexivity|]. split; [reflexivity|].
  split; reflexivity.
Qed.

(** ** Packets that are rejected *)

(** A packet of fewer than three fields is reported and changes nothing. *)
Lemma parse_telemetry_too_short rt utcnow raw g :
  length (split "," raw) < 3 →
  run (parse_telemetry rt utcnow raw) g
  = Ok tt g [WARNING ("TM packet too short," +:+ raw)].
Proof.
  intros Hlen. unfold run, parse_telemetry.
  destruct (Nat.ltb_spec (length (split "," raw)) 3) as [_|]; [|lia].
  reflexivity.
Qed.

(** X27.  A [SRVCSET] or [STATUS] reply of the PDU whose service field
    fails [isdigit()], or passes it and is read by [int()] as a number
    outside 1..6, is answered by a warning and leaves every global as it
    was. *)
Theorem X27_bad_service_index_warned rt utcnow raw g stamp header id rest :
  split "," raw = "PDU" :: stamp :: header :: id :: rest →
  header = "SRVCSET" ∨ header = "STATUS" →
  str_isdigit id = false
  ∨ (∃ n, str_int id = Some n ∧ ((n < 1)%Z ∨ (6 < n)%Z)) →
  ∃ msg,
    run (parse_telemetry rt utcnow raw) g
    = Ok tt g (stamp_warnings rt stamp ++ [WARNING msg]).
Proof.
  intros Hsplit Hheader Hid.
  rewrite (parse_telemetry_fields _ _ _ _ _ _ _ _ Hsplit).
  destruct Hheader as [-> | ->]; cbn [String.eqb Ascii.eqb Bool.eqb negb];
    [unfold parse_SRVCSET | unfold parse_STATUS];
    (destruct rest as [|value rest]; cbn [length Nat.ltb Nat.leb];
     [py_simpl; eexists; reflexivity|]);
    py_simpl;
    (destruct Hid as [Hd | (n & Hn & Hrange)];
     [rewrite Hd; eexists; reflexivity|]);
    (destruct (str_isdigit id); [|eexists; reflexivity]);
    rewrite Hn; py_simpl; rewrite (in_range_false n) by lia;
    py_simpl; eexists; reflexivity.
Qed.

Lemma X27_bad_service_index_warned_witness :
  ∃ msg,
    run (parse_telemetry utc_runtime 0
           "PDU,2021-08-01 12:00:00.000,STATUS,7,0.5") main_globals
    = Ok tt main_globals ([] ++ [WARNING msg]).
Proof.
  apply (X27_bad_service_index_warned utc_runtime 0
           "PDU,2021-08-01 12:00:00.000,STATUS,7,0.5" main_globals
           "2021-08-01 12:00:00.000" "STATUS" "7" ["0.5"]).
  - reflexivity.
  - right. reflexivity.
  - right. exists 7%Z. split; [reflexivity|right; reflexivity].
Defined.

(** C6 fails on the code: a service field can pass [isdigit()] and make
    [int()] raise.  For the superscript two, [isdigit()] holds and [int()]
    raises [ValueError]: the reply is neither answered by a warning nor
    processed, in the [SRVCSET] block as in the [STATUS] block. *)
Theorem C6_superscript_index_raises :
  str_isdigit "²" = true ∧ str_int "²" = None
  ∧ run (parse_telemetry utc_runtime 0
           "PDU,2021-08-01 12:00:00.000,STATUS,²,0.5") main_globals
    = Exn ValueError main_globals []
  ∧ run (parse_telemetry utc_runtime 0
           "PDU,2021-08-01 12:00:00.000,SRVCSET,²,1") main_globals
    = Exn ValueError main_globals [].
Proof. repeat split; vm_compute; reflexivity. Qed.

(** C3 fails on the code: decoding can raise.  A ground [EVENT] line
    without a fourth field is indexed past its end, and the current of a
    [STATUS] reply is converted without a check, although the lengths of
    the packet and the service index are checked on the same paths. *)
Theorem C3_decoding_can_raise :
  run (parse_telemetry utc_runtime 0 "GND,2021-08-01 12:00:00.000,EVENT")
    main_globals
  = Exn IndexError main_globals []
  ∧ float utc_runtime "abc" = None
  ∧ run (parse_telemetry utc_runtime 0
           "PDU,2021-08-01 12:00:00.000,STATUS,1,abc") main_globals
    = Exn ValueError main_globals [].
Proof. split; [|split]; vm_compute; reflexivity. Qed.

(** ** Packets of another source, and the flight session *)

(** Splitting on what a call tests: an item read, a bound, a comparison. *)
Ltac py_case :=
  match goal with
  | |- context [match ?l !! ?i with Some _ => _ | None => _ end] =>
      destruct (l !! i) eqn:?
  | |- context [if (?i <? ?n)%nat then _ else _] =>
      destruct (i <? n)%nat eqn:?
  | |- context [if Qltb ?x ?y then _ else _] => destruct (Qltb x y) eqn:?
  | |- context [if (?a =? ?b)%string then _ else _] =>
      destruct (String.eqb a b) eqn:?
  | |- context [match float ?rt ?s with Some _ => _ | None => _ end] =>
      destruct (float rt s) eqn:?
  | |- context [if str_isdigit ?s then _ else _] =>
      destruct (str_isdigit s) eqn:?
  | |- context [match str_int ?s with Some _ => _ | None => _ end] =>
      destruct (str_int s) eqn:?
  | |- context [if Qeq_bool ?x ?y then _ else _] =>
      destruct (Qeq_bool x y) eqn:?
  | |- context [if (?a <? ?b)%Z then _ else _] => destruct (a <? b)%Z eqn:?
  end.

(** Whatever [parse_EVENT] does, it only touches the flight flag and the
    heater's items. *)
Lemma parse_EVENT_frame packet t g log :
  let g' := globals_of (parse_EVENT packet t g log) in
  is_on (output g') = is_on (output g)
  ∧ current (output g') = current (output g)
  ∧ (∀ i, i ≠ _HEATERS_ →
       last_update_time (output g') !! i = last_update_time (output g) !! i)
  ∧ (∀ i, i ≠ _HEATERS_ →
       accumulated_Wh (output g') !! i = accumulated_Wh (output g) !! i)
  ∧ battery g' = battery g ∧ group1 g' = group1 g ∧ group2 g' = group2 g
  ∧ window g' = window g.
Proof.
  unfold parse_EVENT. py_simpl.
  repeat (py_case; py_simpl); cbn -[_HEATERS_];
    repeat split; try reflexivity; intros i Hi;
    rewrite ?list_lookup_insert_ne by congruence; reflexivity.
Qed.

(** Only the two flight events make [parse_EVENT] change anything. *)
Lemma parse_EVENT_other packet t g log :
  packet !! 3 ≠ Some "START_FLIGHT" → packet !! 3 ≠ Some "END_FLIGHT" →
  globals_of (parse_EVENT packet t g log) = g.
Proof.
  intros Hstart Hend. unfold parse_EVENT. py_simpl.
  destruct (packet !! 3) as [p3|]; [|reflexivity]. py_simpl.
  destruct (String.eqb_spec p3 "START_FLIGHT") as [->|_]; [congruence|].
  destruct (String.eqb_spec p3 "END_FLIGHT") as [->|_]; [congruence|].
  reflexivity.
Qed.

(** C8.  A packet whose source is not the PDU leaves the state, current,
    last update time and accumulated energy of the six services as they
    were, and the battery, the groups and the window too: it can only reach
    the flight flag and the heater's items, and it reaches nothing at all
    unless it is an [EVENT] named [START_FLIGHT] or [END_FLIGHT]. *)
Theorem C8_other_source_frame rt utcnow raw g :
  head (split "," raw) ≠ Some "PDU" →
  let g' := globals_of (run (parse_telemetry rt utcnow raw) g) in
  (is_on (output g') = is_on (output g)
   ∧ current (output g') = current (output g)
   ∧ (∀ i, i ≠ _HEATERS_ →
        last_update_time (output g') !! i = last_update_time (output g) !! i)
   ∧ (∀ i, i ≠ _HEATERS_ →
        accumulated_Wh (output g') !! i = accumulated_Wh (output g) !! i)
   ∧ battery g' = battery g ∧ group1 g' = group1 g ∧ group2 g' = group2 g
   ∧ window g' = window g)
  ∧ (¬ (split "," raw !! 2 = Some "EVENT"
        ∧ (split "," raw !! 3 = Some "START_FLIGHT"
           ∨ split "," raw !! 3 = Some "END_FLIGHT")) →
     g' = g).
Proof.
  intros Hsource.
  destruct (split "," raw) as [|source [|stamp [|header rest]]] eqn:Hsplit;
    try (rewrite parse_telemetry_too_short by (rewrite Hsplit; cbn; lia);
         cbn; tauto).
  rewrite (parse_telemetry_fields _ _ _ _ _ _ _ _ Hsplit).
  destruct (String.eqb_spec source "PDU") as [->|_]; [done|].
  cbn [negb].
  destruct (String.eqb_spec header "EVENT") as [->|Hheader].
  - split; [apply parse_EVENT_frame|].
    intros Hother. apply parse_EVENT_other; cbn in *; intros ?; tauto.
  - cbn. tauto.
Qed.

Lemma C8_other_source_frame_witness :
  globals_of (run (parse_telemetry utc_runtime 0
                     "GND,2021-08-01 12:00:00.000,STATUS,1,0.5") main_globals)
  = main_globals.
Proof.
  apply (C8_other_source_frame utc_runtime 0
           "GND,2021-08-01 12:00:00.000,STATUS,1,0.5" main_globals).
  - vm_compute. discriminate.
  - vm_compute. intros [H _]. discriminate H.
Defined.

(** C5 as stated fails: nothing validates the session state and nothing is
    reported.  A second [START_FLIGHT] while in flight moves the heater's
    last update time, silently. *)
Lemma C5_counterexample_second_start :
  ∃ g1 g2,
    run (parse_telemetry utc_runtime 0
           "GND,2021-08-01 12:00:00.000,EVENT,START_FLIGHT") main_globals
    = Ok tt g1 []
    ∧ in_flight g1 = true
    ∧ last_update_time (output g1) !! _HEATERS_ = Some 1627819200%Q
    ∧ run (parse_telemetry utc_runtime 0
             "GND,2021-08-01 12:10:00.000,EVENT,START_FLIGHT") g1
      = Ok tt g2 []
    ∧ last_update_time (output g2) !! _HEATERS_ = Some 1627819800%Q
    ∧ g2 ≠ g1.
Proof.
  eexists _, _. split; [vm_compute; reflexivity|].
  split; [reflexivity|]. split; [reflexivity|].
  split; [vm_compute; reflexivity|]. split; [reflexivity|].
  intros H. discriminate H.
Qed.

(** C5 (amended).  A [START_FLIGHT] event received while in flight keeps
    the session in flight and the accumulated energy as it was, and sets
    the heater's last update time to the time of the event; an [END_FLIGHT]
    event received while idle, with the heater's last update time unset (not
    above zero), changes nothing.  Neither is reported: the logger only
    gets the warning of the time stamp, if any. *)
Theorem C5_repeated_flight_event rt utcnow raw g source stamp name rest
    (armed : Q) :
  split "," raw = source :: stamp :: "EVENT" :: name :: rest →
  source ≠ "PDU" →
  shaped g →
  last_update_time (output g) !! _HEATERS_ = Some armed →
  (name = "START_FLIGHT" ∧ in_flight g = true)
  ∨ (name = "END_FLIGHT" ∧ in_flight g = false ∧ (armed <= 0)%Q) →
  ∃ g',
    run (parse_telemetry rt utcnow raw) g = Ok tt g' (stamp_warnings rt stamp)
    ∧ in_flight g' = in_flight g
    ∧ accumulated_Wh (output g') = accumulated_Wh (output g)
    ∧ current (output g') = current (output g)
    ∧ is_on (output g') = is_on (output g)
    ∧ battery g' = battery g
    ∧ (name = "START_FLIGHT" →
       last_update_time (output g')
       = <[_HEATERS_:=time_of_reception rt utcnow stamp]>
           (last_update_time (output g)))
    ∧ (name = "END_FLIGHT" → g' = g).
Proof.
  intros Hsplit Hsource [Hc Hl Ha Ho] Harmed Hcase.
  rewrite (parse_telemetry_fields _ _ _ _ _ _ _ _ Hsplit).
  destruct (String.eqb_spec source "PDU") as [|_]; [done|].
  cbn [negb String.eqb Ascii.eqb Bool.eqb].
  unfold parse_EVENT. py_simpl.
  destruct Hcase as [[-> Hflying] | (-> & Hidle & Hunset)];
    cbn [String.eqb Ascii.eqb Bool.eqb]; py_simpl.
  - rewrite Hl. cbn [Nat.ltb Nat.leb _HEATERS_].
    eexists. split; [reflexivity|]. cbn.
    repeat split; try done. 
  - rewrite Harmed. py_simpl. apply Qltb_false in Hunset. rewrite Hunset.
    exists g. repeat split; done.
Qed.

Lemma C5_repeated_flight_event_witness :
  ∃ g',
    run (parse_telemetry utc_runtime 0
           "GND,2021-08-01 12:00:00.000,EVENT,END_FLIGHT") main_globals
    = Ok tt g' []
    ∧ in_flight g' = false
    ∧ accumulated_Wh (output g') = accumulated_Wh (output main_globals)
    ∧ current (output g') = current (output main_globals)
    ∧ is_on (output g') = is_on (output main_globals)
    ∧ battery g' = battery main_globals
    ∧ ("END_FLIGHT" = "START_FLIGHT" →
       last_update_time (output g')
       = <[_HEATERS_:=1627819200%Q]> (last_update_time (output main_globals)))
    ∧ ("END_FLIGHT" = "END_FLIGHT" → g' = main_globals).
Proof.
  apply (C5_repeated_flight_event utc_runtime 0
           "GND,2021-08-01 12:00:00.000,EVENT,END_FLIGHT" main_globals
           "GND" "2021-08-01 12:00:00.000" "END_FLIGHT" [] 0%Q).
  - reflexivity.
  - discriminate.
  - split; reflexivity.
  - reflexivity.
  - right. split; [reflexivity|]. split; [reflexivity|]. vm_compute. discriminate.
Defined.

(** The [END_FLIGHT] event with the heater armed: the interval since the
    last update is integrated when it is positive, the last update time
    goes back to zero, and the session is idle. *)
Lemma parse_telemetry_END_FLIGHT rt utcnow raw g source stamp rest
    (armed acc : Q) :
  split "," raw = source :: stamp :: "EVENT" :: "END_FLIGHT" :: rest →
  source ≠ "PDU" →
  shaped g →
  last_update_time (output g) !! _HEATERS_ = Some armed →
  accumulated_Wh (output g) !! _HEATERS_ = Some acc →
  (0 < armed)%Q →
  let delta := (time_of_reception rt utcnow stamp - armed)%Q in
  run (parse_telemetry rt utcnow raw) g =
    Ok tt
      (with_in_flight false
         (with_output
            {| current := current (output g);
               last_update_time := <[_HEATERS_:=0%Q]> (last_update_time (output g));
               accumulated_Wh :=
                 if Qltb 0 delta
                 then <[_HEATERS_:=(acc + heaters_Wh (battery g) delta)%Q]>
                        (accumulated_Wh (output g))
                 else accumulated_Wh (output g);
               is_on := is_on (output g) |} g))
      (stamp_warnings rt stamp).
Proof.
  intros Hsplit Hsource [Hc Hl Ha Ho] Harmed Hacc Hpos delta.
  rewrite (parse_telemetry_fields _ _ _ _ _ _ _ _ Hsplit).
  destruct (String.eqb_spec source "PDU") as [|_]; [done|].
  cbn [negb String.eqb Ascii.eqb Bool.eqb].
  unfold parse_EVENT. py_simpl. cbn [String.eqb Ascii.eqb Bool.eqb]. py_simpl.
  rewrite Harmed. py_simpl. apply Qltb_true in Hpos. rewrite Hpos. py_simpl.
  rewrite Harmed. py_simpl. fold delta.
  destruct (Qltb 0 delta); py_simpl.
  - rewrite Hacc. py_simpl. rewrite Ha. cbn [Nat.ltb Nat.leb _HEATERS_]. py_simpl.
    rewrite Hl. cbn [Nat.ltb Nat.leb]. reflexivity.
  - rewrite Hl. cbn [Nat.ltb Nat.leb _HEATERS_]. reflexivity.
Qed.

(** The flight toggle pressed while in flight: the session goes idle and
    the heater's last update time becomes the clock reading; the
    accumulated energy is not touched. *)
Lemma flight_toggle_in_flight utcnow g :
  in_flight g = true → shaped g →
  run (flight_toggle utcnow) g =
    Ok tt
      (with_window (set_FLIGHT_TOGGLE "START FLIGHT" (window g))
         (with_in_flight false
            (with_output
               (store_last_update_time
                  (<[_HEATERS_:=utcnow]> (last_update_time (output g)))
                  (output g)) g)))
      [EVENT "END_FLIGHT"].
Proof.
  intros Hflying [Hc Hl Ha Ho]. unfold run, flight_toggle. py_simpl.
  rewrite Hflying. py_simpl. rewrite Hl. reflexivity.
Qed.

(** C4 fails on the code for the operator's toggle: it integrates nothing
    and leaves the heater armed at the clock reading, where the
    [END_FLIGHT] event integrates the last interval and disarms.  One hour
    of flight at 0.9 A and 28 V: the event credits 25.2 Wh, the toggle
    none. *)
Theorem C4_toggle_end_skips_integration :
  ∃ g1 g2 g3 acc3,
    run (parse_telemetry utc_runtime 0
           "GND,2021-08-01 12:00:00.000,EVENT,START_FLIGHT") main_globals
    = Ok tt g1 []
    ∧ in_flight g1 = true
    ∧ last_update_time (output g1) !! _HEATERS_ = Some 1627819200%Q
    ∧ run (flight_toggle 1627822800) g1 = Ok tt g2 [EVENT "END_FLIGHT"]
    ∧ in_flight g2 = false
    ∧ accumulated_Wh (output g2) !! _HEATERS_ = Some 0%Q
    ∧ last_update_time (output g2) !! _HEATERS_ = Some 1627822800%Q
    ∧ (heaters_consumption (battery g1) * (1627822800 - 1627819200) / 3600
       * nominal_voltage (battery g1) == 126 # 5)%Q
    ∧ run (parse_telemetry utc_runtime 0
             "GND,2021-08-01 13:00:00.000,EVENT,END_FLIGHT") g1
      = Ok tt g3 []
    ∧ in_flight g3 = false
    ∧ accumulated_Wh (output g3) !! _HEATERS_ = Some acc3
    ∧ (acc3 == 126 # 5)%Q
    ∧ last_update_time (output g3) !! _HEATERS_ = Some 0%Q.
Proof.
  eexists _, _, _, _. split; [vm_compute; reflexivity|].
  split; [reflexivity|]. split; [reflexivity|].
  split; [vm_compute; reflexivity|].
  split; [reflexivity|]. split; [reflexivity|]. split; [reflexivity|].
  split; [reflexivity|].
  split; [vm_compute; reflexivity|].
  split; [reflexivity|]. split; [reflexivity|]. split; reflexivity.
Qed.

(** ** Groups and battery on the window *)

Lemma with_group_twice k x y g :
  with_group k x (with_group k y g) = with_group k x g.
Proof. destruct k; reflexivity. Qed.

Lemma group_with_group k x g : group k (with_group k x g) = x.
Proof. destruct k; reflexivity. Qed.

Lemma output_with_group k x g : output (with_group k x g) = output g.
Proof. destruct k; reflexivity. Qed.

Lemma window_with_group k x g : window (with_group k x g) = window g.
Proof. destruct k; reflexivity. Qed.



Lemma shaped_same_output g g' : output g' = output g → shaped g → shaped g'.
Proof. intros E [? ? ? ?]. split; rewrite E; assumption. Qed.


(** The battery part writes the battery, its three widgets, and nothing
    else. *)
Lemma refresh_battery_frame rt values g log :
  let g' := globals_of (refresh_battery rt values g log) in
  output g' = output g ∧ group1 g' = group1 g ∧ group2 g' = group2 g
  ∧ in_flight g' = in_flight g
  ∧ ∀ k, limit_colour k (window g') = limit_colour k (window g)
         ∧ sum_colour k (window g') = sum_colour k (window g).
Proof.
  unfold refresh_battery. py_simpl.
  repeat (py_case; py_simpl); try (destruct (OFFSET_WH values); py_simpl);
    repeat (py_case; py_simpl);
    cbn; repeat split; try reflexivity; destruct k; reflexivity.
Qed.

(** [int_of_float] drops the fraction, toward zero. *)
Lemma int_of_float_truncates (x : Q) :
  ((0 <= x → inject_Z (int_of_float x) <= x ∧ x < inject_Z (int_of_float x) + 1)
   ∧ (x <= 0 →
      inject_Z (int_of_float x) - 1 < x ∧ x <= inject_Z (int_of_float x)))%Q.
Proof.
  destruct x as [n d]. unfold int_of_float, Qle, Qlt. cbn.
  pose proof (Z.quot_rem' n (Z.pos d)) as Hqr.
  rewrite ?Z.mul_1_r, ?Pos.mul_1_l.
  split; intros Hsign.
  - assert (0 <= n)%Z as Hn by lia.
    pose proof (Z.rem_bound_pos n (Z.pos d) Hn ltac:(lia)). lia.
  - assert (n <= 0)%Z as Hn by lia.
    pose proof (Z.rem_bound_pos_neg n (Z.pos d) ltac:(lia) Hn). lia.
Qed.









(** * Further properties *)

(** ** Relations every step of a call respects *)

Section Respects.
Context (R : Globals → Globals → Prop) `{!Reflexive R, !Transitive R}.

Lemma respects_ret {T} (x : T) : respects R (mret x : Py T).
Proof. intros g log. apply reflexivity. Qed.

Lemma respects_pass : respects R pass.
Proof. intros g log. apply reflexivity. Qed.

Lemma respects_raise {T} e : respects R (raise e : Py T).
Proof. intros g log. apply reflexivity. Qed.

Lemma respects_gets {T} (f : Globals → T) : respects R (gets f).
Proof. intros g log. apply reflexivity. Qed.

Lemma respects_log_warning msg : respects R (log_warning msg).
Proof. intros g log. apply reflexivity. Qed.

Lemma respects_log_event msg : respects R (log_event msg).
Proof. intros g log. apply reflexivity. Qed.

Lemma respects_getitem {T} (l : list T) i : respects R (getitem l i).
Proof. intros g log. unfold getitem. destruct (l !! i); apply reflexivity. Qed.

Lemma respects_float_of rt text : respects R (float_of rt text).
Proof.
  intros g log. unfold float_of. destruct (float rt text); apply reflexivity.
Qed.

Lemma respects_int_of text : respects R (int_of text).
Proof.
  intros g log. unfold int_of. destruct (str_int text); apply reflexivity.
Qed.

Lemma respects_modify f : (∀ g, R g (f g)) → respects R (modify f).
Proof. intros Hf g log. apply Hf. Qed.

Lemma respects_bind {T U} (m : Py T) (f : T → Py U) :
  respects R m → (∀ x, respects R (f x)) → respects R (m ≫= f).
Proof.
  intros Hm Hf g log. specialize (Hm g log).
  unfold mbind, Py_bind. destruct (m g log) as [x g' log'|e g' log'].
  - etrans; [exact Hm | apply Hf].
  - exact Hm.
Qed.

Lemma respects_setitem {T} (field : Output → list T) store i x :
  (∀ g, i < length (field (output g)) →
        R g (with_output (store (<[i:=x]> (field (output g))) (output g)) g)) →
  respects R (setitem field store i x).
Proof.
  intros Hstore g log. unfold setitem, gets, modify, mbind, Py_bind.
  destruct (Nat.ltb_spec i (length (field (output g)))).
  - apply Hstore. assumption.
  - apply reflexivity.
Qed.
End Respects.

#[global] Instance same_shape_refl : Reflexive same_shape.
Proof. intros g. repeat split. Qed.

#[global] Instance same_shape_trans : Transitive same_shape.
Proof.
  intros g1 g2 g3 (A1 & A2 & A3 & A4) (B1 & B2 & B3 & B4).
  repeat split; congruence.
Qed.

#[global] Instance same_flight_refl : Reflexive same_flight.
Proof. intros g. repeat split. Qed.

#[global] Instance same_flight_trans : Transitive same_flight.
Proof.
  intros g1 g2 g3 (A1 & A2 & A3 & A4 & A5 & A6 & A7)
    (B1 & B2 & B3 & B4 & B5 & B6 & B7).
  repeat split; congruence.
Qed.

#[global] Instance same_accounts_refl : Reflexive same_accounts.
Proof. intros g. split; reflexivity. Qed.

#[global] Instance same_accounts_trans : Transitive same_accounts.
Proof. intros g1 g2 g3 [A1 A2] [B1 B2]. split; congruence. Qed.

(** One step of a proof that a call respects a relation: through a bind, a
    test of the call, or one of its operations. *)
Ltac respects_step :=
  first
    [ apply respects_pass; apply _ | apply respects_ret; apply _
    | apply respects_raise; apply _ | apply respects_gets; apply _
    | apply respects_log_warning; apply _
    | apply respects_log_event; apply _ | apply respects_getitem; apply _
    | apply respects_float_of; apply _
    | apply respects_int_of; apply _
    | apply respects_bind; [apply _ .. | | intros ?]
    | match goal with
      | |- respects _ (if ?b then _ else _) => destruct b eqn:?
      | |- respects _ (match ?x with _ => _ end) => destruct x eqn:?
      end ].

Ltac respects_with leaf :=
  repeat first
    [ progress unfold get_current, get_last_update_time, get_accumulated_Wh,
        set_current, set_last_update_time, set_accumulated_Wh, set_is_on
    | apply respects_setitem; [apply _ .. | intros ? ?; leaf]
    | apply respects_modify; intros ?; leaf
    | respects_step ].

(** ** The lists of [output] keep their lengths *)

Ltac shape_leaf :=
  repeat split; cbn; rewrite ?length_insert; reflexivity.

Lemma parse_telemetry_respects_shape rt utcnow raw :
  respects same_shape (parse_telemetry rt utcnow raw).
Proof.
  unfold parse_telemetry, parse_EVENT, parse_SRVCSET, parse_STATUS. cbv zeta.
  respects_with shape_leaf.
Qed.

Lemma flight_toggle_respects_shape utcnow :
  respects same_shape (flight_toggle utcnow).
Proof. unfold flight_toggle. respects_with shape_leaf. Qed.

Lemma auto_refresh_respects_shape clock text start :
  respects same_shape (auto_refresh clock text start).
Proof. unfold auto_refresh. cbv zeta. respects_with shape_leaf. Qed.

Lemma load_log_respects_shape rt lines : respects same_shape (load_log rt lines).
Proof.
  induction lines as [|[utcnow line] lines IH]; cbn [load_log].
  - apply respects_pass; apply _.
  - apply respects_bind;
      [apply _ .. | apply parse_telemetry_respects_shape | intros _; exact IH].
Qed.

Lemma same_shape_shaped g g' : same_shape g g' → shaped g → shaped g'.
Proof.
  intros (Hc & Hl & Ha & Ho) [? ? ? ?]. split; congruence.
Qed.

(** A refresh reads the accounting data and never writes them. *)
Ltac accounts_leaf :=
  split; try (match goal with k : GroupId |- _ => destruct k end); reflexivity.

Lemma refresh_respects_accounts rt values :
  respects same_accounts (refresh_telemetry_stats_on_gui rt values).
Proof.
  unfold refresh_telemetry_stats_on_gui, refresh_group, refresh_member,
    refresh_battery.
  cbv zeta. respects_with accounts_leaf.
Qed.

(** X1.  The lists of [output] keep the lengths [main] gave them through
    every modelled entry point, whether the call returns or raises: a
    packet, a replayed log, the flight toggle, the auto-refresh block and
    the refresh of the window. *)
Theorem X1_shaped_everywhere rt g :
  shaped g →
  (∀ utcnow raw, shaped (globals_of (run (parse_telemetry rt utcnow raw) g)))
  ∧ (∀ lines, shaped (globals_of (run (load_log rt lines) g)))
  ∧ (∀ utcnow, shaped (globals_of (run (flight_toggle utcnow) g)))
  ∧ (∀ clock text start,
       shaped (globals_of (run (auto_refresh clock text start) g)))
  ∧ (∀ values,
       shaped (globals_of (run (refresh_telemetry_stats_on_gui rt values) g))).
Proof.
  intros Hg. split; [|split; [|split; [|split]]]; intros.
  - eapply same_shape_shaped; [apply parse_telemetry_respects_shape|exact Hg].
  - eapply same_shape_shaped; [apply load_log_respects_shape|exact Hg].
  - eapply same_shape_shaped; [apply flight_toggle_respects_shape|exact Hg].
  - eapply same_shape_shaped; [apply auto_refresh_respects_shape|exact Hg].
  - eapply shaped_same_output; [|exact Hg].
    apply (refresh_respects_accounts rt values g []).
Qed.

Lemma X1_shaped_everywhere_witness :
  shaped (globals_of (run (parse_telemetry utc_runtime 0
            "PDU,2021-08-01 12:00:00.000,STATUS,1,0.5") main_globals)).
Proof.
  assert (shaped main_globals) as Hshaped by (split; reflexivity).
  destruct (X1_shaped_everywhere utc_runtime main_globals Hshaped)
    as (Hpacket & _).
  exact (Hpacket 0%Q "PDU,2021-08-01 12:00:00.000,STATUS,1,0.5").
Defined.

(** X2.  A refresh of the window never writes the accounting data: the
    currents, the last update times, the accumulated energies, the states
    of the services and the flight flag are what they were, also when the
    refresh raises on a limit that does not convert or on a capacity of
    zero. *)
Theorem X2_refresh_reads_accounts_only rt values g :
  let g' := globals_of (run (refresh_telemetry_stats_on_gui rt values) g) in
  output g' = output g ∧ in_flight g' = in_flight g.
Proof. apply (refresh_respects_accounts rt values g []). Qed.

(** ** Packets of the PDU *)

Ltac flight_leaf :=
  repeat split; cbn -[_HEATERS_]; try reflexivity;
  apply list_lookup_insert_ne; unfold _HEATERS_;
  match goal with
  | H : (_ && _) = true |- _ =>
      apply andb_true_iff in H; destruct H as [?%Z.leb_le ?%Z.leb_le]; lia
  end.

Lemma parse_SRVCSET_respects_flight packet :
  respects same_flight (parse_SRVCSET packet).
Proof. unfold parse_SRVCSET. cbv zeta. respects_with flight_leaf. Qed.

Lemma parse_STATUS_respects_flight rt packet t :
  respects same_flight (parse_STATUS rt packet t).
Proof. unfold parse_STATUS. cbv zeta. respects_with flight_leaf. Qed.

(** X3.  No packet of the PDU can start or end a flight or reach the
    heater: whatever its header and fields, the flight flag, the heater's
    last update time and accumulated energy, the battery, the groups and
    the window are left as they were.  An [EVENT] sent by the PDU itself is
    ignored. *)
Theorem X3_PDU_packets_leave_flight rt utcnow raw g :
  head (split "," raw) = Some "PDU" →
  let g' := globals_of (run (parse_telemetry rt utcnow raw) g) in
  in_flight g' = in_flight g
  ∧ last_update_time (output g') !! _HEATERS_
    = last_update_time (output g) !! _HEATERS_
  ∧ accumulated_Wh (output g') !! _HEATERS_
    = accumulated_Wh (output g) !! _HEATERS_
  ∧ battery g' = battery g ∧ group1 g' = group1 g ∧ group2 g' = group2 g
  ∧ window g' = window g.
Proof.
  intros Hsource.
  destruct (split "," raw) as [|source [|stamp [|header rest]]] eqn:Hsplit;
    try (rewrite parse_telemetry_too_short by (rewrite Hsplit; cbn; lia);
         cbn; tauto).
  injection Hsource as ->.
  rewrite (parse_telemetry_fields _ _ _ _ _ _ _ _ Hsplit).
  cbn [String.eqb Ascii.eqb Bool.eqb negb].
  destruct (header =? "SRVCSET")%string;
    [apply parse_SRVCSET_respects_flight|].
  destruct (header =? "STATUS")%string;
    [apply parse_STATUS_respects_flight|].
  cbn. tauto.
Qed.

Lemma X3_PDU_packets_leave_flight_witness :
  in_flight (globals_of (run (parse_telemetry utc_runtime 0
               "PDU,2021-08-01 12:00:00.000,EVENT,START_FLIGHT") main_globals))
  = false.
Proof.
  apply (X3_PDU_packets_leave_flight utc_runtime 0
           "PDU,2021-08-01 12:00:00.000,EVENT,START_FLIGHT" main_globals).
  reflexivity.
Defined.

(** A [SRVCSET] reply of the PDU for a service of the unit: the state of
    the service is replaced. *)
Lemma parse_telemetry_SRVCSET rt utcnow raw g stamp id state rest :
  split "," raw = "PDU" :: stamp :: "SRVCSET" :: id :: state :: rest →
  isdigit id = true → (1 ≤ int id ≤ 6)%Z →
  shaped g →
  run (parse_telemetry rt utcnow raw) g =
    Ok tt
      (with_output
         (store_is_on
            (<[Z.to_nat (int id - 1):=(state =? "1")%string]> (is_on (output g)))
            (output g)) g)
      (stamp_warnings rt stamp).
Proof.
  intros Hsplit Hdigit Hrange [Hc Hl Ha Ho].
  pose proof (service_index_bound _ Hrange) as Hidx.
  rewrite (parse_telemetry_fields _ _ _ _ _ _ _ _ Hsplit).
  cbn [String.eqb Ascii.eqb Bool.eqb negb].
  unfold parse_SRVCSET. cbn [length Nat.ltb Nat.leb]. py_simpl.
  rewrite (isdigit_str_isdigit _ Hdigit), (isdigit_str_int _ Hdigit).
  py_simpl. rewrite (in_range_true _ Hrange). py_simpl.
  rewrite Ho. py_bound. reflexivity.
Qed.

(** X4.  A [SRVCSET] reply of the PDU for a service 1..6 replaces the known
    state of that service by the reply: on when the state field is exactly
    the text 1, off for any other text.  Nothing else changes, nothing is
    logged but the warning of the time stamp, and the same reply once more
    changes nothing. *)
Theorem X4_SRVCSET_replaces_state rt utcnow raw g stamp id state rest :
  split "," raw = "PDU" :: stamp :: "SRVCSET" :: id :: state :: rest →
  isdigit id = true → (1 ≤ int id ≤ 6)%Z →
  shaped g →
  let index := Z.to_nat (int id - 1) in
  ∃ g',
    run (parse_telemetry rt utcnow raw) g = Ok tt g' (stamp_warnings rt stamp)
    ∧ is_on (output g') !! index = Some (bool_decide (state = "1"))
    ∧ (∀ j, j ≠ index → is_on (output g') !! j = is_on (output g) !! j)
    ∧ current (output g') = current (output g)
    ∧ last_update_time (output g') = last_update_time (output g)
    ∧ accumulated_Wh (output g') = accumulated_Wh (output g)
    ∧ in_flight g' = in_flight g ∧ battery g' = battery g
    ∧ run (parse_telemetry rt utcnow raw) g' = Ok tt g' (stamp_warnings rt stamp).
Proof.
  intros Hsplit Hdigit Hrange Hg index.
  pose proof (service_index_bound _ Hrange) as Hidx. fold index in Hidx.
  pose proof Hg as [Hc Hl Ha Ho].
  pose proof (parse_telemetry_SRVCSET rt utcnow raw g _ _ _ _
                Hsplit Hdigit Hrange Hg) as Hrun.
  fold index in Hrun. set (g' := with_output _ g) in Hrun.
  assert (shaped g') as Hg'.
  { split; cbn; rewrite ?length_insert; assumption. }
  exists g'. split; [exact Hrun|].
  split.
  { cbn. rewrite list_lookup_insert_eq by lia. f_equal.
    destruct (String.eqb_spec state "1");
      [rewrite bool_decide_eq_true_2|rewrite bool_decide_eq_false_2]; done. }
  split; [intros j Hj; cbn; apply list_lookup_insert_ne; congruence|].
  do 5 (split; [reflexivity|]).
  rewrite (parse_telemetry_SRVCSET rt utcnow raw g' _ _ _ _
             Hsplit Hdigit Hrange Hg').
  fold index. f_equal. unfold g'. cbn.
  rewrite list_insert_insert_eq. reflexivity.
Qed.

Lemma X4_SRVCSET_replaces_state_witness :
  ∃ g',
    run (parse_telemetry utc_runtime 0
           "PDU,2021-08-01 12:00:00.000,SRVCSET,3,1") main_globals
    = Ok tt g' []
    ∧ is_on (output g') !! 2 = Some true.
Proof.
  destruct (X4_SRVCSET_replaces_state utc_runtime 0
              "PDU,2021-08-01 12:00:00.000,SRVCSET,3,1" main_globals
              "2021-08-01 12:00:00.000" "3" "1" [])
    as (g' & Hrun & Hon & _).
  - reflexivity.
  - reflexivity.
  - vm_compute. split; discriminate.
  - split; reflexivity.
  - exists g'. split; [exact Hrun | exact Hon].
Defined.

(** X5.  A [STATUS] reply of the PDU for a service 1..6 only writes the
    current, the last update time and the accumulated energy of that
    service: the items of every other service and of the heater, the
    states of the services, the flight flag and the battery are left as
    they were. *)
Theorem X5_STATUS_touches_one_service rt utcnow raw g stamp id value rest
    (amps : Q) :
  split "," raw = "PDU" :: stamp :: "STATUS" :: id :: value :: rest →
  isdigit id = true → (1 ≤ int id ≤ 6)%Z →
  float rt value = Some amps →
  shaped g →
  let index := Z.to_nat (int id - 1) in
  let g' := globals_of (run (parse_telemetry rt utcnow raw) g) in
  (∀ j, j ≠ index →
     current (output g') !! j = current (output g) !! j
     ∧ last_update_time (output g') !! j = last_update_time (output g) !! j
     ∧ accumulated_Wh (output g') !! j = accumulated_Wh (output g) !! j)
  ∧ is_on (output g') = is_on (output g)
  ∧ in_flight g' = in_flight g ∧ battery g' = battery g.
Proof.
  intros Hsplit Hdigit Hrange Hamps Hg index.
  pose proof (service_index_bound _ Hrange) as Hidx. fold index in Hidx.
  pose proof Hg as [Hc Hl Ha Ho].
  destruct (lookup_lt_is_Some_2 (last_update_time (output g)) index)
    as [last Hlast]; [lia|].
  destruct (lookup_lt_is_Some_2 (accumulated_Wh (output g)) index)
    as [acc Hacc]; [lia|].
  rewrite (parse_telemetry_STATUS rt utcnow raw g _ _ _ _ amps last acc
             Hsplit Hdigit Hrange Hamps Hg Hlast Hacc).
  cbn. fold index. split; [|done].
  intros j Hj. rewrite !list_lookup_insert_ne by congruence.
  split; [done|]. split; [done|].
  destruct (Qltb 0 last); [apply list_lookup_insert_ne; congruence|done].
Qed.

Lemma X5_STATUS_touches_one_service_witness :
  is_on (output (globals_of (run (parse_telemetry utc_runtime 0
           "PDU,2021-08-01 12:00:00.000,STATUS,1,0.5") main_globals)))
  = is_on (output main_globals).
Proof.
  apply (X5_STATUS_touches_one_service utc_runtime 0
           "PDU,2021-08-01 12:00:00.000,STATUS,1,0.5" main_globals
           "2021-08-01 12:00:00.000" "1" "0.5" [] (1 # 2)%Q).
  - reflexivity.
  - reflexivity.
  - vm_compute. split; discriminate.
  - reflexivity.
  - split; reflexivity.
Defined.

(** What two [STATUS] replies in a row for one service leave in its three
    items. *)
Lemma parse_telemetry_STATUS_twice rt utcnow1 utcnow2 raw1 raw2 g
    stamp1 stamp2 id value1 value2 rest1 rest2 (a1 a2 last acc : Q) :
  split "," raw1 = "PDU" :: stamp1 :: "STATUS" :: id :: value1 :: rest1 →
  split "," raw2 = "PDU" :: stamp2 :: "STATUS" :: id :: value2 :: rest2 →
  isdigit id = true → (1 ≤ int id ≤ 6)%Z →
  float rt value1 = Some a1 → float rt value2 = Some a2 →
  shaped g →
  last_update_time (output g) !! Z.to_nat (int id - 1) = Some last →
  accumulated_Wh (output g) !! Z.to_nat (int id - 1) = Some acc →
  let index := Z.to_nat (int id - 1) in
  let t1 := time_of_reception rt utcnow1 stamp1 in
  let t2 := time_of_reception rt utcnow2 stamp2 in
  let V := nominal_voltage (battery g) in
  let acc1 := if Qltb 0 last then (acc + a1 * ((t1 - last) / 3600) * V)%Q else acc in
  let acc2 := if Qltb 0 t1 then (acc1 + a2 * ((t2 - t1) / 3600) * V)%Q else acc1 in
  ∃ g1 g2,
    run (parse_telemetry rt utcnow1 raw1) g = Ok tt g1 (stamp_warnings rt stamp1)
    ∧ run (parse_telemetry rt utcnow2 raw2) g1
      = Ok tt g2 (stamp_warnings rt stamp2)
    ∧ accumulated_Wh (output g1) !! index = Some acc1
    ∧ current (output g2) = <[index:=a2]> (current (output g))
    ∧ last_update_time (output g2) = <[index:=t2]> (last_update_time (output g))
    ∧ accumulated_Wh (output g2) !! index = Some acc2.
Proof.
  intros Hs1 Hs2 Hdigit Hrange Ha1 Ha2 Hg Hlast Hacc index t1 t2 V acc1 acc2.
  pose proof (service_index_bound _ Hrange) as Hidx. fold index in Hidx.
  pose proof Hg as [Hc Hl Ha Ho].
  pose proof (parse_telemetry_STATUS rt utcnow1 raw1 g _ _ _ _ a1 last acc
                Hs1 Hdigit Hrange Ha1 Hg Hlast Hacc) as Hrun1.
  cbv zeta in Hrun1. fold index t1 V in Hrun1.
  set (g1 := with_output _ g) in Hrun1.
  assert (Hg1 : shaped g1).
  { split; cbn; destruct (Qltb 0 last); rewrite ?length_insert; assumption. }
  assert (Hlast1 : last_update_time (output g1) !! index = Some t1).
  { cbn. apply list_lookup_insert_eq. lia. }
  assert (Hacc1 : accumulated_Wh (output g1) !! index = Some acc1).
  { cbn. unfold acc1. destruct (Qltb 0 last); [|exact Hacc].
    apply list_lookup_insert_eq. lia. }
  pose proof (parse_telemetry_STATUS rt utcnow2 raw2 g1 _ _ _ _ a2 t1 acc1
                Hs2 Hdigit Hrange Ha2 Hg1 Hlast1 Hacc1) as Hrun2.
  cbv zeta in Hrun2. fold index t2 in Hrun2.
  eexists g1, _. split; [exact Hrun1|]. split; [exact Hrun2|].
  split; [exact Hacc1|]. cbn.
  split; [apply list_insert_insert_eq|]. split; [apply list_insert_insert_eq|].
  unfold acc2. fold V. destruct (Qltb 0 t1); [|exact Hacc1].
  destruct (Qltb 0 last); rewrite ?list_insert_insert_eq;
    apply list_lookup_insert_eq; lia.
Qed.

(** X6.  The same logged [STATUS] packet, with a time stamp that decodes,
    handed to [parse_telemetry] twice in a row (a line that stands twice
    in a loaded log; a datagram received twice is stamped at each
    reception and is another packet) adds no energy the second time: the
    accumulated energy of the service after the second call equals the one
    after the first, and the current and the last update time are the
    same. *)
Theorem X6_repeated_STATUS_line_adds_nothing rt utcnow1 utcnow2 raw g
    stamp id value rest (amps last acc t : Q) :
  split "," raw = "PDU" :: stamp :: "STATUS" :: id :: value :: rest →
  isdigit id = true → (1 ≤ int id ≤ 6)%Z →
  float rt value = Some amps →
  fromisoformat_timestamp rt stamp = Some t →
  shaped g →
  last_update_time (output g) !! Z.to_nat (int id - 1) = Some last →
  accumulated_Wh (output g) !! Z.to_nat (int id - 1) = Some acc →
  let index := Z.to_nat (int id - 1) in
  ∃ g1 g2 acc1 acc2,
    run (parse_telemetry rt utcnow1 raw) g = Ok tt g1 []
    ∧ run (parse_telemetry rt utcnow2 raw) g1 = Ok tt g2 []
    ∧ accumulated_Wh (output g1) !! index = Some acc1
    ∧ accumulated_Wh (output g2) !! index = Some acc2
    ∧ (acc2 == acc1)%Q
    ∧ current (output g2) = current (output g1)
    ∧ last_update_time (output g2) = last_update_time (output g1).
Proof.
  intros Hsplit Hdigit Hrange Hamps Hstamp Hg Hlast Hacc index.
  pose proof (service_index_bound _ Hrange) as Hidx. fold index in Hidx.
  destruct (parse_telemetry_STATUS_twice rt utcnow1 utcnow2 raw raw g
              _ _ _ _ _ _ _ amps amps last acc
              Hsplit Hsplit Hdigit Hrange Hamps Hamps Hg Hlast Hacc)
    as (g1 & g2 & Hrun1 & Hrun2 & Hacc1 & Hcur2 & Hlast2 & Hacc2).
  pose proof (parse_telemetry_STATUS rt utcnow1 raw g _ _ _ _ amps last acc
                Hsplit Hdigit Hrange Hamps Hg Hlast Hacc) as Hfirst.
  cbv zeta in Hfirst. rewrite Hrun1 in Hfirst. injection Hfirst as Hg1.
  unfold stamp_warnings, time_of_reception in *. rewrite Hstamp in *.
  cbn [default] in *. fold index in Hacc1, Hcur2, Hlast2, Hacc2, Hg1.
  eexists g1, g2, _, _. split; [exact Hrun1|]. split; [exact Hrun2|].
  split; [exact Hacc1|]. split; [exact Hacc2|].
  split.
  { cbn [Datatypes.id].
    destruct (Qltb 0 t), (Qltb 0 last); try reflexivity; field. }
  rewrite Hcur2, Hlast2, Hg1. cbn. done.
Qed.

Lemma X6_repeated_STATUS_line_adds_nothing_witness :
  ∃ g1 g2 acc1 acc2,
    run (parse_telemetry utc_runtime 0
           "PDU,2021-08-01 12:00:00.000,STATUS,1,0.5") after_one_hour_at_10A
    = Ok tt g1 []
    ∧ run (parse_telemetry utc_runtime 9
             "PDU,2021-08-01 12:00:00.000,STATUS,1,0.5") g1
      = Ok tt g2 []
    ∧ accumulated_Wh (output g1) !! 0 = Some acc1
    ∧ accumulated_Wh (output g2) !! 0 = Some acc2
    ∧ (acc2 == acc1)%Q
    ∧ current (output g2) = current (output g1)
    ∧ last_update_time (output g2) = last_update_time (output g1).
Proof.
  assert (shaped after_one_hour_at_10A) as Hshaped
    by (split; vm_compute; reflexivity).
  apply (X6_repeated_STATUS_line_adds_nothing utc_runtime 0 9
           "PDU,2021-08-01 12:00:00.000,STATUS,1,0.5" after_one_hour_at_10A
           "2021-08-01 12:00:00.000" "1" "0.5" [] (1 # 2) 1627822800
           (1008000 # 3600) 1627819200 eq_refl eq_refl)%Q.
  - vm_compute. split; discriminate.
  - reflexivity.
  - reflexivity.
  - exact Hshaped.
  - vm_compute. reflexivity.
  - vm_compute. reflexivity.
Defined.

(** X8.  The accumulated energy of a service cannot go down on a [STATUS]
    reply whose current is not negative and whose time of reception is not
    before the last update time, at a nominal voltage that is not
    negative. *)
Theorem X8_energy_grows_in_order rt utcnow raw g stamp id value rest
    (amps last acc : Q) :
  split "," raw = "PDU" :: stamp :: "STATUS" :: id :: value :: rest →
  isdigit id = true → (1 ≤ int id ≤ 6)%Z →
  float rt value = Some amps →
  shaped g →
  last_update_time (output g) !! Z.to_nat (int id - 1) = Some last →
  accumulated_Wh (output g) !! Z.to_nat (int id - 1) = Some acc →
  (0 <= amps)%Q → (0 <= nominal_voltage (battery g))%Q →
  (last <= time_of_reception rt utcnow stamp)%Q →
  ∃ acc',
    accumulated_Wh (output (globals_of (run (parse_telemetry rt utcnow raw) g)))
      !! Z.to_nat (int id - 1) = Some acc'
    ∧ (acc <= acc')%Q.
Proof.
  intros Hsplit Hdigit Hrange Hamps Hg Hlast Hacc Hpos HV Horder.
  pose proof (service_index_bound _ Hrange) as Hidx.
  pose proof Hg as [Hc Hl Ha Ho].
  rewrite (parse_telemetry_STATUS rt utcnow raw g _ _ _ _ amps last acc
             Hsplit Hdigit Hrange Hamps Hg Hlast Hacc).
  cbn. destruct (Qltb 0 last).
  - eexists. split; [apply list_lookup_insert_eq; lia|].
    set (t := time_of_reception rt utcnow stamp) in *.
    assert (0 <= (t - last) / 3600)%Q as Hd.
    { apply Qle_shift_div_l; lra. }
    pose proof (Qmult_le_0_compat _ _ Hpos Hd) as Hm.
    pose proof (Qmult_le_0_compat _ _ Hm HV). lra.
  - exists acc. split; [exact Hacc | lra].
Qed.

Lemma X8_energy_grows_in_order_witness :
  ∃ acc',
    accumulated_Wh (output (globals_of (run (parse_telemetry utc_runtime 0
       "PDU,2021-08-01 14:00:00.000,STATUS,1,10") after_one_hour_at_10A)))
      !! 0 = Some acc'
    ∧ (1008000 # 3600 <= acc')%Q.
Proof.
  assert (shaped after_one_hour_at_10A) as Hshaped
    by (split; vm_compute; reflexivity).
  apply (X8_energy_grows_in_order utc_runtime 0
           "PDU,2021-08-01 14:00:00.000,STATUS,1,10" after_one_hour_at_10A
           "2021-08-01 14:00:00.000" "1" "10" [] 10 1627822800
           (1008000 # 3600) eq_refl)%Q.
  - reflexivity.
  - vm_compute. split; discriminate.
  - reflexivity.
  - exact Hshaped.
  - vm_compute. reflexivity.
  - vm_compute. reflexivity.
  - vm_compute. discriminate.
  - vm_compute. discriminate.
  - vm_compute. discriminate.
Defined.

(** ** Fields of a packet *)

Lemma split_cons_inv s : ∃ f fs, split "," s = f :: fs.
Proof.
  induction s as [|c s (f & fs & IH)]; cbn [split]; [eauto|].
  destruct (Ascii.eqb c ","); [eauto|]. rewrite IH. eauto.
Qed.

Lemma split_length s : length (split "," s) = S (commas s).
Proof.
  induction s as [|c s IH]; cbn [split commas]; [reflexivity|].
  destruct (Ascii.eqb c ","); cbn [length]; [congruence|].
  destruct (split "," s); cbn [length] in *; congruence.
Qed.

Lemma split_no_comma s : no_comma s = true → split "," s = [s].
Proof.
  induction s as [|c s IH]; cbn [split no_comma]; [reflexivity|].
  destruct (Ascii.eqb c ","); cbn [negb andb]; [discriminate|].
  intros H. rewrite (IH H). reflexivity.
Qed.

Lemma split_app_comma a b :
  no_comma a = true → split "," (a +:+ "," +:+ b) = a :: split "," b.
Proof.
  change ("," +:+ b) with (String "," b).
  induction a as [|c a IH]; simpl.
  - reflexivity.
  - destruct (Ascii.eqb c ","); simpl; [discriminate|].
    intros H. rewrite (IH H). reflexivity.
Qed.

(** Every field is free of commas. *)
Lemma split_fields s : Forall (λ f, no_comma f = true) (split "," s).
Proof.
  induction s as [|c s IH]; cbn [split].
  - repeat constructor.
  - destruct (Ascii.eqb c ",") eqn:Hc; [constructor; [reflexivity|exact IH]|].
    destruct (split "," s) as [|f fs]; [repeat constructor; cbn; by rewrite Hc|].
    inversion IH; subst. constructor; [cbn; rewrite Hc; assumption|assumption].
Qed.

(** X9.  A packet with fewer than two commas, the empty text included, is
    reported as too short under its own text, and changes nothing. *)
Theorem X9_fewer_than_two_commas rt utcnow raw g :
  commas raw < 2 →
  run (parse_telemetry rt utcnow raw) g
  = Ok tt g [WARNING ("TM packet too short," +:+ raw)].
Proof.
  intros Hcommas. apply parse_telemetry_too_short. rewrite split_length. lia.
Qed.

Lemma X9_fewer_than_two_commas_witness :
  run (parse_telemetry utc_runtime 0 "") main_globals
  = Ok tt main_globals [WARNING "TM packet too short,"].
Proof.
  apply (X9_fewer_than_two_commas utc_runtime 0 "" main_globals).
  cbn. lia.
Defined.

(** ** When [parse_telemetry] raises *)

(** From well-shaped globals the [EVENT] block returns when the packet has
    a fourth field. *)
Lemma parse_EVENT_returns packet p3 t g log :
  shaped g → packet !! 3 = Some p3 →
  ∃ g', parse_EVENT packet t g log = Ok tt g' log.
Proof.
  intros [Hc Hl Ha Ho] Hp3.
  destruct (lookup_lt_is_Some_2 (last_update_time (output g)) _HEATERS_)
    as [armed Harmed]; [unfold _HEATERS_; lia|].
  destruct (lookup_lt_is_Some_2 (accumulated_Wh (output g)) _HEATERS_)
    as [acc Hacc]; [unfold _HEATERS_; lia|].
  unfold parse_EVENT. py_simpl. rewrite Hp3. py_simpl.
  destruct (p3 =? "START_FLIGHT")%string.
  { py_simpl. rewrite Hl. cbn [Nat.ltb Nat.leb _HEATERS_]. eauto. }
  destruct (p3 =? "END_FLIGHT")%string; [|py_simpl; eauto].
  py_simpl. rewrite Harmed. py_simpl.
  destruct (Qltb 0 armed); [|py_simpl; eauto].
  py_simpl. rewrite Harmed. py_simpl.
  destruct (Qltb 0 (t - armed)); py_simpl.
  - rewrite Hacc. py_simpl. rewrite Ha. cbn [Nat.ltb Nat.leb _HEATERS_].
    py_simpl. rewrite Hl. cbn [Nat.ltb Nat.leb]. eauto.
  - rewrite Hl. cbn [Nat.ltb Nat.leb _HEATERS_]. eauto.
Qed.

(** The [SRVCSET] block, from well-shaped globals, returns unless the
    service field passes [isdigit()] and makes [int()] raise. *)
Lemma parse_SRVCSET_outcome packet g log :
  shaped g →
  (∃ g' log', parse_SRVCSET packet g log = Ok tt g' log')
  ∨ (parse_SRVCSET packet g log = Exn ValueError g log
     ∧ ∃ id, packet !! 3 = Some id ∧ 5 ≤ length packet
             ∧ str_isdigit id = true ∧ str_int id = None).
Proof.
  intros [Hc Hl Ha Ho]. unfold parse_SRVCSET.
  destruct (length packet <? 5)%nat eqn:Hlen; [left; py_simpl; eauto|].
  apply Nat.ltb_ge in Hlen.
  destruct (lookup_lt_is_Some_2 packet 3) as [id Hid]; [lia|].
  destruct (lookup_lt_is_Some_2 packet 4) as [state Hstate]; [lia|].
  py_simpl. rewrite Hid. py_simpl. rewrite Hstate. py_simpl.
  destruct (str_isdigit id) eqn:Hdigit; [|left; eauto].
  destruct (str_int id) as [n|] eqn:Hint; [|right; eauto 10].
  left. py_simpl.
  destruct ((1 <=? n)%Z && (n <=? 6)%Z) eqn:Hrange; [|eauto].
  py_simpl. rewrite Ho.
  apply andb_true_iff in Hrange. destruct Hrange as [?%Z.leb_le ?%Z.leb_le].
  py_bound. eauto.
Qed.

(** The [STATUS] block on a reply for a service of the unit whose current
    converts returns, from well-shaped globals. *)
Lemma parse_STATUS_returns rt packet t g log id value (n : Z) (amps : Q) :
  shaped g → 5 ≤ length packet →
  packet !! 3 = Some id → packet !! 4 = Some value →
  str_isdigit id = true → str_int id = Some n → (1 ≤ n ≤ 6)%Z →
  float rt value = Some amps →
  ∃ g', parse_STATUS rt packet t g log = Ok tt g' log.
Proof.
  intros [Hc Hl Ha Ho] Hlen Hid Hvalue Hdigit Hint Hrange Hamps.
  pose proof (service_index_bound _ Hrange) as Hidx.
  unfold parse_STATUS.
  destruct (Nat.ltb_spec (length packet) 5) as [|_]; [lia|].
  py_simpl. rewrite Hid. py_simpl. rewrite Hvalue. py_simpl.
  rewrite Hdigit, Hint. py_simpl. rewrite (in_range_true _ Hrange).
  py_simpl. rewrite Hamps, Hc. py_bound. py_simpl.
  destruct (lookup_lt_is_Some_2 (last_update_time (output g))
              (Z.to_nat (n - 1))) as [last Hlast]; [lia|].
  destruct (lookup_lt_is_Some_2 (accumulated_Wh (output g))
              (Z.to_nat (n - 1))) as [acc Hacc]; [lia|].
  rewrite Hlast. py_simpl.
  destruct (Qltb 0 last); py_simpl.
  - rewrite Hlast. py_simpl. rewrite Hacc. py_simpl.
    rewrite list_lookup_insert_eq by lia. py_simpl.
    rewrite Ha. py_bound. py_simpl. rewrite Hl. py_bound. eauto.
  - rewrite Hl. py_bound. eauto.
Qed.

(** The [STATUS] block of a reply whose current does not convert raises
    before it writes anything. *)
Lemma parse_telemetry_STATUS_ValueError rt utcnow raw g stamp id value rest
    (n : Z) :
  split "," raw = "PDU" :: stamp :: "STATUS" :: id :: value :: rest →
  str_isdigit id = true → str_int id = Some n → (1 ≤ n ≤ 6)%Z →
  float rt value = None →
  run (parse_telemetry rt utcnow raw) g
  = Exn ValueError g (stamp_warnings rt stamp).
Proof.
  intros Hsplit Hdigit Hint Hrange Hvalue.
  rewrite (parse_telemetry_fields _ _ _ _ _ _ _ _ Hsplit).
  cbn [String.eqb Ascii.eqb Bool.eqb negb].
  unfold parse_STATUS. cbn [length Nat.ltb Nat.leb]. py_simpl.
  rewrite Hdigit, Hint. py_simpl. rewrite (in_range_true _ Hrange).
  py_simpl. rewrite Hvalue. reflexivity.
Qed.

(** A reply whose service field passes [isdigit()] and makes [int()] raise
    raises before it writes anything. *)
Lemma parse_telemetry_int_ValueError rt utcnow raw g stamp header id value rest :
  split "," raw = "PDU" :: stamp :: header :: id :: value :: rest →
  header = "SRVCSET" ∨ header = "STATUS" →
  str_isdigit id = true → str_int id = None →
  run (parse_telemetry rt utcnow raw) g
  = Exn ValueError g (stamp_warnings rt stamp).
Proof.
  intros Hsplit Hheader Hdigit Hint.
  rewrite (parse_telemetry_fields _ _ _ _ _ _ _ _ Hsplit).
  destruct Hheader as [-> | ->]; cbn [String.eqb Ascii.eqb Bool.eqb negb];
    [unfold parse_SRVCSET | unfold parse_STATUS];
    cbn [length Nat.ltb Nat.leb]; py_simpl; rewrite Hdigit, Hint; reflexivity.
Qed.

(** The ground [EVENT] line without a name raises before it writes
    anything. *)
Lemma parse_telemetry_EVENT_IndexError rt utcnow raw g source stamp :
  split "," raw = [source; stamp; "EVENT"] → source ≠ "PDU" →
  run (parse_telemetry rt utcnow raw) g
  = Exn IndexError g (stamp_warnings rt stamp).
Proof.
  intros Hsplit Hsource.
  rewrite (parse_telemetry_fields _ _ _ _ _ _ _ _ Hsplit).
  destruct (String.eqb_spec source "PDU") as [|_]; [done|]. reflexivity.
Qed.

(** How a call of [parse_telemetry] from well-shaped globals can end. *)
Lemma parse_telemetry_outcome rt utcnow raw g :
  shaped g →
  let o := run (parse_telemetry rt utcnow raw) g in
  raised o = None
  ∨ (∃ source stamp,
       o = Exn IndexError g (stamp_warnings rt stamp)
       ∧ source ≠ "PDU" ∧ split "," raw = [source; stamp; "EVENT"])
  ∨ (∃ stamp header id value rest,
       o = Exn ValueError g (stamp_warnings rt stamp)
       ∧ split "," raw = "PDU" :: stamp :: header :: id :: value :: rest
       ∧ (header = "SRVCSET" ∨ header = "STATUS")
       ∧ str_isdigit id = true ∧ str_int id = None)
  ∨ (∃ stamp id value rest n,
       o = Exn ValueError g (stamp_warnings rt stamp)
       ∧ split "," raw = "PDU" :: stamp :: "STATUS" :: id :: value :: rest
       ∧ str_isdigit id = true ∧ str_int id = Some n ∧ (1 ≤ n ≤ 6)%Z
       ∧ float rt value = None).
Proof.
  intros Hg o. subst o.
  destruct (split "," raw) as [|source [|stamp [|header rest]]] eqn:Hsplit;
    try (left; rewrite parse_telemetry_too_short by (rewrite Hsplit; cbn; lia);
         reflexivity).
  destruct (String.eqb_spec source "PDU") as [->|Hsource].
  - (* a packet of the PDU *)
    destruct (String.eqb_spec header "SRVCSET") as [->|Hsrvcset].
    { destruct (parse_SRVCSET_outcome ("PDU" :: stamp :: "SRVCSET" :: rest) g
                  (stamp_warnings rt stamp) Hg)
        as [(g' & log' & Hrun) | (Hrun & id & Hid & Hlen & Hdigit & Hint)].
      - left. rewrite (parse_telemetry_fields _ _ _ _ _ _ _ _ Hsplit).
        cbn [String.eqb Ascii.eqb Bool.eqb negb]. rewrite Hrun. reflexivity.
      - right. right. left.
        destruct rest as [|id' [|value rest]]; cbn in Hlen; try lia.
        cbn in Hid. injection Hid as ->.
        exists stamp, "SRVCSET", id, value, rest. split; [|eauto].
        rewrite (parse_telemetry_fields _ _ _ _ _ _ _ _ Hsplit).
        cbn [String.eqb Ascii.eqb Bool.eqb negb]. exact Hrun. }
    destruct (String.eqb_spec header "STATUS") as [->|Hstatus].
    2:{ left. rewrite (parse_telemetry_fields _ _ _ _ _ _ _ _ Hsplit).
        cbn [String.eqb Ascii.eqb Bool.eqb negb].
        destruct (String.eqb_spec header "SRVCSET"); [done|].
        destruct (String.eqb_spec header "STATUS"); [done|]. reflexivity. }
    destruct rest as [|id [|value rest]];
      try (left; rewrite (parse_telemetry_fields _ _ _ _ _ _ _ _ Hsplit);
           reflexivity).
    destruct (str_isdigit id) eqn:Hdigit.
    2:{ left. rewrite (parse_telemetry_fields _ _ _ _ _ _ _ _ Hsplit).
        cbn [String.eqb Ascii.eqb Bool.eqb negb]. unfold parse_STATUS.
        cbn [length Nat.ltb Nat.leb]. py_simpl. rewrite Hdigit. reflexivity. }
    destruct (str_int id) as [n|] eqn:Hint.
    2:{ right. right. left. exists stamp, "STATUS", id, value, rest.
        split; [|eauto].
        apply (parse_telemetry_int_ValueError _ _ _ _ _ _ _ _ _ Hsplit);
          auto. }
    destruct ((1 <=? n)%Z && (n <=? 6)%Z) eqn:Hrange.
    2:{ left. rewrite (parse_telemetry_fields _ _ _ _ _ _ _ _ Hsplit).
        cbn [String.eqb Ascii.eqb Bool.eqb negb]. unfold parse_STATUS.
        cbn [length Nat.ltb Nat.leb]. py_simpl. rewrite Hdigit, Hint.
        py_simpl. rewrite Hrange. reflexivity. }
    apply andb_true_iff in Hrange.
    destruct Hrange as [Hlow%Z.leb_le Hhigh%Z.leb_le].
    destruct (float rt value) as [amps|] eqn:Hvalue.
    + left. rewrite (parse_telemetry_fields _ _ _ _ _ _ _ _ Hsplit).
      cbn [String.eqb Ascii.eqb Bool.eqb negb].
      destruct (parse_STATUS_returns rt
                  ("PDU" :: stamp :: "STATUS" :: id :: value :: rest)
                  (time_of_reception rt utcnow stamp) g
                  (stamp_warnings rt stamp) id value n amps Hg)
        as (g' & ->); cbn; try done; lia.
    + right. right. right. exists stamp, id, value, rest, n.
      split; [|done].
      apply (parse_telemetry_STATUS_ValueError _ _ _ _ _ _ _ _ _
               Hsplit Hdigit Hint (conj Hlow Hhigh) Hvalue).
  - (* a line of another source *)
    destruct (String.eqb_spec header "EVENT") as [->|Hevent].
    2:{ left. rewrite (parse_telemetry_fields _ _ _ _ _ _ _ _ Hsplit).
        destruct (String.eqb_spec source "PDU"); [done|].
        destruct (String.eqb_spec header "EVENT"); [done|]. reflexivity. }
    destruct rest as [|p3 rest].
    + right. left. exists source, stamp. split; [|done].
      apply (parse_telemetry_EVENT_IndexError _ _ _ _ _ _ Hsplit Hsource).
    + left. rewrite (parse_telemetry_fields _ _ _ _ _ _ _ _ Hsplit).
      destruct (String.eqb_spec source "PDU"); [done|]. cbn [negb String.eqb Ascii.eqb Bool.eqb].
      destruct (parse_EVENT_returns (source :: stamp :: "EVENT" :: p3 :: rest)
                  p3 (time_of_reception rt utcnow stamp) g
                  (stamp_warnings rt stamp) Hg eq_refl) as (g' & ->).
      reflexivity.
Qed.

(** X10.  From well-shaped globals [parse_telemetry] raises in three cases
    only, and then it has changed nothing: [IndexError] exactly for a line
    of another source made of three fields with the header [EVENT];
    [ValueError] exactly for a [SRVCSET] or [STATUS] reply of the PDU with
    five fields or more whose service field passes [isdigit()] and makes
    [int()] raise, and for a [STATUS] reply of the PDU for a service 1..6
    whose current does not convert.  Every other packet returns. *)
Theorem X10_when_parse_telemetry_raises rt utcnow raw g :
  shaped g →
  let o := run (parse_telemetry rt utcnow raw) g in
  (raised o = Some IndexError
   ↔ ∃ source stamp, source ≠ "PDU" ∧ split "," raw = [source; stamp; "EVENT"])
  ∧ (raised o = Some ValueError
     ↔ (∃ stamp header id value rest,
          split "," raw = "PDU" :: stamp :: header :: id :: value :: rest
          ∧ (header = "SRVCSET" ∨ header = "STATUS")
          ∧ str_isdigit id = true ∧ str_int id = None)
       ∨ (∃ stamp id value rest n,
            split "," raw = "PDU" :: stamp :: "STATUS" :: id :: value :: rest
            ∧ str_isdigit id = true ∧ str_int id = Some n ∧ (1 ≤ n ≤ 6)%Z
            ∧ float rt value = None))
  ∧ raised o ≠ Some ZeroDivisionError
  ∧ (raised o ≠ None → globals_of o = g).
Proof.
  intros Hg o.
  assert (Hint : ∀ stamp header id value rest,
    split "," raw = "PDU" :: stamp :: header :: id :: value :: rest →
    header = "SRVCSET" ∨ header = "STATUS" →
    str_isdigit id = true → str_int id = None →
    raised o = Some ValueError).
  { intros stamp header id value rest Hsplit Hheader Hdigit Hnone. unfold o.
    rewrite (parse_telemetry_int_ValueError _ _ _ _ _ _ _ _ _
               Hsplit Hheader Hdigit Hnone). reflexivity. }
  assert (Hfloat : ∀ stamp id value rest n,
    split "," raw = "PDU" :: stamp :: "STATUS" :: id :: value :: rest →
    str_isdigit id = true → str_int id = Some n → (1 ≤ n ≤ 6)%Z →
    float rt value = None → raised o = Some ValueError).
  { intros stamp id value rest n Hsplit Hdigit Hsome Hrange Hvalue. unfold o.
    rewrite (parse_telemetry_STATUS_ValueError _ _ _ _ _ _ _ _ _
               Hsplit Hdigit Hsome Hrange Hvalue). reflexivity. }
  assert (Hindex : ∀ source stamp,
    source ≠ "PDU" → split "," raw = [source; stamp; "EVENT"] →
    raised o = Some IndexError).
  { intros source stamp Hsource Hsplit. unfold o.
    rewrite (parse_telemetry_EVENT_IndexError _ _ _ _ _ _ Hsplit Hsource).
    reflexivity. }
  assert (Hcases :
    (∃ source stamp, source ≠ "PDU" ∧ split "," raw = [source; stamp; "EVENT"])
    → ¬ ((∃ stamp header id value rest,
            split "," raw = "PDU" :: stamp :: header :: id :: value :: rest
            ∧ (header = "SRVCSET" ∨ header = "STATUS")
            ∧ str_isdigit id = true ∧ str_int id = None)
         ∨ (∃ stamp id value rest n,
              split "," raw = "PDU" :: stamp :: "STATUS" :: id :: value :: rest
              ∧ str_isdigit id = true ∧ str_int id = Some n ∧ (1 ≤ n ≤ 6)%Z
              ∧ float rt value = None))).
  { intros (source & stamp & Hsource & Hsplit)
      [(? & ? & ? & ? & ? & Hsplit' & _) | (? & ? & ? & ? & ? & Hsplit' & _)];
      rewrite Hsplit in Hsplit'; discriminate. }
  destruct (parse_telemetry_outcome rt utcnow raw g Hg)
    as [Hnone | [(source & stamp & Ho & Hsource & Hsplit)
                | [(stamp & header & id & value & rest & Ho & Hsplit & Hh & Hd & Hi)
                  | (stamp & id & value & rest & n & Ho & Hsplit & Hd & Hi & Hr & Hv)]]];
    fold o in Hnone || fold o in Ho.
  - split; [|split; [|split]].
    + split; [congruence|]. intros (source & stamp & Hsource & Hsplit).
      rewrite (Hindex _ _ Hsource Hsplit) in Hnone. discriminate.
    + split; [congruence|].
      intros [(? & ? & ? & ? & ? & Hsplit & Hh & Hd & Hi)
             | (? & ? & ? & ? & ? & Hsplit & Hd & Hi & Hr & Hv)].
      * rewrite (Hint _ _ _ _ _ Hsplit Hh Hd Hi) in Hnone. discriminate.
      * rewrite (Hfloat _ _ _ _ _ Hsplit Hd Hi Hr Hv) in Hnone. discriminate.
    + congruence.
    + congruence.
  - rewrite Ho. cbn. split; [|split; [|split]].
    + split; [eauto|reflexivity].
    + split; [discriminate|]. intros Hc. exfalso. apply Hcases; eauto.
    + discriminate.
    + reflexivity.
  - rewrite Ho. cbn. split; [|split; [|split]].
    + split; [discriminate|]. intros Hc. exfalso.
      apply (Hcases Hc). left. eauto 10.
    + split; [intros _; left; exists stamp, header, id, value, rest; done
             |reflexivity].
    + discriminate.
    + reflexivity.
  - rewrite Ho. cbn. split; [|split; [|split]].
    + split; [discriminate|]. intros Hc. exfalso.
      apply (Hcases Hc). right. eauto 10.
    + split; [intros _; right; exists stamp, id, value, rest, n; done
             |reflexivity].
    + discriminate.
    + reflexivity.
Qed.

Lemma X10_when_parse_telemetry_raises_witness :
  raised (run (parse_telemetry utc_runtime 0
                 "PDU,2021-08-01 12:00:00.000,STATUS,1,0.5") main_globals)
  ≠ Some ZeroDivisionError.
Proof.
  assert (Hg : shaped main_globals) by (split; reflexivity).
  destruct (X10_when_parse_telemetry_raises utc_runtime 0
              "PDU,2021-08-01 12:00:00.000,STATUS,1,0.5" main_globals Hg)
    as (_ & _ & H & _).
  exact H.
Defined.

(** ** The flight session through its events *)

(** The [START_FLIGHT] event: in flight, heater armed at the time of the
    event, nothing integrated. *)
Lemma parse_telemetry_START_FLIGHT rt utcnow raw g source stamp rest :
  split "," raw = source :: stamp :: "EVENT" :: "START_FLIGHT" :: rest →
  source ≠ "PDU" →
  shaped g →
  run (parse_telemetry rt utcnow raw) g =
    Ok tt
      (with_output
         (store_last_update_time
            (<[_HEATERS_:=time_of_reception rt utcnow stamp]>
               (last_update_time (output g))) (output g))
         (with_in_flight true g))
      (stamp_warnings rt stamp).
Proof.
  intros Hsplit Hsource [Hc Hl Ha Ho].
  rewrite (parse_telemetry_fields _ _ _ _ _ _ _ _ Hsplit).
  destruct (String.eqb_spec source "PDU") as [|_]; [done|].
  cbn [negb String.eqb Ascii.eqb Bool.eqb].
  unfold parse_EVENT. py_simpl. cbn [String.eqb Ascii.eqb Bool.eqb]. py_simpl.
  rewrite Hl. cbn [Nat.ltb Nat.leb _HEATERS_]. reflexivity.
Qed.

(** X11.  A flight told by its two events, [START_FLIGHT] at a time [t1]
    above zero and [END_FLIGHT] at [t2]: the start arms the heater at [t1]
    without integrating anything, whatever the heater's last update time
    was; the end credits the heater with exactly
    [heaters_consumption * (t2 - t1) / 3600 * nominal_voltage] when
    [t1 < t2] and with nothing otherwise, disarms it and leaves the session
    idle.  No service is touched. *)
Theorem X11_flight_by_events rt utcnow1 utcnow2 raw1 raw2 g
    source1 source2 stamp1 stamp2 rest1 rest2 (acc : Q) :
  split "," raw1 = source1 :: stamp1 :: "EVENT" :: "START_FLIGHT" :: rest1 →
  split "," raw2 = source2 :: stamp2 :: "EVENT" :: "END_FLIGHT" :: rest2 →
  source1 ≠ "PDU" → source2 ≠ "PDU" →
  shaped g →
  accumulated_Wh (output g) !! _HEATERS_ = Some acc →
  let t1 := time_of_reception rt utcnow1 stamp1 in
  let t2 := time_of_reception rt utcnow2 stamp2 in
  (0 < t1)%Q →
  ∃ g1 g2 acc2,
    run (parse_telemetry rt utcnow1 raw1) g = Ok tt g1 (stamp_warnings rt stamp1)
    ∧ in_flight g1 = true
    ∧ last_update_time (output g1) !! _HEATERS_ = Some t1
    ∧ accumulated_Wh (output g1) = accumulated_Wh (output g)
    ∧ run (parse_telemetry rt utcnow2 raw2) g1
      = Ok tt g2 (stamp_warnings rt stamp2)
    ∧ in_flight g2 = false
    ∧ last_update_time (output g2) !! _HEATERS_ = Some 0%Q
    ∧ accumulated_Wh (output g2) !! _HEATERS_ = Some acc2
    ∧ ((t1 < t2)%Q →
       (acc2 == acc + heaters_consumption (battery g) * (t2 - t1) / 3600
                      * nominal_voltage (battery g))%Q)
    ∧ ((t2 <= t1)%Q → acc2 = acc)
    ∧ current (output g2) = current (output g)
    ∧ is_on (output g2) = is_on (output g)
    ∧ (∀ j, j ≠ _HEATERS_ →
         last_update_time (output g2) !! j = last_update_time (output g) !! j
         ∧ accumulated_Wh (output g2) !! j = accumulated_Wh (output g) !! j).
Proof.
  intros Hs1 Hs2 Hsrc1 Hsrc2 Hg Hacc t1 t2 Ht1.
  pose proof Hg as [Hc Hl Ha Ho].
  pose proof (parse_telemetry_START_FLIGHT rt utcnow1 raw1 g _ _ _
                Hs1 Hsrc1 Hg) as Hrun1.
  fold t1 in Hrun1. set (g1 := with_output _ _) in Hrun1.
  assert (shaped g1) as Hg1.
  { split; cbn; rewrite ?length_insert; assumption. }
  assert (last_update_time (output g1) !! _HEATERS_ = Some t1) as Hlast1.
  { cbn. apply list_lookup_insert_eq. unfold _HEATERS_. lia. }
  pose proof (parse_telemetry_END_FLIGHT rt utcnow2 raw2 g1 _ _ _ t1 acc
                Hs2 Hsrc2 Hg1 Hlast1 Hacc Ht1) as Hrun2.
  cbv zeta in Hrun2. fold t2 in Hrun2.
  destruct (Qltb 0 (t2 - t1)) eqn:Hdelta;
    [apply Qltb_true in Hdelta | apply Qltb_false in Hdelta];
    (eexists g1, _, _; split; [exact Hrun1|]; split; [reflexivity|];
     split; [exact Hlast1|]; split; [reflexivity|]; split; [exact Hrun2|];
     split; [reflexivity|];
     split; [cbn; rewrite list_insert_insert_eq; apply list_lookup_insert_eq;
             unfold _HEATERS_; lia|]);
    cbn -[_HEATERS_].
  - split; [apply list_lookup_insert_eq; unfold _HEATERS_; lia|].
    split; [intros _; unfold heaters_Wh; cbn; field|].
    split; [intros; lra|]. split; [reflexivity|]. split; [reflexivity|].
    intros j Hj. rewrite list_insert_insert_eq.
    rewrite !list_lookup_insert_ne by congruence. done.
  - split; [exact Hacc|]. split; [intros; lra|]. split; [reflexivity|].
    split; [reflexivity|]. split; [reflexivity|].
    intros j Hj. rewrite list_insert_insert_eq.
    rewrite !list_lookup_insert_ne by congruence. done.
Qed.

Lemma X11_flight_by_events_witness :
  ∃ g1 g2 acc2,
    run (parse_telemetry utc_runtime 0
           "GND,2021-08-01 12:00:00.000,EVENT,START_FLIGHT") main_globals
    = Ok tt g1 []
    ∧ run (parse_telemetry utc_runtime 0
             "GND,2021-08-01 13:00:00.000,EVENT,END_FLIGHT") g1
      = Ok tt g2 []
    ∧ in_flight g2 = false
    ∧ accumulated_Wh (output g2) !! _HEATERS_ = Some acc2
    ∧ (acc2 == 126 # 5)%Q.
Proof.
  destruct (X11_flight_by_events utc_runtime 0 0
              "GND,2021-08-01 12:00:00.000,EVENT,START_FLIGHT"
              "GND,2021-08-01 13:00:00.000,EVENT,END_FLIGHT" main_globals
              "GND" "GND" "2021-08-01 12:00:00.000" "2021-08-01 13:00:00.000"
              [] [] 0%Q)
    as (g1 & g2 & acc2 & Hrun1 & _ & _ & _ & Hrun2 & Hidle & _ & Hacc2
        & Hcredit & _).
  - reflexivity.
  - reflexivity.
  - discriminate.
  - discriminate.
  - split; reflexivity.
  - reflexivity.
  - reflexivity.
  - exists g1, g2, acc2. split; [exact Hrun1|]. split; [exact Hrun2|].
    split; [exact Hidle|]. split; [exact Hacc2|].
    rewrite Hcredit by reflexivity. reflexivity.
Defined.

(** ** The auto-refresh block and the flight toggle *)

Lemma int_digits_nonneg s acc :
  (0 ≤ acc)%Z → all_digits s = true → (0 ≤ int_digits acc s)%Z.
Proof.
  revert acc. induction s as [|c s IH]; intros acc Hacc Hs; cbn in *; [done|].
  apply andb_true_iff in Hs. destruct Hs as [Hc Hs].
  unfold is_digit_char in Hc. apply andb_true_iff in Hc.
  destruct Hc as [Hlow%Nat.leb_le _]. apply IH; [lia|exact Hs].
Qed.

Lemma int_nonneg s : isdigit s = true → (0 ≤ int s)%Z.
Proof.
  destruct s as [|c s]; [discriminate|]. intros Hs.
  apply int_digits_nonneg; [done|exact Hs].
Qed.


Lemma int_of_float_reached (x : Q) (n : Z) :
  (0 ≤ n)%Z → (inject_Z n <= x)%Q → (n ≤ int_of_float x)%Z.
Proof.
  intros Hn Hx. destruct (int_of_float_truncates x) as [Hpos _].
  assert (0 <= inject_Z n)%Q as Hn' by (rewrite <- (Zle_Qle 0); exact Hn).
  destruct Hpos as [Hlow Hhigh]; [lra|].
  assert (inject_Z n < inject_Z (int_of_float x + 1))%Q as Hlt.
  { rewrite inject_Z_plus. change (inject_Z 1) with 1%Q. lra. }
  rewrite <- Zlt_Qlt in Hlt. lia.
Qed.



(** The auto-refresh block when its interval has elapsed. *)
Lemma auto_refresh_fires clock text start g (armed acc : Q) :
  isdigit text = true →
  (inject_Z (int text) <= at_delay clock - start)%Q →
  shaped g →
  last_update_time (output g) !! _HEATERS_ = Some armed →
  accumulated_Wh (output g) !! _HEATERS_ = Some acc →
  let delta := (at_delta clock - armed)%Q in
  run (auto_refresh clock text start) g =
    Ok (at_restart clock, send_refresh_all)
      (if in_flight g then
         with_output
           {| current := current (output g);
              last_update_time :=
                <[_HEATERS_:=at_update clock]> (last_update_time (output g));
              accumulated_Wh :=
                if Qltb 0 armed && Qltb 0 delta
                then <[_HEATERS_:=(acc + heaters_Wh (battery g) delta)%Q]>
                       (accumulated_Wh (output g))
                else accumulated_Wh (output g);
              is_on := is_on (output g) |} g
       else g) [].
Proof.
  intros Hdigit Helapsed [Hc Hl Ha Ho] Harmed Hacc delta.
  unfold run, auto_refresh. cbv zeta.
  rewrite (isdigit_str_isdigit _ Hdigit). unfold mbind at 1, Py_bind at 1.
  rewrite (int_of_isdigit _ _ _ Hdigit).
  destruct (Z.leb_spec (int text) (int_of_float (at_delay clock - start)))
    as [_|Hlt].
  2:{ pose proof (int_of_float_reached _ _ (int_nonneg _ Hdigit) Helapsed). lia. }
  py_simpl. destruct (in_flight g) eqn:Hflying; py_simpl.
  - rewrite Harmed. py_simpl. destruct (Qltb 0 armed); py_simpl.
    + rewrite Harmed. py_simpl. fold delta.
      destruct (Qltb 0 delta); py_simpl.
      * rewrite Hacc. py_simpl. rewrite Ha.
        cbn [Nat.ltb Nat.leb _HEATERS_ andb]. py_simpl.
        rewrite Hl. cbn [Nat.ltb Nat.leb]. py_simpl.
        rewrite list_lookup_insert_eq by (rewrite Ha; unfold _HEATERS_; lia).
        reflexivity.
      * rewrite Hl. cbn [Nat.ltb Nat.leb _HEATERS_ andb]. py_simpl.
        rewrite Hacc. reflexivity.
    + rewrite Hl. cbn [Nat.ltb Nat.leb _HEATERS_ andb]. py_simpl.
      rewrite Hacc. reflexivity.
  - rewrite Hacc. reflexivity.
Qed.

(** X13.  When the interval has elapsed (at once for an interval of 0) the
    auto-refresh block asks the six services for their status, in order,
    and restarts its timer.  Out of flight it changes no global.  In flight
    it moves the heater's last update time to the clock reading and, when
    the heater was armed at a time [armed] above zero and before the clock
    reading, credits the heater with
    [heaters_consumption * (now - armed) / 3600 * nominal_voltage];
    otherwise it credits nothing.  The services are not touched. *)
Theorem X13_auto_refresh_fires clock text start g (armed acc : Q) :
  isdigit text = true →
  (inject_Z (int text) <= at_delay clock - start)%Q →
  shaped g →
  last_update_time (output g) !! _HEATERS_ = Some armed →
  accumulated_Wh (output g) !! _HEATERS_ = Some acc →
  ∃ g',
    run (auto_refresh clock text start) g
    = Ok (at_restart clock, send_refresh_all) g' []
    ∧ send_refresh_all = map (λ i, "STATUS," +:+ service_number i) (seq 0 6)
    ∧ (in_flight g = false → g' = g)
    ∧ (in_flight g = true →
       in_flight g' = true
       ∧ last_update_time (output g')
         = <[_HEATERS_:=at_update clock]> (last_update_time (output g))
       ∧ current (output g') = current (output g)
       ∧ is_on (output g') = is_on (output g)
       ∧ battery g' = battery g
       ∧ ((0 < armed)%Q → (armed < at_delta clock)%Q →
          ∃ acc',
            accumulated_Wh (output g')
            = <[_HEATERS_:=acc']> (accumulated_Wh (output g))
            ∧ (acc' == acc + heaters_consumption (battery g)
                             * (at_delta clock - armed) / 3600
                             * nominal_voltage (battery g))%Q)
       ∧ ((armed <= 0)%Q ∨ (at_delta clock <= armed)%Q →
          accumulated_Wh (output g') = accumulated_Wh (output g))).
Proof.
  intros Hdigit Helapsed Hg Harmed Hacc.
  rewrite (auto_refresh_fires clock text start g armed acc
             Hdigit Helapsed Hg Harmed Hacc).
  eexists. split; [reflexivity|]. split; [reflexivity|].
  split; [intros ->; reflexivity|]. intros Hflying. rewrite Hflying.
  cbn -[_HEATERS_]. do 5 (split; [done|]).
  destruct (Qltb 0 armed) eqn:H1; destruct (Qltb 0 (at_delta clock - armed)) eqn:H2;
    cbn [andb];
    repeat match goal with
      | H : Qltb _ _ = true |- _ => apply Qltb_true in H
      | H : Qltb _ _ = false |- _ => apply Qltb_false in H
      end;
    (split; [intros; try lra | intros [|]; try lra; try reflexivity]).
  eexists. split; [reflexivity|]. unfold heaters_Wh. field.
Qed.

Lemma X13_auto_refresh_fires_witness :
  ∃ g',
    run (auto_refresh (mkReadings 1627819210 1627819210 1627819210 1627819210)
           "10" 1627819200%Q) main_globals
    = Ok (1627819210%Q, send_refresh_all) g' []
    ∧ g' = main_globals.
Proof.
  destruct (X13_auto_refresh_fires
              (mkReadings 1627819210 1627819210 1627819210 1627819210) "10"
              1627819200%Q main_globals 0%Q 0%Q)
    as (g' & Hrun & _ & Hidle & _).
  - reflexivity.
  - vm_compute. discriminate.
  - split; reflexivity.
  - reflexivity.
  - reflexivity.
  - exists g'. split; [exact Hrun | apply Hidle; reflexivity].
Defined.

(** ** Commands, the simulator and the replies *)

Lemma split_Logger_rx stamp msg :
  no_comma stamp = true →
  split "," (Logger_rx stamp msg) = "PDU" :: stamp :: split "," msg.
Proof.
  intros Hstamp. unfold Logger_rx.
  change ("PDU," +:+ stamp +:+ "," +:+ msg)
    with ("PDU" +:+ "," +:+ stamp +:+ "," +:+ msg).
  rewrite split_app_comma by reflexivity.
  rewrite split_app_comma by assumption. reflexivity.
Qed.

(** X14. Pressing the toggle of service [i+1] and letting the simulated PDU
    answer flips the known state of that service and nothing else: the
    branch sends one [SETSRVC] command for the opposite of the known state
    and changes no global; the simulator answers it; and the answer, logged
    as received and parsed, stores the opposite state for that service only. *)
Theorem X14_toggle_round_trip rt utcnow value_text stamp i g (on : bool) :
  shaped g → i < 6 → no_comma stamp = true →
  is_on (output g) !! i = Some on →
  ∃ cmd reply,
    run (SxTOGGLE i) g = Ok [cmd] g []
    ∧ simPDU_reply value_text cmd = Some reply
    ∧ run (parse_telemetry rt utcnow (Logger_rx stamp reply)) g
      = Ok tt
          (with_output
             (store_is_on (<[i:=negb on]> (is_on (output g))) (output g)) g)
          (stamp_warnings rt stamp).
Proof.
  intros Hshaped Hi Hstamp Hon.
  assert (Hcases : i = 0 ∨ i = 1 ∨ i = 2 ∨ i = 3 ∨ i = 4 ∨ i = 5) by lia.
  assert (Hrun : run (SxTOGGLE i) g
                 = Ok [if on then "SETSRVC," +:+ service_number i +:+ ",0"
                       else "SETSRVC," +:+ service_number i +:+ ",1"] g []).
  { unfold run, SxTOGGLE, gets, getitem, mbind, Py_bind.
    rewrite Hon. reflexivity. }
  destruct on;
    destruct Hcases as [->|[->|[->|[->|[->| ->]]]]];
    (eexists _, _; split; [exact Hrun|]);
    (split; [reflexivity|]);
    (etrans;
       [eapply parse_telemetry_SRVCSET;
          [rewrite split_Logger_rx by assumption; reflexivity
          |reflexivity|vm_compute; split; discriminate|assumption]
       |reflexivity]).
Qed.

Lemma X14_toggle_round_trip_witness :
  ∃ cmd reply,
    run (SxTOGGLE 2) main_globals = Ok [cmd] main_globals []
    ∧ simPDU_reply "0.750" cmd = Some reply
    ∧ run (parse_telemetry utc_runtime 0
             (Logger_rx "2021-08-01 12:00:00.000" reply)) main_globals
      = Ok tt
          (with_output
             (store_is_on (<[2:=negb false]> (is_on (output main_globals)))
                (output main_globals)) main_globals)
          (stamp_warnings utc_runtime "2021-08-01 12:00:00.000").
Proof.
  assert (Hshaped : shaped main_globals) by (split; reflexivity).
  assert (Hstamp : no_comma "2021-08-01 12:00:00.000" = true) by reflexivity.
  assert (Hon : is_on (output main_globals) !! 2 = Some false) by reflexivity.
  assert (Hi : 2 < 6) by lia.
  exact (X14_toggle_round_trip utc_runtime 0%Q "0.750" "2021-08-01 12:00:00.000"
           2 main_globals false Hshaped Hi Hstamp Hon).
Defined.

Lemma split_three a b c :
  no_comma a = true → no_comma b = true → no_comma c = true →
  split "," (a +:+ "," +:+ b +:+ "," +:+ c) = [a; b; c].
Proof.
  intros Ha Hb Hc.
  rewrite !split_app_comma, split_no_comma by assumption. reflexivity.
Qed.

(** X15. Asking for the status of service [i+1], with its own button or
    as the [i]-th command of a refresh of all services, and letting the
    simulated PDU answer with a current whose text converts to [amps]:
    the answer, logged as received and parsed, stores [amps] as the current
    of that service, moves its last update time to the time of reception
    and, when the service had been updated before, adds the energy of the
    interval at [amps]. *)
Theorem X15_status_round_trip rt utcnow value_text stamp i g
    (amps last acc : Q) :
  shaped g → i < 6 →
  no_comma stamp = true → no_comma value_text = true →
  float rt value_text = Some amps →
  last_update_time (output g) !! i = Some last →
  accumulated_Wh (output g) !! i = Some acc →
  ∃ cmd reply,
    SxREFRESH i = [cmd] ∧ send_refresh_all !! i = Some cmd
    ∧ simPDU_reply value_text cmd = Some reply
    ∧ let t := time_of_reception rt utcnow stamp in
      run (parse_telemetry rt utcnow (Logger_rx stamp reply)) g
      = Ok tt
          (with_output
             {| current := <[i:=amps]> (current (output g));
                last_update_time := <[i:=t]> (last_update_time (output g));
                accumulated_Wh :=
                  if Qltb 0 last
                  then <[i:=(acc + amps * ((t - last) / 3600)
                                   * nominal_voltage (battery g))%Q]>
                         (accumulated_Wh (output g))
                  else accumulated_Wh (output g);
                is_on := is_on (output g) |} g)
          (stamp_warnings rt stamp).
Proof.
  intros Hshaped Hi Hstamp Hvalue Hamps Hlast Hacc.
  assert (Hcases : i = 0 ∨ i = 1 ∨ i = 2 ∨ i = 3 ∨ i = 4 ∨ i = 5) by lia.
  destruct Hcases as [->|[->|[->|[->|[->| ->]]]]];
    (eexists _, _; split; [reflexivity|]; split; [reflexivity|];
     split; [reflexivity|]);
    (etrans;
       [eapply parse_telemetry_STATUS;
          [rewrite split_Logger_rx by assumption;
           do 2 f_equal;
           match goal with
           | |- split _ (_ +:+ ?n +:+ _ +:+ _) = _ =>
               exact (split_three "STATUS" n value_text eq_refl eq_refl Hvalue)
           end
          |reflexivity|vm_compute; split; discriminate
          |exact Hamps|assumption|exact Hlast|exact Hacc]
       |reflexivity]).
Qed.

Lemma X15_status_round_trip_witness :
  ∃ cmd reply,
    SxREFRESH 0 = [cmd] ∧ send_refresh_all !! 0 = Some cmd
    ∧ simPDU_reply "0.750" cmd = Some reply
    ∧ let t := time_of_reception utc_runtime 0 "2021-08-01 14:00:00.000" in
      run (parse_telemetry utc_runtime 0
             (Logger_rx "2021-08-01 14:00:00.000" reply)) after_one_hour_at_10A
      = Ok tt
          (with_output
             {| current :=
                  <[0:=(3 # 4)%Q]> (current (output after_one_hour_at_10A));
                last_update_time :=
                  <[0:=t]> (last_update_time (output after_one_hour_at_10A));
                accumulated_Wh :=
                  if Qltb 0 1627822800
                  then <[0:=((1008000 # 3600) + (3 # 4) * ((t - 1627822800) / 3600)
                             * nominal_voltage (battery after_one_hour_at_10A))%Q]>
                         (accumulated_Wh (output after_one_hour_at_10A))
                  else accumulated_Wh (output after_one_hour_at_10A);
                is_on := is_on (output after_one_hour_at_10A) |}
             after_one_hour_at_10A)
          (stamp_warnings utc_runtime "2021-08-01 14:00:00.000").
Proof.
  assert (Hshaped : shaped after_one_hour_at_10A) by (split; reflexivity).
  assert (Hi : 0 < 6) by lia.
  assert (Hstamp : no_comma "2021-08-01 14:00:00.000" = true) by reflexivity.
  assert (Hvalue : no_comma "0.750" = true) by reflexivity.
  assert (Hamps : float utc_runtime "0.750" = Some (3 # 4)%Q)
    by (vm_compute; reflexivity).
  assert (Hlast : last_update_time (output after_one_hour_at_10A) !! 0
                  = Some 1627822800%Q) by (vm_compute; reflexivity).
  assert (Hacc : accumulated_Wh (output after_one_hour_at_10A) !! 0
                 = Some (1008000 # 3600)%Q) by (vm_compute; reflexivity).
  exact (X15_status_round_trip utc_runtime 0%Q "0.750"
           "2021-08-01 14:00:00.000" 0 after_one_hour_at_10A (3 # 4)%Q
           1627822800%Q (1008000 # 3600)%Q
           Hshaped Hi Hstamp Hvalue Hamps Hlast Hacc).
Defined.

(** When the simulator, having decoded a datagram, sends nothing. *)
Lemma simPDU_reply_None value_text raw :
  let command := default "" (head (split "," raw)) in
  simPDU_reply value_text raw = None ↔
    (command = "SETSRVC" ∧ commas raw < 2)
    ∨ (command = "STATUS" ∧ commas raw < 1)
    ∨ (command = "SETIP" ∧ commas raw < 4)
    ∨ (command = "SETPORT" ∧ commas raw < 1).
Proof.
  pose proof (split_length raw) as Hlen. unfold simPDU_reply.
  destruct (split "," raw) as [|e0 fields]; [discriminate|].
  cbn [head default Datatypes.id] in *. cbn [lookup list_lookup mbind option_bind].
  injection Hlen as Hlen. rewrite <- Hlen. clear Hlen.
  destruct (String.eqb_spec e0 "SETSRVC") as [->|H1].
  { destruct fields as [|e1 [|e2 fields]]; cbn; split;
      try discriminate; try (intros; left; split; [reflexivity|lia]).
    all: intros [[_ ?]|[[? _]|[[? _]|[? _]]]]; first [reflexivity | lia | congruence]. }
  destruct (String.eqb_spec e0 "STATUS") as [->|H2].
  { destruct fields as [|e1 fields]; cbn; split;
      try discriminate; try (intros; right; left; split; [reflexivity|lia]).
    all: intros [[? _]|[[_ ?]|[[? _]|[? _]]]]; first [reflexivity | lia | congruence]. }
  destruct (String.eqb_spec e0 "SETIP") as [->|H3].
  { destruct fields as [|e1 [|e2 [|e3 [|e4 fields]]]]; cbn; split;
      try discriminate;
      try (intros; right; right; left; split; [reflexivity|lia]).
    all: intros [[? _]|[[? _]|[[_ ?]|[? _]]]]; first [reflexivity | lia | congruence]. }
  destruct (String.eqb_spec e0 "SETPORT") as [->|H4].
  { destruct fields as [|e1 fields]; cbn; split;
      try discriminate;
      try (intros; right; right; right; split; [reflexivity|lia]).
    all: intros [[? _]|[[? _]|[[? _]|[_ ?]]]]; first [reflexivity | lia | congruence]. }
  split.
  - destruct (e0 =? "RESET")%string; discriminate.
  - intros [[? _]|[[? _]|[[? _]|[? _]]]]; contradiction.
Qed.

(** X16.  The simulated PDU answers every datagram except five kinds, on
    which an exception is swallowed by its bare [except] and nothing is
    sent: a datagram whose bytes do not decode, [SETSRVC] with fewer than
    two commas, [STATUS] or [SETPORT] with none, and [SETIP] with fewer
    than four. *)
Theorem X16_when_simPDU_is_silent value_text datagram :
  simPDU_pass value_text datagram = None ↔
    datagram = None
    ∨ ∃ raw,
        datagram = Some raw
        ∧ let command := default "" (head (split "," raw)) in
          (command = "SETSRVC" ∧ commas raw < 2)
          ∨ (command = "STATUS" ∧ commas raw < 1)
          ∨ (command = "SETIP" ∧ commas raw < 4)
          ∨ (command = "SETPORT" ∧ commas raw < 1).
Proof.
  destruct datagram as [raw|]; cbn [simPDU_pass mbind option_bind].
  - rewrite simPDU_reply_None. cbv zeta. split.
    + intros H. right. exists raw. split; [reflexivity|exact H].
    + intros [H | (raw' & Hraw & H)]; [discriminate|].
      injection Hraw as <-. exact H.
  - split; [left; reflexivity|reflexivity].
Qed.

(** X17. Through the simulated PDU only [SETSRVC] and [STATUS] can change
    what the controller knows: the answer to a datagram with any other
    first field ([IPSET], [PORTSET], [Resetting] or [CMDERROR]), logged as
    received and parsed, changes no global and raises nothing. *)
Theorem X17_other_replies_inert rt utcnow value_text stamp raw reply g :
  no_comma stamp = true →
  simPDU_reply value_text raw = Some reply →
  head (split "," raw) ≠ Some "SETSRVC" →
  head (split "," raw) ≠ Some "STATUS" →
  run (parse_telemetry rt utcnow (Logger_rx stamp reply)) g
  = Ok tt g (stamp_warnings rt stamp).
Proof.
  intros Hstamp Hreply Hset Hstatus.
  assert (Hheader : ∃ header rest,
    split "," reply = header :: rest
    ∧ (header =? "SRVCSET")%string = false
    ∧ (header =? "STATUS")%string = false).
  { unfold simPDU_reply in Hreply.
    destruct (split "," raw) as [|e0 fields]; [discriminate|].
    cbn [head] in *. cbn [lookup list_lookup mbind option_bind] in Hreply.
    destruct (String.eqb_spec e0 "SETSRVC") as [->|_]; [congruence|].
    destruct (String.eqb_spec e0 "STATUS") as [->|_]; [congruence|].
    destruct (e0 =? "SETIP")%string.
    { destruct fields as [|e1 [|e2 [|e3 [|e4 fields]]]]; try discriminate.
      cbn in Hreply. injection Hreply as <-.
      destruct (split_cons_inv (e1 +:+ "," +:+ e2 +:+ "," +:+ e3 +:+ "," +:+ e4))
        as (f & fs & Hsplit).
      exists "IPSET", (f :: fs). split; [|split; reflexivity].
      change ("IPSET," +:+ e1 +:+ "," +:+ e2 +:+ "," +:+ e3 +:+ "," +:+ e4)
        with ("IPSET" +:+ "," +:+ e1 +:+ "," +:+ e2 +:+ "," +:+ e3 +:+ "," +:+ e4).
      rewrite split_app_comma by reflexivity. congruence. }
    destruct (e0 =? "SETPORT")%string.
    { destruct fields as [|e1 fields]; try discriminate.
      cbn in Hreply. injection Hreply as <-.
      destruct (split_cons_inv e1) as (f & fs & Hsplit).
      exists "PORTSET", (f :: fs). split; [|split; reflexivity].
      change ("PORTSET," +:+ e1) with ("PORTSET" +:+ "," +:+ e1).
      rewrite split_app_comma by reflexivity. congruence. }
    destruct (e0 =? "RESET")%string; injection Hreply as <-.
    - exists "Resetting", []. repeat split.
    - exists "CMDERROR", []. repeat split. }
  destruct Hheader as (header & rest & Hsplit & Hsrvcset & Hstat).
  erewrite parse_telemetry_fields
    by (rewrite split_Logger_rx, Hsplit by assumption; reflexivity).
  cbn [negb String.eqb Ascii.eqb Bool.eqb]. rewrite Hsrvcset, Hstat. reflexivity.
Qed.

Lemma X17_other_replies_inert_witness :
  run (parse_telemetry utc_runtime 0
         (Logger_rx "2021-08-01 12:00:00.000" "PORTSET,10001")) main_globals
  = Ok tt main_globals (stamp_warnings utc_runtime "2021-08-01 12:00:00.000").
Proof.
  assert (Hstamp : no_comma "2021-08-01 12:00:00.000" = true) by reflexivity.
  assert (Hreply : simPDU_reply "0.750" "SETPORT,10001" = Some "PORTSET,10001")
    by reflexivity.
  assert (Hset : head (split "," "SETPORT,10001") ≠ Some "SETSRVC")
    by discriminate.
  assert (Hstatus : head (split "," "SETPORT,10001") ≠ Some "STATUS")
    by discriminate.
  exact (X17_other_replies_inert utc_runtime 0%Q "0.750"
           "2021-08-01 12:00:00.000" "SETPORT,10001" "PORTSET,10001"
           main_globals Hstamp Hreply Hset Hstatus).
Defined.

(** ** The sums of the groups *)

Lemma refresh_member_sums values k i g a w l log (cur acc : Q) :
  current (output g) !! i = Some cur →
  accumulated_Wh (output g) !! i = Some acc →
  refresh_member values k i (with_group k (mkGroup a w l) g) log
  = Ok tt
      (with_group k
         (mkGroup (if SxGRy values k i then a + cur else a)%Q
                  (if SxGRy values k i then w + acc else w)%Q l) g) log.
Proof.
  intros Hcur Hacc. unfold refresh_member.
  destruct (SxGRy values k i); [|reflexivity].
  py_simpl. rewrite !output_with_group, Hcur. py_simpl.
  rewrite !output_with_group, Hacc. py_simpl.
  rewrite !group_with_group, !with_group_twice. reflexivity.
Qed.

(** The six member blocks of a group, started from sums of zero, leave the
    totals of the ticked services to what follows them. *)
Lemma refresh_members_sums {T} values k g l log (rest : Py T) :
  shaped g →
  (refresh_member values k 0;; refresh_member values k 1;;
   refresh_member values k 2;; refresh_member values k 3;;
   refresh_member values k 4;; refresh_member values k 5;; rest)
    (with_group k (mkGroup 0 0 l) g) log
  = rest
      (with_group k
         (mkGroup (ticked_total (SxGRy values k) (current (output g)))
            (ticked_total (SxGRy values k) (accumulated_Wh (output g))) l) g)
      log.
Proof.
  intros [Hc Hl Ha Ho]. unfold ticked_total.
  destruct (current (output g))
    as [|c0 [|c1 [|c2 [|c3 [|c4 [|c5 [|]]]]]]] eqn:Hcur; try discriminate.
  destruct (accumulated_Wh (output g))
    as [|a0 [|a1 [|a2 [|a3 [|a4 [|a5 [|a6 [|]]]]]]]] eqn:Hacc;
    try discriminate.
  cbn [seq foldl lookup list_lookup default Datatypes.id].
  do 6 (unfold mbind at 1, Py_bind at 1;
        erewrite refresh_member_sums
          by (rewrite ?Hcur, ?Hacc; reflexivity)).
  reflexivity.
Qed.

(** The block of one group computes the sums afresh from the ticks and
    the lists of [output], before it converts the limit. *)
Lemma refresh_group_sums rt values k g log :
  shaped g →
  let sums :=
    mkGroup (ticked_total (SxGRy values k) (current (output g)))
      (ticked_total (SxGRy values k) (accumulated_Wh (output g)))
      (limit_Wh (group k g)) in
  refresh_group rt values k g log
  = match float rt (GRx_LIMIT_WH values k) with
    | Some limit =>
        Ok tt
          (if Qltb 0 limit
           then with_window
                  (set_limit_colour k
                     (if Qle_bool (limit - Wh sums) (limit * (1 # 10))
                      then Red else White) (window g))
                  (with_group k sums g)
           else with_group k sums g) log
    | None => Exn ValueError (with_group k sums g) log
    end.
Proof.
  intros Hg sums. unfold refresh_group.
  unfold mbind at 1 2, Py_bind at 1 2, modify at 1 2.
  rewrite !group_with_group, !with_group_twice. cbn [A Wh limit_Wh].
  rewrite refresh_members_sums by exact Hg. fold sums. clearbody sums.
  unfold mbind at 1, Py_bind at 1, float_of.
  destruct (float rt (GRx_LIMIT_WH values k)) as [limit|]; [|reflexivity].
  unfold mret at 1, Py_ret at 1.
  destruct (Qltb 0 limit); [|reflexivity].
  py_simpl. rewrite !group_with_group.
  destruct (Qle_bool (limit - Wh sums) (limit * (1 # 10)));
    py_simpl; rewrite !window_with_group; reflexivity.
Qed.

(** X18. A refresh computes the sums of a group afresh: the current and
    the energy of group 1 are, after it, the totals of the currents and of
    the accumulated energies of the services ticked for the group, whatever
    the sums were before and whether the refresh returns or raises.  The
    same holds for group 2 when the limit of group 1 converts; when it does
    not, the refresh raises [ValueError] and leaves group 2 and the battery
    as they were, and with them the colours of the limits and of the sums
    of both groups, the two battery texts and the progress bar.  (By then
    the buttons and the currents of the services and the two sums of
    group 1 have been written to the window.) *)
Theorem X18_group_sums rt values g :
  shaped g →
  let o := run (refresh_telemetry_stats_on_gui rt values) g in
  let summed k :=
    A (group k (globals_of o))
      = ticked_total (SxGRy values k) (current (output g))
    ∧ Wh (group k (globals_of o))
      = ticked_total (SxGRy values k) (accumulated_Wh (output g)) in
  summed GR1
  ∧ (float rt (GRx_LIMIT_WH values GR1) ≠ None → summed GR2)
  ∧ (float rt (GRx_LIMIT_WH values GR1) = None →
       raised o = Some ValueError
       ∧ group2 (globals_of o) = group2 g
       ∧ battery (globals_of o) = battery g
       ∧ (∀ k, limit_colour k (window (globals_of o))
               = limit_colour k (window g)
               ∧ sum_colour k (window (globals_of o))
                 = sum_colour k (window g))
       ∧ BATTERY_WH (window (globals_of o)) = BATTERY_WH (window g)
       ∧ BATTERY_PERCENT (window (globals_of o)) = BATTERY_PERCENT (window g)
       ∧ BATTERY_PROGRESS (window (globals_of o))
         = BATTERY_PROGRESS (window g)).
Proof.
  intros Hg o summed.
  assert (Ho : o = run (refresh_telemetry_stats_on_gui rt values) g)
    by reflexivity.
  clearbody o. unfold run, refresh_telemetry_stats_on_gui in Ho.
  unfold mbind at 1, Py_bind at 1 in Ho.
  rewrite refresh_group_sums in Ho by exact Hg.
  destruct (float rt (GRx_LIMIT_WH values GR1)) as [limit1|].
  2:{ subst o summed.
      cbn [globals_of raised group with_group group1 group2 battery window A Wh].
      repeat split; first [reflexivity | congruence]. }
  set (sums1 := mkGroup _ _ _) in Ho.
  match type of Ho with
  | _ = (_ ≫= _) ?x [] => set (g1 := x) in Ho
  end.
  assert (Hg1 : output g1 = output g ∧ group1 g1 = sums1)
    by (subst g1; destruct (Qltb 0 limit1); split; reflexivity).
  destruct Hg1 as [Hout1 Hsums1].
  assert (Hshaped1 : shaped g1) by (eapply shaped_same_output; eassumption).
  clearbody g1.
  unfold mbind at 1, Py_bind at 1 in Ho.
  rewrite refresh_group_sums in Ho by exact Hshaped1. rewrite Hout1 in Ho.
  set (sums2 := mkGroup _ _ _) in Ho.
  destruct (float rt (GRx_LIMIT_WH values GR2)) as [limit2|].
  2:{ subst o summed.
      cbn [globals_of raised group with_group group1 group2 battery window].
      rewrite Hsums1.
      repeat split; first [reflexivity | congruence]. }
  match type of Ho with
  | _ = refresh_battery _ _ ?x [] => set (g2 := x) in Ho
  end.
  assert (Hg2 : group1 g2 = sums1 ∧ group2 g2 = sums2)
    by (subst g2; destruct (Qltb 0 limit2); split; cbn; assumption || reflexivity).
  destruct Hg2 as [Hg21 Hg22]. clearbody g2.
  destruct (refresh_battery_frame rt values g2 []) as (_ & H1 & H2 & _).
  subst o summed. cbn [group]. rewrite H1, H2, Hg21, Hg22.
  repeat split; first [reflexivity | congruence].
Qed.

Lemma X18_group_sums_witness :
  let o := run (refresh_telemetry_stats_on_gui utc_runtime
                  (values_of_window "1000" "0")) after_one_hour_at_10A in
  A (group GR1 (globals_of o)) = 10%Q
  ∧ Wh (group GR1 (globals_of o)) = (1008000 # 3600)%Q.
Proof.
  assert (Hshaped : shaped after_one_hour_at_10A) by (split; reflexivity).
  destruct (X18_group_sums utc_runtime (values_of_window "1000" "0")
              after_one_hour_at_10A Hshaped) as ((HA & HWh) & _).
  split; [rewrite HA|rewrite HWh]; vm_compute; reflexivity.
Defined.

(** ** Loading a log *)

Lemma space1_comma : space1 "," = false.
Proof. reflexivity. Qed.

Lemma space2_not_comma c c1 :
  space2 c c1 = true → Ascii.eqb c "," = false ∧ Ascii.eqb c1 "," = false.
Proof.
  unfold space2. intros H.
  destruct (Ascii.eqb_spec c ",") as [->|_]; [discriminate|].
  destruct (Ascii.eqb_spec c1 ",") as [->|_]; [|done].
  apply andb_prop in H as [_ H]. discriminate.
Qed.

Lemma space3_not_comma c c1 c2 :
  space3 c c1 c2 = true →
  Ascii.eqb c "," = false ∧ Ascii.eqb c1 "," = false ∧ Ascii.eqb c2 "," = false.
Proof.
  unfold space3. intros H.
  destruct (Ascii.eqb_spec c ",") as [->|_]; [discriminate|].
  destruct (Ascii.eqb_spec c1 ",") as [->|_];
    [cbn in H; rewrite ?andb_false_r in H; discriminate|].
  destruct (Ascii.eqb_spec c2 ",") as [->|_]; [|done].
  cbn in H. rewrite ?andb_false_r in H. discriminate.
Qed.

(** Induction over a text by one, two or three bytes at a time. *)
Lemma string_bytes_ind (P : string → Prop) :
  P "" →
  (∀ c, P (String c "")) →
  (∀ c c1, P (String c (String c1 ""))) →
  (∀ c s, P s → P (String c s)) →
  ∀ s, P s.
Proof. intros H0 _ _ Hstep s. induction s; auto. Qed.

Lemma all_space_no_comma s : all_space s = true → no_comma s = true.
Proof.
  assert (H : ∀ n s, String.length s < n →
                     all_space s = true → no_comma s = true).
  { induction n as [|n IH]; [lia|]. intros [|c s1] Hlen; [reflexivity|].
    cbn [all_space no_comma String.length] in *.
    destruct (space1 c) eqn:H1.
    - intros H. destruct (Ascii.eqb_spec c ",") as [->|_]; [discriminate|].
      apply IH; [lia|exact H].
    - destruct s1 as [|c1 s2]; [discriminate|].
      cbn [no_comma String.length] in *.
      destruct (space2 c c1) eqn:H2.
      + intros H. destruct (space2_not_comma _ _ H2) as [-> ->].
        apply IH; [lia|exact H].
      + destruct s2 as [|c2 s3]; [discriminate|].
        cbn [no_comma String.length] in *.
        intros H. apply andb_prop in H as [H3 H].
        destruct (space3_not_comma _ _ _ H3) as (-> & -> & ->).
        apply IH; [lia|exact H]. }
  apply (H (S (String.length s))). lia.
Qed.

Lemma all_space_line s : all_space (s +:+ LF) = all_space s.
Proof.
  assert (H : ∀ n s, String.length s < n →
                     all_space (s +:+ LF) = all_space s).
  { induction n as [|n IH]; [lia|]. intros [|c s1] Hlen; [reflexivity|].
    change (String c s1 +:+ LF) with (String c (s1 +:+ LF)).
    cbn [all_space String.length] in *.
    destruct (space1 c) eqn:H1; [apply IH; lia|].
    destruct s1 as [|c1 s2].
    { unfold LF. change ("" +:+ String "010" "") with (String "010" "").
      cbn -[space2 space3 all_space].
      assert (H2 : space2 c "010" = false)
        by (unfold space2; cbn; apply andb_false_r).
      rewrite H2. reflexivity. }
    change (String c1 s2 +:+ LF) with (String c1 (s2 +:+ LF)).
    cbn [String.length] in *.
    destruct (space2 c c1) eqn:H2; [apply IH; lia|].
    destruct s2 as [|c2 s3].
    { unfold LF. change ("" +:+ String "010" "") with (String "010" "").
      cbn -[space2 space3 all_space].
      assert (H3 : space3 c c1 "010" = false)
        by (unfold space3; cbn; rewrite ?andb_false_r; reflexivity).
      rewrite H3. reflexivity. }
    change (String c2 s3 +:+ LF) with (String c2 (s3 +:+ LF)).
    cbn [String.length] in *. rewrite IH by lia. reflexivity. }
  apply (H (S (String.length s))). lia.
Qed.

Lemma rstrip_line s : rstrip (s +:+ LF) = rstrip s.
Proof.
  induction s as [|c s IH]; [reflexivity|].
  change (String c s +:+ LF) with (String c (s +:+ LF)).
  cbn [rstrip]. rewrite IH.
  change (String c (s +:+ LF)) with (String c s +:+ LF).
  rewrite all_space_line. reflexivity.
Qed.

Lemma append_assoc (a b c : string) : (a +:+ b) +:+ c = a +:+ b +:+ c.
Proof.
  induction a as [|x a IH]; [reflexivity|].
  change ((String x a +:+ b) +:+ c) with (String x ((a +:+ b) +:+ c)).
  rewrite IH. reflexivity.
Qed.

Lemma no_comma_app a b :
  no_comma (a +:+ b) = no_comma a && no_comma b.
Proof.
  induction a as [|x a IH]; [reflexivity|].
  change (String x a +:+ b) with (String x (a +:+ b)). cbn [no_comma].
  destruct (Ascii.eqb x ","); [reflexivity|exact IH].
Qed.

Lemma rstrip_app_comma s v : rstrip (s +:+ "," +:+ v) = s +:+ "," +:+ rstrip v.
Proof.
  assert (Hnot : ∀ x, all_space (x +:+ "," +:+ v) = false).
  { intros x. destruct (all_space (x +:+ "," +:+ v)) eqn:H; [|reflexivity].
    apply all_space_no_comma in H. rewrite no_comma_app in H.
    apply andb_prop in H as [_ H]. discriminate. }
  induction s as [|c s IH].
  - change ("" +:+ "," +:+ v) with (String "," v). cbn [rstrip].
    change (String "," v) with ("" +:+ "," +:+ v). rewrite Hnot. reflexivity.
  - change (String c s +:+ "," +:+ v) with (String c (s +:+ "," +:+ v)).
    cbn [rstrip]. rewrite IH.
    change (String c (s +:+ "," +:+ v)) with (String c s +:+ "," +:+ v).
    rewrite Hnot. reflexivity.
Qed.

(** A text that starts with a letter keeps its start. *)
Lemma lstrip_letter c s :
  (65 ≤ N_of_ascii c ≤ 90)%N → lstrip (String c s) = String c s.
Proof.
  intros Hc. cbn [lstrip].
  assert (H1 : space1 c = false).
  { unfold space1. cbn zeta. apply orb_false_intro; apply andb_false_iff;
      right; apply N.leb_gt; lia. }
  rewrite H1. destruct s as [|c1 s2]; [reflexivity|].
  assert (H2 : space2 c c1 = false).
  { unfold space2. destruct (N.eqb_spec (N_of_ascii c) 194); [lia|reflexivity]. }
  rewrite H2. destruct s2 as [|c2 s3]; [reflexivity|].
  assert (H3 : space3 c c1 c2 = false).
  { unfold space3. cbn zeta.
    destruct (N.eqb_spec (N_of_ascii c) 225); [lia|].
    destruct (N.eqb_spec (N_of_ascii c) 226); [lia|].
    destruct (N.eqb_spec (N_of_ascii c) 227); [lia|]. reflexivity. }
  rewrite H3. reflexivity.
Qed.

(** Trimming the line of the file gives the logged text back, without the
    white space at its end, when the text starts with a capital letter and
    has a comma. *)
Lemma strip_file_line c tag msg :
  (65 ≤ N_of_ascii c ≤ 90)%N →
  strip (file_line (String c tag +:+ "," +:+ msg))
  = String c tag +:+ "," +:+ rstrip msg.
Proof.
  intros Hc. unfold strip, file_line.
  change ((String c tag +:+ "," +:+ msg) +:+ LF)
    with (String c ((tag +:+ "," +:+ msg) +:+ LF)).
  rewrite lstrip_letter by exact Hc.
  change (String c ((tag +:+ "," +:+ msg) +:+ LF))
    with ((String c tag +:+ "," +:+ msg) +:+ LF).
  rewrite rstrip_line. apply rstrip_app_comma.
Qed.

Lemma strip_file_line_rx stamp msg :
  strip (file_line (Logger_rx stamp msg)) = Logger_rx stamp (rstrip msg).
Proof.
  unfold Logger_rx.
  change ("PDU," +:+ stamp +:+ "," +:+ msg)
    with (String "P" ("DU," +:+ stamp) +:+ "," +:+ msg).
  rewrite strip_file_line by (vm_compute; split; discriminate). reflexivity.
Qed.

(** The clock is only read when the time stamp does not decode. *)
Lemma parse_telemetry_clock rt u u' raw g log :
  (∀ source stamp rest,
     split "," raw = source :: stamp :: rest →
     fromisoformat_timestamp rt stamp ≠ None) →
  parse_telemetry rt u raw g log = parse_telemetry rt u' raw g log.
Proof.
  intros Hstamp. unfold parse_telemetry.
  destruct (split "," raw) as [|source [|stamp rest]]; try reflexivity.
  destruct (length (source :: stamp :: rest) <? 3)%nat; [reflexivity|].
  unfold mbind, Py_bind, getitem. cbn [lookup list_lookup mret Py_ret].
  destruct (fromisoformat_timestamp rt stamp) eqn:Hdecode; [reflexivity|].
  destruct (Hstamp source stamp rest eq_refl Hdecode).
Qed.

(** X19.  Loading the line of a received packet does what receiving the
    packet did.  For a packet that holds no line break and no white space
    at its end, logged by [Logger.rx] with a time stamp that holds no
    comma and no line break and decodes, the loop of [load_log] on the line
    of the file, started from the same globals, goes on from the outcome
    of the live call of [parse_telemetry] on the logged packet: the same
    globals, the same warnings, and the same exception if there was one;
    the clock readings of the two runs do not matter. *)
Theorem X19_load_log_replays_a_packet rt live replay stamp msg lines g :
  no_comma stamp = true → no_line_break stamp = true →
  fromisoformat_timestamp rt stamp ≠ None →
  no_line_break msg = true → rstrip msg = msg →
  run (load_log rt ((replay, file_line (Logger_rx stamp msg)) :: lines)) g
  = run (parse_telemetry rt live (Logger_rx stamp msg);; load_log rt lines) g.
Proof.
  intros Hcomma _ Hdecode _ Hmsg. unfold run. cbn [load_log].
  rewrite strip_file_line_rx, Hmsg.
  unfold mbind, Py_bind.
  rewrite (parse_telemetry_clock rt replay live); [reflexivity|].
  intros source stamp' rest Hsplit.
  rewrite split_Logger_rx in Hsplit by assumption.
  injection Hsplit as _ <- _. exact Hdecode.
Qed.

Lemma X19_load_log_replays_a_packet_witness :
  run (load_log utc_runtime
         [(5%Q, file_line (Logger_rx "2021-08-01 12:00:00.000" "SRVCSET,1,1"))])
    main_globals
  = run (parse_telemetry utc_runtime 7
           (Logger_rx "2021-08-01 12:00:00.000" "SRVCSET,1,1");;
         load_log utc_runtime []) main_globals.
Proof.
  assert (Hcomma : no_comma "2021-08-01 12:00:00.000" = true) by reflexivity.
  assert (Hline : no_line_break "2021-08-01 12:00:00.000" = true)
    by reflexivity.
  assert (Hdecode : fromisoformat_timestamp utc_runtime "2021-08-01 12:00:00.000"
                    ≠ None) by (vm_compute; discriminate).
  assert (Hbreak : no_line_break "SRVCSET,1,1" = true) by reflexivity.
  assert (Hmsg : rstrip "SRVCSET,1,1" = "SRVCSET,1,1") by reflexivity.
  exact (X19_load_log_replays_a_packet utc_runtime 7%Q 5%Q
           "2021-08-01 12:00:00.000" "SRVCSET,1,1" [] main_globals
           Hcomma Hline Hdecode Hbreak Hmsg).
Defined.

Lemma load_log_app rt before after g log :
  load_log rt (before ++ after) g log
  = (load_log rt before;; load_log rt after) g log.
Proof.
  revert g log. induction before as [|[utcnow line] before IH]; intros g log.
  - reflexivity.
  - cbn [app load_log]. unfold mbind, Py_bind in *.
    destruct (parse_telemetry rt utcnow (strip line) g log); [|reflexivity].
    apply IH.
Qed.

(** X20. [load_log] stops at the first line on which [parse_telemetry]
    raises: the exception leaves [load_log] with the globals reached by the
    lines before, and no later line of the file is processed. *)
Theorem X20_load_log_stops_at_first_error rt before utcnow line after
    g g' log' e g'' log'' :
  run (load_log rt before) g = Ok tt g' log' →
  parse_telemetry rt utcnow (strip line) g' log' = Exn e g'' log'' →
  run (load_log rt (before ++ (utcnow, line) :: after)) g = Exn e g'' log''.
Proof.
  unfold run. intros Hbefore Hline.
  rewrite load_log_app. unfold mbind at 1, Py_bind at 1. rewrite Hbefore.
  cbn [load_log]. unfold mbind, Py_bind. rewrite Hline. reflexivity.
Qed.

Lemma X20_load_log_stops_at_first_error_witness :
  run (load_log utc_runtime
         ([] ++ (0%Q, file_line "PDU,2021-08-01 12:00:00.000,STATUS,1,high")
             :: [(0%Q, file_line "PDU,2021-08-01 12:00:01.000,SRVCSET,1,1")]))
    main_globals
  = Exn ValueError main_globals [].
Proof.
  assert (Hbefore : run (load_log utc_runtime []) main_globals
                    = Ok tt main_globals []) by reflexivity.
  assert (Hline : parse_telemetry utc_runtime 0
                    (strip (file_line "PDU,2021-08-01 12:00:00.000,STATUS,1,high"))
                    main_globals []
                  = Exn ValueError main_globals [])
    by (vm_compute; reflexivity).
  exact (X20_load_log_stops_at_first_error utc_runtime [] 0%Q _
           [(0%Q, file_line "PDU,2021-08-01 12:00:01.000,SRVCSET,1,1")]
           main_globals main_globals [] ValueError main_globals []
           Hbefore Hline).
Defined.

Lemma all_digits_no_comma s : all_digits s = true → no_comma s = true.
Proof.
  induction s as [|c s IH]; [reflexivity|]. cbn [all_digits no_comma].
  destruct (Ascii.eqb_spec c ",") as [->|_]; [discriminate|].
  destruct (is_digit_char c); [exact IH|discriminate].
Qed.

Lemma isdigit_no_comma s : isdigit s = true → no_comma s = true.
Proof.
  unfold isdigit. destruct s; [discriminate|]. apply all_digits_no_comma.
Qed.


(** X21.  A [STATUS] reply whose current does not convert is harmless when
    it is received and fatal when it is loaded.  Received, the exception of
    [parse_telemetry] is swallowed by the reception block, which changes no
    global and skips the refresh of the window.  Loaded from the line
    [Logger.rx] wrote for it, the same packet makes [load_log] raise
    [ValueError], and no later line of the file is processed.  The time
    stamp and the current hold no comma and no line break, and the current
    no white space at its end. *)
Theorem X21_bad_current_received_and_loaded rt live replay stamp id value
    values lines g :
  shaped g →
  no_comma stamp = true → no_line_break stamp = true →
  isdigit id = true → (1 ≤ int id ≤ 6)%Z →
  no_comma value = true → no_line_break value = true → rstrip value = value →
  float rt value = None →
  let data := "STATUS," +:+ id +:+ "," +:+ value in
  run (receive rt live stamp (Some data) values) g
  = Ok tt g (stamp_warnings rt stamp)
  ∧ run (load_log rt ((replay, file_line (Logger_rx stamp data)) :: lines)) g
    = Exn ValueError g (stamp_warnings rt stamp).
Proof.
  intros Hg Hstamp _ Hid Hrange Hvalue _ Htrim Hfloat data.
  assert (Hsplit : split "," (Logger_rx stamp data)
                   = "PDU" :: stamp :: "STATUS" :: id :: value :: []).
  { rewrite split_Logger_rx by assumption. do 2 f_equal.
    apply (split_three "STATUS" id value); auto using isdigit_no_comma. }
  assert (Hparse : ∀ utcnow,
    parse_telemetry rt utcnow (Logger_rx stamp data) g []
    = Exn ValueError g (stamp_warnings rt stamp)).
  { intros utcnow.
    apply (parse_telemetry_STATUS_ValueError rt utcnow _ g stamp id value []
             (int id) Hsplit (isdigit_str_isdigit _ Hid)
             (isdigit_str_int _ Hid) Hrange Hfloat). }
  split.
  - unfold run, receive, except_pass. cbv zeta.
    unfold mbind, Py_bind. rewrite Hparse. reflexivity.
  - unfold run. cbn [load_log]. rewrite strip_file_line_rx.
    assert (Hdata : rstrip data = data).
    { subst data.
      change ("STATUS," +:+ id +:+ "," +:+ value)
        with ("STATUS" +:+ "," +:+ id +:+ "," +:+ value).
      rewrite !rstrip_app_comma. rewrite Htrim. reflexivity. }
    rewrite Hdata. unfold mbind, Py_bind. rewrite Hparse. reflexivity.
Qed.

Lemma X21_bad_current_received_and_loaded_witness :
  run (receive utc_runtime 0 "2021-08-01 12:00:00.000" (Some "STATUS,1,high")
         (values_of_window "1000" "0")) main_globals
  = Ok tt main_globals (stamp_warnings utc_runtime "2021-08-01 12:00:00.000")
  ∧ run (load_log utc_runtime
           [(0%Q, file_line (Logger_rx "2021-08-01 12:00:00.000" "STATUS,1,high"));
            (0%Q, file_line (Logger_rx "2021-08-01 12:00:01.000" "SRVCSET,1,1"))])
      main_globals
    = Exn ValueError main_globals
        (stamp_warnings utc_runtime "2021-08-01 12:00:00.000").
Proof.
  assert (Hg : shaped main_globals) by (split; reflexivity).
  assert (Hstamp : no_comma "2021-08-01 12:00:00.000" = true) by reflexivity.
  assert (Hline : no_line_break "2021-08-01 12:00:00.000" = true)
    by reflexivity.
  assert (Hid : isdigit "1" = true) by reflexivity.
  assert (Hrange : (1 ≤ int "1" ≤ 6)%Z) by (vm_compute; split; discriminate).
  assert (Hvalue : no_comma "high" = true) by reflexivity.
  assert (Hbreak : no_line_break "high" = true) by reflexivity.
  assert (Htrim : rstrip "high" = "high") by reflexivity.
  assert (Hfloat : float utc_runtime "high" = None) by (vm_compute; reflexivity).
  exact (X21_bad_current_received_and_loaded utc_runtime 0%Q 0%Q
           "2021-08-01 12:00:00.000" "1" "high" (values_of_window "1000" "0")
           [(0%Q, file_line (Logger_rx "2021-08-01 12:00:01.000" "SRVCSET,1,1"))]
           main_globals Hg Hstamp Hline Hid Hrange Hvalue Hbreak Htrim Hfloat).
Defined.

(** ** The heater across toggles and ticks *)

Lemma flight_toggle_idle utcnow g :
  in_flight g = false →
  run (flight_toggle utcnow) g =
    Ok tt
      (with_window (set_FLIGHT_TOGGLE "END FLIGHT" (window g))
         (with_in_flight true g))
      [EVENT "START_FLIGHT"].
Proof.
  intros Hidle. unfold run, flight_toggle. py_simpl. rewrite Hidle. reflexivity.
Qed.

(** X22. The toggle button does not bound the time charged to the heater.
    Ending a flight with the button at [t_end] and starting the next one at
    [t_start] integrates nothing, and the first firing pass of the
    auto-refresh block in the new flight charges the heater for the whole
    time since [t_end], idle time included, whatever [t_start] is. *)
Theorem X22_heater_charged_since_toggle_end clock text start t_end t_start g
    (acc : Q) :
  shaped g → in_flight g = true →
  accumulated_Wh (output g) !! _HEATERS_ = Some acc →
  isdigit text = true →
  (inject_Z (int text) <= at_delay clock - start)%Q →
  (0 < t_end)%Q → (t_end < at_delta clock)%Q →
  let g1 := globals_of (run (flight_toggle t_end) g) in
  let g2 := globals_of (run (flight_toggle t_start) g1) in
  let g3 := globals_of (run (auto_refresh clock text start) g2) in
  in_flight g1 = false ∧ in_flight g2 = true
  ∧ accumulated_Wh (output g2) = accumulated_Wh (output g)
  ∧ accumulated_Wh (output g3) !! _HEATERS_
    = Some (acc + heaters_Wh (battery g) (at_delta clock - t_end))%Q
  ∧ last_update_time (output g3) !! _HEATERS_ = Some (at_update clock).
Proof.
  intros Hg Hflying Hacc Hdigit Helapsed Hpos Hlater g1 g2 g3.
  pose proof Hg as [Hc Hl Ha Ho].
  assert (Hg1 : g1 = with_window (set_FLIGHT_TOGGLE "START FLIGHT" (window g))
                       (with_in_flight false
                          (with_output
                             (store_last_update_time
                                (<[_HEATERS_:=t_end]> (last_update_time (output g)))
                                (output g)) g)))
    by (subst g1; rewrite flight_toggle_in_flight by assumption; reflexivity).
  assert (Hg2 : g2 = with_window (set_FLIGHT_TOGGLE "END FLIGHT" (window g1))
                       (with_in_flight true g1))
    by (subst g2; rewrite flight_toggle_idle by (rewrite Hg1; reflexivity);
        reflexivity).
  assert (Hshaped2 : shaped g2).
  { rewrite Hg2, Hg1. split; cbn -[_HEATERS_]; rewrite ?length_insert;
      assumption. }
  assert (Harmed2 : last_update_time (output g2) !! _HEATERS_ = Some t_end).
  { rewrite Hg2, Hg1. cbn -[_HEATERS_].
    apply list_lookup_insert_eq. rewrite Hl. unfold _HEATERS_. lia. }
  assert (Hacc2 : accumulated_Wh (output g2) = accumulated_Wh (output g))
    by (rewrite Hg2, Hg1; reflexivity).
  assert (Hflying2 : in_flight g2 = true) by (rewrite Hg2; reflexivity).
  assert (Hbattery2 : battery g2 = battery g) by (rewrite Hg2, Hg1; reflexivity).
  split; [rewrite Hg1; reflexivity|]. split; [exact Hflying2|].
  split; [exact Hacc2|].
  subst g3.
  rewrite (auto_refresh_fires clock text start g2 t_end acc Hdigit Helapsed
             Hshaped2 Harmed2 (eq_trans (f_equal (λ l, l !! _HEATERS_) Hacc2) Hacc)).
  rewrite Hflying2. cbn -[_HEATERS_].
  assert (H1 : Qltb 0 t_end = true) by (apply Qltb_true; exact Hpos).
  assert (H2 : Qltb 0 (at_delta clock - t_end) = true)
    by (apply Qltb_true; lra).
  rewrite H1, H2, Hbattery2, Hacc2. cbn [andb]. split.
  - apply list_lookup_insert_eq. rewrite Ha. unfold _HEATERS_. lia.
  - apply list_lookup_insert_eq. rewrite Hg2, Hg1. cbn -[_HEATERS_].
    rewrite length_insert, Hl. unfold _HEATERS_. lia.
Qed.

Lemma X22_heater_charged_since_toggle_end_witness :
  let g0 := with_in_flight true main_globals in
  let clock := mkReadings 1627826400 1627826400 1627826400 1627826400 in
  let g1 := globals_of (run (flight_toggle 1627819200) g0) in
  let g2 := globals_of (run (flight_toggle 1627826390) g1) in
  let g3 := globals_of (run (auto_refresh clock "10" 1627826390%Q) g2) in
  accumulated_Wh (output g3) !! _HEATERS_
  = Some (0 + heaters_Wh (battery g0) (1627826400 - 1627819200))%Q.
Proof.
  intros g0 clock.
  assert (Hg : shaped g0) by (split; reflexivity).
  assert (Hflying : in_flight g0 = true) by reflexivity.
  assert (Hacc : accumulated_Wh (output g0) !! _HEATERS_ = Some 0%Q)
    by reflexivity.
  assert (Hdigit : isdigit "10" = true) by reflexivity.
  assert (Helapsed : (inject_Z (int "10") <= at_delay clock - 1627826390)%Q)
    by (vm_compute; discriminate).
  assert (Hpos : (0 < 1627819200)%Q) by reflexivity.
  assert (Hlater : (1627819200 < at_delta clock)%Q) by reflexivity.
  destruct (X22_heater_charged_since_toggle_end clock "10" 1627826390%Q
              1627819200%Q 1627826390%Q g0 0%Q
              Hg Hflying Hacc Hdigit Helapsed Hpos Hlater)
    as (_ & _ & _ & Hcharged & _).
  exact Hcharged.
Defined.

(** X23. The reception block never raises and never writes the accounting
    data beyond what [parse_telemetry] did: without a datagram it changes
    nothing; with one, the lists of [output] and the flight flag are after
    the block what they are after [parse_telemetry] alone on the logged
    packet, whether the refresh of the window that follows returns, raises
    or is skipped. *)
Theorem X23_reception_block rt utcnow stamp data values g :
  let o := run (receive rt utcnow stamp data values) g in
  raised o = None
  ∧ match data with
    | None => o = Ok tt g []
    | Some data =>
        let parsed :=
          globals_of (run (parse_telemetry rt utcnow (Logger_rx stamp data)) g) in
        output (globals_of o) = output parsed
        ∧ in_flight (globals_of o) = in_flight parsed
    end.
Proof.
  intros o. subst o. unfold run, receive, except_pass.
  destruct data as [data|]; [|split; reflexivity].
  cbv zeta. unfold mbind, Py_bind.
  destruct (parse_telemetry rt utcnow (Logger_rx stamp data) g [])
    as [[] g' log'|e g' log']; [|repeat split].
  pose proof (refresh_respects_accounts rt values g' log') as [Hout Hfl].
  destruct (refresh_telemetry_stats_on_gui rt values g' log');
    split; try reflexivity; split; assumption.
Qed.

(** X24. Two firing passes of the auto-refresh block in flight, the heater
    armed at [armed] before the first.  The heater is charged for the time
    from [armed] to the third clock reading of the second pass, less the
    time between the third and the fourth reading of the first pass, which
    is counted by neither. *)
Theorem X24_two_ticks clock1 clock2 text1 text2 start1 start2 g (armed acc : Q) :
  shaped g → in_flight g = true →
  last_update_time (output g) !! _HEATERS_ = Some armed →
  accumulated_Wh (output g) !! _HEATERS_ = Some acc →
  isdigit text1 = true →
  (inject_Z (int text1) <= at_delay clock1 - start1)%Q →
  isdigit text2 = true →
  (inject_Z (int text2) <= at_delay clock2 - start2)%Q →
  (0 < armed)%Q → (armed < at_delta clock1)%Q →
  (0 < at_update clock1)%Q → (at_update clock1 < at_delta clock2)%Q →
  let g1 := globals_of (run (auto_refresh clock1 text1 start1) g) in
  let g2 := globals_of (run (auto_refresh clock2 text2 start2) g1) in
  ∃ acc2,
    accumulated_Wh (output g2) !! _HEATERS_ = Some acc2
    ∧ (acc2 == acc + heaters_Wh (battery g)
                       ((at_delta clock2 - armed)
                        - (at_update clock1 - at_delta clock1)))%Q
    ∧ last_update_time (output g2) !! _HEATERS_ = Some (at_update clock2).
Proof.
  intros Hg Hflying Harmed Hacc Hd1 He1 Hd2 He2 Hpos1 Hlater1 Hpos2 Hlater2 g1 g2.
  pose proof Hg as [Hc Hl Ha Ho].
  assert (Hg1 : g1 = with_output
            {| current := current (output g);
               last_update_time :=
                 <[_HEATERS_:=at_update clock1]> (last_update_time (output g));
               accumulated_Wh :=
                 <[_HEATERS_:=(acc + heaters_Wh (battery g)
                                       (at_delta clock1 - armed))%Q]>
                   (accumulated_Wh (output g));
               is_on := is_on (output g) |} g).
  { subst g1.
    rewrite (auto_refresh_fires clock1 text1 start1 g armed acc Hd1 He1 Hg
               Harmed Hacc).
    rewrite Hflying.
    assert (H1 : Qltb 0 armed = true) by (apply Qltb_true; exact Hpos1).
    assert (H2 : Qltb 0 (at_delta clock1 - armed) = true)
      by (apply Qltb_true; lra).
    rewrite H1, H2. reflexivity. }
  assert (Hshaped1 : shaped g1).
  { rewrite Hg1. split; cbn -[_HEATERS_]; rewrite ?length_insert; assumption. }
  assert (Harmed1 : last_update_time (output g1) !! _HEATERS_
                    = Some (at_update clock1)).
  { rewrite Hg1. cbn -[_HEATERS_]. apply list_lookup_insert_eq.
    rewrite Hl. unfold _HEATERS_. lia. }
  assert (Hacc1 : accumulated_Wh (output g1) !! _HEATERS_
                  = Some (acc + heaters_Wh (battery g)
                                  (at_delta clock1 - armed))%Q).
  { rewrite Hg1. cbn -[_HEATERS_]. apply list_lookup_insert_eq.
    rewrite Ha. unfold _HEATERS_. lia. }
  subst g2.
  rewrite (auto_refresh_fires clock2 text2 start2 g1 _ _ Hd2 He2 Hshaped1
             Harmed1 Hacc1).
  assert (Hflying1 : in_flight g1 = true) by (rewrite Hg1; exact Hflying).
  assert (Hbattery1 : battery g1 = battery g) by (rewrite Hg1; reflexivity).
  rewrite Hflying1, Hbattery1.
  assert (H1 : Qltb 0 (at_update clock1) = true)
    by (apply Qltb_true; exact Hpos2).
  assert (H2 : Qltb 0 (at_delta clock2 - at_update clock1) = true)
    by (apply Qltb_true; lra).
  rewrite H1, H2. cbn -[_HEATERS_].
  eexists. split; [|split].
  - apply list_lookup_insert_eq. rewrite Hg1. cbn -[_HEATERS_].
    rewrite length_insert, Ha. unfold _HEATERS_. lia.
  - unfold heaters_Wh. field.
  - apply list_lookup_insert_eq. rewrite Hg1. cbn -[_HEATERS_].
    rewrite length_insert, Hl. unfold _HEATERS_. lia.
Qed.

Lemma X24_two_ticks_witness :
  let g0 := globals_of
              (run (parse_telemetry utc_runtime 0
                      "GND,2021-08-01 12:00:00.000,EVENT,START_FLIGHT")
                 main_globals) in
  let clock1 := mkReadings 1627819210 1627819210 1627819210 1627819211 in
  let clock2 := mkReadings 1627819221 1627819221 1627819221 1627819221 in
  let g1 := globals_of (run (auto_refresh clock1 "10" 1627819200%Q) g0) in
  let g2 := globals_of (run (auto_refresh clock2 "10" 1627819210%Q) g1) in
  ∃ acc2,
    accumulated_Wh (output g2) !! _HEATERS_ = Some acc2
    ∧ (acc2 == 0 + heaters_Wh (battery g0)
                     ((1627819221 - 1627819200) - (1627819211 - 1627819210)))%Q.
Proof.
  intros g0 clock1 clock2.
  assert (Hg : shaped g0) by (split; reflexivity).
  assert (Hflying : in_flight g0 = true) by reflexivity.
  assert (Harmed : last_update_time (output g0) !! _HEATERS_
                   = Some 1627819200%Q) by (vm_compute; reflexivity).
  assert (Hacc : accumulated_Wh (output g0) !! _HEATERS_ = Some 0%Q)
    by reflexivity.
  assert (Hd : isdigit "10" = true) by reflexivity.
  assert (He1 : (inject_Z (int "10") <= at_delay clock1 - 1627819200)%Q)
    by (vm_compute; discriminate).
  assert (He2 : (inject_Z (int "10") <= at_delay clock2 - 1627819210)%Q)
    by (vm_compute; discriminate).
  assert (Hpos1 : (0 < 1627819200)%Q) by reflexivity.
  assert (Hlater1 : (1627819200 < at_delta clock1)%Q) by reflexivity.
  assert (Hpos2 : (0 < at_update clock1)%Q) by reflexivity.
  assert (Hlater2 : (at_update clock1 < at_delta clock2)%Q) by reflexivity.
  destruct (X24_two_ticks clock1 clock2 "10" "10" 1627819200%Q 1627819210%Q
              g0 1627819200%Q 0%Q
              Hg Hflying Harmed Hacc Hd He1 Hd He2 Hpos1 Hlater1 Hpos2 Hlater2)
    as (acc2 & Hacc2 & Heq & _).
  exists acc2. split; [exact Hacc2 | exact Heq].
Defined.

(** ** The lines of the ground in a loaded log *)

Lemma strip_file_line_GND stamp msg :
  strip (file_line ("GND," +:+ stamp +:+ "," +:+ msg))
  = "GND," +:+ stamp +:+ "," +:+ rstrip msg.
Proof.
  change ("GND," +:+ stamp +:+ "," +:+ msg)
    with (String "G" ("ND," +:+ stamp) +:+ "," +:+ msg).
  rewrite strip_file_line by (vm_compute; split; discriminate). reflexivity.
Qed.

Lemma split_GND stamp msg :
  no_comma stamp = true →
  split "," ("GND," +:+ stamp +:+ "," +:+ msg) = "GND" :: stamp :: split "," msg.
Proof.
  intros Hstamp.
  change ("GND," +:+ stamp +:+ "," +:+ msg)
    with ("GND" +:+ "," +:+ stamp +:+ "," +:+ msg).
  rewrite split_app_comma by reflexivity.
  rewrite split_app_comma by assumption. reflexivity.
Qed.

(** X25. [load_log] passes over what the ground wrote in the log besides
    flight events, as long as the text written holds no line break: the
    line of a warning, and the line of a sent command whose first field
    (white space at the end of the command apart) is not [EVENT], change
    no global and raise nothing; this holds for every command of
    [send_refresh_all], none of which holds a line break. *)
Theorem X25_load_log_passes_ground_lines rt utcnow stamp g :
  no_comma stamp = true → no_line_break stamp = true →
  (∀ msg,
     no_line_break msg = true →
     run (load_log rt [(utcnow, file_line (Logger_warning stamp msg))]) g
     = Ok tt g (stamp_warnings rt stamp))
  ∧ (∀ cmd,
       no_line_break cmd = true →
       head (split "," (rstrip cmd)) ≠ Some "EVENT" →
       run (load_log rt [(utcnow, file_line (Logger_tx stamp cmd))]) g
       = Ok tt g (stamp_warnings rt stamp))
  ∧ Forall (λ cmd, no_line_break cmd = true
                   ∧ head (split "," (rstrip cmd)) ≠ Some "EVENT")
      send_refresh_all.
Proof.
  intros Hstamp _. split; [|split].
  - intros msg _. unfold run. cbn [load_log]. unfold Logger_warning.
    change ("GND," +:+ stamp +:+ ",WARNING," +:+ msg)
      with ("GND," +:+ stamp +:+ "," +:+ "WARNING" +:+ "," +:+ msg).
    rewrite strip_file_line_GND, rstrip_app_comma.
    unfold mbind, Py_bind.
    pose proof (parse_telemetry_fields rt utcnow
                  ("GND," +:+ stamp +:+ "," +:+ "WARNING" +:+ "," +:+ rstrip msg)
                  g "GND" stamp "WARNING" (split "," (rstrip msg))) as Hfields.
    unfold run in Hfields. rewrite Hfields; [reflexivity|].
    rewrite split_GND by assumption.
    rewrite split_app_comma by reflexivity. reflexivity.
  - intros cmd _ Hcmd. unfold run. cbn [load_log]. unfold Logger_tx.
    rewrite strip_file_line_GND. unfold mbind, Py_bind.
    destruct (split_cons_inv (rstrip cmd)) as (header & rest & Hsplit).
    pose proof (parse_telemetry_fields rt utcnow
                  ("GND," +:+ stamp +:+ "," +:+ rstrip cmd)
                  g "GND" stamp header rest) as Hfields.
    unfold run in Hfields. rewrite Hfields.
    + cbn [negb String.eqb Ascii.eqb Bool.eqb].
      destruct (String.eqb_spec header "EVENT") as [->|_]; [|reflexivity].
      rewrite Hsplit in Hcmd. contradiction.
    + rewrite split_GND by assumption. rewrite Hsplit. reflexivity.
  - repeat constructor; discriminate.
Qed.

Lemma X25_load_log_passes_ground_lines_witness :
  run (load_log utc_runtime
         [(0%Q, file_line (Logger_tx "2021-08-01 12:00:00.000" "SETSRVC,1,1"))])
    main_globals
  = Ok tt main_globals (stamp_warnings utc_runtime "2021-08-01 12:00:00.000").
Proof.
  assert (Hstamp : no_comma "2021-08-01 12:00:00.000" = true) by reflexivity.
  assert (Hline : no_line_break "2021-08-01 12:00:00.000" = true)
    by reflexivity.
  destruct (X25_load_log_passes_ground_lines utc_runtime 0%Q
              "2021-08-01 12:00:00.000" main_globals Hstamp Hline)
    as (_ & Htx & _).
  apply Htx; [reflexivity | discriminate].
Defined.

Lemma load_log_event_line rt utcnow stamp msg lines g log :
  rstrip msg = msg →
  load_log rt ((utcnow, file_line (log_file_line stamp (EVENT msg))) :: lines)
    g log
  = (parse_telemetry rt utcnow (Logger_event stamp msg);; load_log rt lines)
      g log.
Proof.
  intros Hmsg. cbn [load_log log_file_line]. unfold Logger_event.
  change ("GND," +:+ stamp +:+ ",EVENT," +:+ msg)
    with ("GND," +:+ stamp +:+ "," +:+ "EVENT" +:+ "," +:+ msg).
  rewrite strip_file_line_GND, rstrip_app_comma, Hmsg. reflexivity.
Qed.

Lemma split_Logger_event stamp msg :
  no_comma stamp = true → no_comma msg = true →
  split "," (Logger_event stamp msg) = ["GND"; stamp; "EVENT"; msg].
Proof.
  intros Hstamp Hmsg. unfold Logger_event.
  change ("GND," +:+ stamp +:+ ",EVENT," +:+ msg)
    with ("GND," +:+ stamp +:+ "," +:+ "EVENT" +:+ "," +:+ msg).
  rewrite split_GND by assumption.
  rewrite split_app_comma, split_no_comma by (assumption || reflexivity).
  reflexivity.
Qed.

(** X26. The two presses of the button that start and end a flight do
    not charge the heater themselves, and loading their log does.  From an
    idle session, the presses hand [START_FLIGHT] and [END_FLIGHT] to the
    logger and leave the energy of the heater as it was.  Loading the two
    lines the logger wrote for them, with time stamps that decode to
    [0 < t1 < t2], ends idle with the heater charged for [t2 - t1] and its
    last update time at 0. *)
Theorem X26_button_flight_live_and_loaded rt t_start t_end replay1 replay2
    stamp1 stamp2 g (t1 t2 acc : Q) :
  shaped g → in_flight g = false →
  accumulated_Wh (output g) !! _HEATERS_ = Some acc →
  no_comma stamp1 = true → no_comma stamp2 = true →
  fromisoformat_timestamp rt stamp1 = Some t1 →
  fromisoformat_timestamp rt stamp2 = Some t2 →
  (0 < t1)%Q → (t1 < t2)%Q →
  let live1 := run (flight_toggle t_start) g in
  let live2 := run (flight_toggle t_end) (globals_of live1) in
  let lines :=
    [(replay1, file_line (log_file_line stamp1 (EVENT "START_FLIGHT")));
     (replay2, file_line (log_file_line stamp2 (EVENT "END_FLIGHT")))] in
  let loaded := run (load_log rt lines) g in
  (log_of live1 = [EVENT "START_FLIGHT"]
   ∧ log_of live2 = [EVENT "END_FLIGHT"]
   ∧ in_flight (globals_of live2) = false
   ∧ accumulated_Wh (output (globals_of live2)) !! _HEATERS_ = Some acc)
  ∧ (raised loaded = None
     ∧ in_flight (globals_of loaded) = false
     ∧ accumulated_Wh (output (globals_of loaded)) !! _HEATERS_
       = Some (acc + heaters_Wh (battery g) (t2 - t1))%Q
     ∧ last_update_time (output (globals_of loaded)) !! _HEATERS_ = Some 0%Q).
Proof.
  intros Hg Hidle Hacc Hs1 Hs2 Ht1 Ht2 Hpos Hlater live1 live2 lines loaded.
  pose proof Hg as [Hc Hl Ha Ho].
  split.
  - subst live2 live1. rewrite (flight_toggle_idle t_start g Hidle).
    cbn [globals_of log_of].
    rewrite flight_toggle_in_flight;
      [|reflexivity|split; assumption].
    cbn -[_HEATERS_]. repeat split. exact Hacc.
  - assert (Hloaded : loaded = run (load_log rt lines) g) by reflexivity.
    clearbody loaded. subst lines. unfold run in Hloaded.
    rewrite load_log_event_line in Hloaded by reflexivity.
    unfold mbind at 1, Py_bind at 1 in Hloaded.
    pose proof (parse_telemetry_START_FLIGHT rt replay1
                  (Logger_event stamp1 "START_FLIGHT") g "GND" stamp1 []
                  (split_Logger_event stamp1 "START_FLIGHT" Hs1 eq_refl)
                  ltac:(discriminate) Hg) as Hstart.
    unfold run in Hstart. rewrite Hstart in Hloaded. clear Hstart.
    unfold stamp_warnings, time_of_reception in Hloaded.
    rewrite Ht1 in Hloaded. cbn [default Datatypes.id] in Hloaded.
    match type of Hloaded with
    | context [load_log _ _ ?x []] => set (g1 := x) in Hloaded
    end.
    assert (Hg1 : shaped g1)
      by (subst g1; split; cbn -[_HEATERS_]; rewrite ?length_insert; assumption).
    assert (Harmed : last_update_time (output g1) !! _HEATERS_ = Some t1).
    { subst g1. cbn -[_HEATERS_]. apply list_lookup_insert_eq.
      rewrite Hl. unfold _HEATERS_. lia. }
    assert (Hacc1 : accumulated_Wh (output g1) !! _HEATERS_ = Some acc)
      by exact Hacc.
    assert (Hbattery1 : battery g1 = battery g) by reflexivity.
    assert (Hl1 : length (last_update_time (output g1)) = 7) by apply Hg1.
    assert (Ha1 : length (accumulated_Wh (output g1)) = 7) by apply Hg1.
    clearbody g1.
    rewrite load_log_event_line in Hloaded by reflexivity.
    unfold mbind at 1, Py_bind at 1 in Hloaded.
    pose proof (parse_telemetry_END_FLIGHT rt replay2
                  (Logger_event stamp2 "END_FLIGHT") g1 "GND" stamp2 []
                  t1 acc
                  (split_Logger_event stamp2 "END_FLIGHT" Hs2 eq_refl)
                  ltac:(discriminate) Hg1 Harmed Hacc1 Hpos) as Hend.
    unfold run in Hend. cbv zeta in Hend. rewrite Hend in Hloaded. clear Hend.
    unfold stamp_warnings, time_of_reception in Hloaded.
    rewrite Ht2 in Hloaded. cbn [default Datatypes.id] in Hloaded.
    assert (Hdelta : Qltb 0 (t2 - t1) = true) by (apply Qltb_true; lra).
    rewrite Hdelta, Hbattery1 in Hloaded. subst loaded. cbn -[_HEATERS_].
    split; [reflexivity|]. split; [reflexivity|]. split.
    + apply list_lookup_insert_eq. rewrite Ha1. unfold _HEATERS_. lia.
    + apply list_lookup_insert_eq. rewrite Hl1. unfold _HEATERS_. lia.
Qed.

Lemma X26_button_flight_live_and_loaded_witness :
  let lines :=
    [(0%Q, file_line (log_file_line "2021-08-01 12:00:00.000"
                        (EVENT "START_FLIGHT")));
     (0%Q, file_line (log_file_line "2021-08-01 13:00:00.000"
                        (EVENT "END_FLIGHT")))] in
  let loaded := run (load_log utc_runtime lines) main_globals in
  accumulated_Wh (output (globals_of loaded)) !! _HEATERS_
  = Some (0 + heaters_Wh (battery main_globals) (1627822800 - 1627819200))%Q.
Proof.
  intros lines loaded.
  assert (Hg : shaped main_globals) by (split; reflexivity).
  assert (Hidle : in_flight main_globals = false) by reflexivity.
  assert (Hacc : accumulated_Wh (output main_globals) !! _HEATERS_ = Some 0%Q)
    by reflexivity.
  assert (Hs1 : no_comma "2021-08-01 12:00:00.000" = true) by reflexivity.
  assert (Hs2 : no_comma "2021-08-01 13:00:00.000" = true) by reflexivity.
  assert (Ht1 : fromisoformat_timestamp utc_runtime "2021-08-01 12:00:00.000"
                = Some 1627819200%Q) by (vm_compute; reflexivity).
  assert (Ht2 : fromisoformat_timestamp utc_runtime "2021-08-01 13:00:00.000"
                = Some 1627822800%Q) by (vm_compute; reflexivity).
  assert (Hpos : (0 < 1627819200)%Q) by reflexivity.
  assert (Hlater : (1627819200 < 1627822800)%Q) by reflexivity.
  destruct (X26_button_flight_live_and_loaded utc_runtime 1627819200%Q
              1627822800%Q 0%Q 0%Q "2021-08-01 12:00:00.000"
              "2021-08-01 13:00:00.000" main_globals 1627819200%Q
              1627822800%Q 0%Q Hg Hidle Hacc Hs1 Hs2 Ht1 Ht2 Hpos Hlater)
    as (_ & _ & _ & Hcharged & _).
  exact Hcharged.
Defined.
